(** * OtakuLATAM ETL: transform / load pipeline

    A shallow embedding of the pipeline core of the repository
    (backend/etl, backend/services, backend/database, backend/api) and the
    properties its specification states about it.

    Conventions of the embedding.
    - Python [str] is [string].  In the transformer [str.strip] and
      [str.lower] are functions of the library record, which agree with the
      ASCII versions on ASCII text; the headers of the extractor are ASCII.
    - A number of a frame is a rational [Q], and a missing one (NaN) the
      absent value of an [option]; the double pandas holds for it is the
      nearest one, [F64.of_Q], which is the number itself when that is a
      double.  What the transformer computes from such numbers is computed
      in IEEE-754 binary64 ([F64], on the Standard Library's [SpecFloat]) as
      numpy computes it.  A [Decimal] is a rational, a NaN, a signalling
      NaN or an infinity.
    - The endpoint of the rate is met anew by every request: [api] is what
      the next request meets, [api_later] what the ones after it meet.
    - A pandas DataFrame is a list of rows; a vectorised column operation is
      the corresponding [map] over the rows.
    - Code that can raise returns a [result]; code that touches the clock,
      the network, the disk or the database threads a [World]. *)

From Stdlib Require Import String Ascii List ZArith QArith Bool Lia.
From Stdlib Require Import DecimalString SpecFloat.
Import ListNotations.
Open Scope string_scope.
Open Scope Q_scope.

(** ** Python strings *)

Module PyStr.

(** Characters removed by [str.strip()] in the ASCII range:
    TAB, LF, VT, FF, CR, FS, GS, RS, US and SPACE. *)
Definition is_space (c : ascii) : bool :=
  let n := nat_of_ascii c in
  ((9 <=? n) && (n <=? 13) || (28 <=? n) && (n <=? 32))%nat.

Definition lower_char (c : ascii) : ascii :=
  let n := nat_of_ascii c in
  if ((65 <=? n) && (n <=? 90))%nat then ascii_of_nat (n + 32) else c.

Fixpoint lower (s : string) : string :=
  match s with
  | EmptyString => EmptyString
  | String c r => String (lower_char c) (lower r)
  end.

Fixpoint lstrip (s : string) : string :=
  match s with
  | EmptyString => EmptyString
  | String c r => if is_space c then lstrip r else s
  end.

Fixpoint rstrip (s : string) : string :=
  match s with
  | EmptyString => EmptyString
  | String c r =>
      match rstrip r with
      | EmptyString => if is_space c then EmptyString else String c EmptyString
      | r' => String c r'
      end
  end.

Definition strip (s : string) : string := rstrip (lstrip s).

(** Text of the ASCII range. *)
Fixpoint is_ascii (s : string) : bool :=
  match s with
  | EmptyString => true
  | String c r => (nat_of_ascii c <? 128)%nat && is_ascii r
  end.

(** A Python [dict] with string keys, used only for lookups. *)
Definition dict (V : Type) := list (string * V).

Fixpoint get {V} (d : dict V) (k : string) : option V :=
  match d with
  | [] => None
  | (k', v) :: d' => if String.eqb k' k then Some v else get d' k
  end.

Definition keys {V} (d : dict V) : list string := List.map fst d.

Definition mem (k : string) (l : list string) : bool :=
  existsb (String.eqb k) l.

End PyStr.

(** ** Exceptions and results *)

Inductive exn : Type :=
| RequestException (msg : string)   (* requests.exceptions.RequestException *)
| ValueError (msg : string)
| KeyError (msg : string)
| TypeError (msg : string)
| AttributeError (msg : string)
| InvalidOperation                  (* decimal.InvalidOperation *)
| OSError (msg : string)
| DatabaseError (msg : string)      (* mysql.connector.Error *)
| Exception (msg : string).

Inductive result (A : Type) : Type :=
| Ok (a : A)
| Raise (e : exn).
Arguments Ok {A} a.
Arguments Raise {A} e.

Definition rbind {A B} (r : result A) (k : A -> result B) : result B :=
  match r with
  | Ok a => k a
  | Raise e => Raise e
  end.

Notation "'try!' v <- r ; k" := (rbind r (fun v => k))
  (right associativity, at level 61, v name, r at next level).

(** [str(e)] of an exception, as interpolated by the f-strings of the loader. *)
Definition exn_str (e : exn) : string :=
  match e with
  | RequestException m | ValueError m | KeyError m | TypeError m
  | AttributeError m | OSError m | DatabaseError m | Exception m => m
  | InvalidOperation => "[<class 'decimal.ConversionSyntax'>]"
  end.

(** ** Numbers *)

(** IEEE-754 binary64, the [float] of Python and the float64 of numpy, with
    rounding to nearest, ties to even. *)
Module F64.

Definition prec : Z := 53.
Definition emax : Z := 1024.

Definition t : Type := spec_float.

Definition nan : t := S754_nan.

Definition is_nan (x : t) : bool :=
  match x with
  | S754_nan => true
  | _ => false
  end.

Definition mul : t -> t -> t := SFmul prec emax.
Definition div : t -> t -> t := SFdiv prec emax.
Definition add : t -> t -> t := SFadd prec emax.
Definition ltb : t -> t -> bool := SFltb.

(** The float of an integer. *)
Definition of_Z (z : Z) : t := binary_normalize prec emax z 0 false.

(** The float nearest to a rational: the quotient of numerator and
    denominator, rounded once. *)
Definition of_Q (q : Q) : t :=
  let nearest (s : bool) (n : positive) : t :=
    let '(mz, ez, lz) :=
      SFdiv_core_binary prec emax (Zpos n) 0 (Zpos (Qden q)) 0 in
    binary_round_aux prec emax s mz ez lz in
  match Qnum q with
  | Z0 => S754_zero false
  | Zpos n => nearest false n
  | Zneg n => nearest true n
  end.

(** [numpy.rint]: the nearest integer, ties to even; the sign is kept. *)
Definition rint (x : t) : t :=
  match x with
  | S754_finite s m (Zneg p) =>
      let d := Z.pow 2 (Zpos p) in
      let q := Z.div (Zpos m) d in
      let r := Z.modulo (Zpos m) d in
      let k := match Z.compare (2 * r) d with
               | Lt => q
               | Gt => (q + 1)%Z
               | Eq => if Z.even q then q else (q + 1)%Z
               end in
      binary_normalize prec emax (if s then Z.opp k else k) 0 s
  | _ => x
  end.

(** [numpy.round(x, 2)] and [Series.round(2)]: multiply by 100, [rint],
    divide by 100. *)
Definition round2 (x : t) : t := div (rint (mul x (of_Z 100))) (of_Z 100).

(** A float as the cell of a column: NaN is the missing value. *)
Definition cell (x : t) : option t := if is_nan x then None else Some x.

(** The float of the number in a cell. *)
Definition of_cell (v : option Q) : t :=
  match v with
  | Some q => of_Q q
  | None => nan
  end.

(** The float in a cell of a float column. *)
Definition get (v : option t) : t :=
  match v with
  | Some x => x
  | None => nan
  end.

End F64.

(** A [decimal.Decimal]: a finite number, or one of the special values that
    [Decimal(text)] accepts. *)
Inductive Decimal : Type :=
| Dec (q : Q)
| DecNaN
| DecSNaN
| DecInf (negative : bool).

Coercion Dec : Q >-> Decimal.

(** The fallback rate, [Decimal('4200.00')]. *)
Definition fallback_trm : Q := 4200.

(** [bool(d)] of a Decimal: only zero is falsy. *)
Definition truthy (d : Decimal) : bool :=
  match d with
  | Dec q => negb (Qeq_bool q 0)
  | _ => true
  end.

(** [a or b] on an optional Decimal. *)
Definition py_or (a : option Decimal) (b : Decimal) : Decimal :=
  match a with
  | Some d => if truthy d then d else b
  | None => b
  end.

(** [float(d)] of a Decimal: the nearest float; a signalling NaN is
    refused. *)
Definition float (d : Decimal) : result F64.t :=
  match d with
  | Dec q => Ok (F64.of_Q q)
  | DecNaN => Ok F64.nan
  | DecInf s => Ok (S754_infinity s)
  | DecSNaN => Raise (ValueError "cannot convert signaling NaN to float")
  end.

(** [int(x)] of a float: truncation toward zero. *)
Definition py_int (x : Q) : Z := Z.quot (Qnum x) (Zpos (Qden x)).

(** ** Values exchanged with the outside *)

(** A value decoded by [json.load] / [response.json()]. *)
#[local] Unset Elimination Schemes.
Inductive json : Type :=
| JNull
| JBool (b : bool)
| JNum (q : Q)
| JNonFinite (f : F64.t)            (* the literals NaN, Infinity, -Infinity *)
| JStr (s : string)
| JArr (l : list json)
| JObj (m : PyStr.dict json).
#[local] Set Elimination Schemes.

(** Functions of the Python runtime and of pandas whose grammar is the
    library's own.  A development instantiates them; every statement below
    holds for any instance. *)
Record PyLib : Type := mkPyLib {
  (** [pandas.to_numeric(errors='coerce')] on one text cell; [None] is NaN *)
  to_numeric_str : string -> option Q;
  (** [str(x)] of a number *)
  str_num : Q -> string;
  (** [Decimal(str(v))] of a decoded JSON value; [None]: InvalidOperation *)
  Decimal_of_json : json -> option Decimal;
  (** [str.strip()] and [str.lower()] *)
  str_strip : string -> string;
  str_lower : string -> string;
  (** [Series.mean()], which skips the missing values *)
  series_mean : list (option F64.t) -> option F64.t;
  (** [datetime.fromisoformat]; [None]: ValueError *)
  fromisoformat : string -> option Z;
  (** [datetime.isoformat] *)
  isoformat : Z -> string;
  (** [datetime.strftime] for a given format *)
  strftime : string -> Z -> string;
  (** the parsing attempts of [datetime_to_mysql_string] on a string *)
  parse_datetime : string -> option Z;
  (** whether [datetime.strptime(s, MYSQL_DATETIME_FORMAT)] succeeds *)
  strptime_mysql_ok : string -> bool;
  (** on ASCII text, [strip] removes the ASCII whitespace at both ends and
      [lower] changes the letters A to Z only *)
  str_strip_ascii :
    forall s, PyStr.is_ascii s = true -> str_strip s = PyStr.strip s;
  str_lower_ascii :
    forall s, PyStr.is_ascii s = true -> str_lower s = PyStr.lower s
}.

(** Formats of utils/date_utils.py. *)
Definition MYSQL_DATETIME_FORMAT : string := "%Y-%m-%d %H:%M:%S".
Definition TIMESTAMP_FORMAT : string := "%Y%m%d_%H%M%S".

(** A [timedelta] and a [datetime] are counted in microseconds. *)
Definition timedelta_hours (h : Z) : Z := (h * 3600 * 1000000)%Z.

(** ** DataFrames *)

Inductive dtype : Type := object | float64.

(** One cell of a column read from a file. *)
Inductive cell : Type :=
| NaN
| PyNone
| Str (s : string)
| Num (q : Q).

Definition cell_isnull (c : cell) : bool :=
  match c with
  | NaN | PyNone => true
  | _ => false
  end.

Definition isnull {A} (o : option A) : bool :=
  match o with
  | None => true
  | Some _ => false
  end.

(** The frame handed over by the extractor: the five required columns, each
    with the dtype pandas inferred for it. *)
Module Raw.
Record Row : Type := mkRow {
  name : cell; age : cell; gender : cell; income : cell; illness : cell }.
Record Dtypes : Type := mkDtypes {
  d_name : dtype; d_age : dtype; d_gender : dtype; d_income : dtype;
  d_illness : dtype }.
Record DataFrame : Type := mkDF { dtypes : Dtypes; rows : list Row }.
End Raw.

(** The working frame of the transformer.  A column that holds NaN in a row,
    or that has not been created yet, is [None] there. *)
Module Work.
Record Row : Type := mkRow {
  name : cell;
  age : option Q;
  gender : option string;
  income : option Q;
  illness : option string;
  genero_es : option string;
  Illness : option string;
  enfermedad_es : option string;
  edad_lustros : option F64.t;
  ingreso_cop : option F64.t;
  trm_utilizada : option F64.t }.
End Work.

(** The canonical record: the columns of [desired_order]. *)
Module Canon.
Record Row : Type := mkRow {
  nombre : cell;
  edad_anos : option Q;
  edad_lustros : option F64.t;
  genero_original : option string;
  genero_es : option string;
  ingreso_usd : option Q;
  ingreso_cop : option F64.t;
  trm_utilizada : option F64.t;
  enfermedad_original : option string;
  enfermedad_es : option string;
  fecha_procesamiento : string }.
End Canon.

(** The dictionary built per row by [_prepare_dataframe_for_database]; it
    always carries the eleven keys, so [record.get(key, default)] never uses
    its default. *)
Module Persona.
Record Row : Type := mkRow {
  nombre : string;
  edad_anos : Z;
  edad_lustros : F64.t;
  genero_original : string;
  genero_es : string;
  ingreso_usd : Q;
  ingreso_cop : F64.t;
  trm_utilizada : F64.t;
  enfermedad_original : string;
  enfermedad_es : string;
  fecha_procesamiento : string }.
End Persona.

(** ** The outside world *)

(** What the rate endpoint does with one GET. *)
Inductive http_outcome : Type :=
| ConnectionFailed                  (* requests.get raises ConnectionError *)
| TimedOut                          (* requests.get raises Timeout *)
| HttpError (code : Z)              (* 4xx or 5xx: raise_for_status raises *)
| Body (decoded : option json).     (* 2xx; [None]: the body is not JSON *)

(** The file data/trm_cache.json. *)
Inductive cache_store : Type :=
| Missing
| Unreadable                        (* open raises OSError *)
| NotJson                           (* json.load raises JSONDecodeError *)
| Stored (content : json).

Inductive sink : Type := SJson | SParquet | SCsv | SSql | SSummary.

(** What a file of the output directory holds. *)
Inductive artifact : Type :=
| JsonFile (records : list Canon.Row)
| ParquetFile (records : list Canon.Row)
| CsvFile (records : list Canon.Row)
| SqlFile (inserts : list Persona.Row)
| SummaryFile (total_records : nat).

(** The MySQL connection: the rows of personas_transformadas that are
    committed, the rows inserted by the open transaction, and the outcome of
    the statements still to be sent ([true]: the server raises). *)
Record Database : Type := mkDB {
  committed : list Persona.Row;
  pending : list Persona.Row;
  faults : list bool }.

Record World : Type := mkWorld {
  now : Z;                              (* datetime.now() *)
  api : http_outcome;                   (* what the next request meets *)
  api_later : nat -> http_outcome;      (* what the requests after it meet *)
  api_calls : nat;                      (* requests.get issued so far *)
  cache_file : cache_store;
  cache_writable : bool;                (* whether the cache file can be written *)
  output_dir : list (string * artifact);
  sink_fault : sink -> option exn;      (* failure of a writer's I/O *)
  db : Database }.

(** The world after a request: the request is counted, and the next one
    meets the endpoint as it is then. *)
Definition request_made (w : World) : World :=
  mkWorld (now w) (api_later w 0) (fun n => api_later w (S n))
          (S (api_calls w)) (cache_file w) (cache_writable w) (output_dir w)
          (sink_fault w) (db w).

Definition set_cache_file (c : cache_store) (w : World) : World :=
  mkWorld (now w) (api w) (api_later w) (api_calls w) c (cache_writable w)
          (output_dir w) (sink_fault w) (db w).

Definition set_output_dir (d : list (string * artifact)) (w : World) : World :=
  mkWorld (now w) (api w) (api_later w) (api_calls w) (cache_file w)
          (cache_writable w) d (sink_fault w) (db w).

Definition set_db (d : Database) (w : World) : World :=
  mkWorld (now w) (api w) (api_later w) (api_calls w) (cache_file w)
          (cache_writable w) (output_dir w) (sink_fault w) d.

(** An endpoint that meets every later request alike. *)
Definition steady (o : http_outcome) : nat -> http_outcome := fun _ => o.

(** Computations that read and change the world and may raise. *)
Definition M (A : Type) : Type := World -> result A * World.

Definition ret {A} (a : A) : M A := fun w => (Ok a, w).
Definition raise {A} (e : exn) : M A := fun w => (Raise e, w).
Definition bind {A B} (m : M A) (k : A -> M B) : M B :=
  fun w => match m w with
           | (Ok a, w') => k a w'
           | (Raise e, w') => (Raise e, w')
           end.
(** [try: m except Exception as e: h e] *)
Definition try_except {A} (m : M A) (h : exn -> M A) : M A :=
  fun w => match m w with
           | (Ok a, w') => (Ok a, w')
           | (Raise e, w') => h e w'
           end.
Definition lift {A} (r : result A) : M A := fun w => (r, w).

Notation "'do' v <- m ; k" := (bind m (fun v => k))
  (right associativity, at level 61, v name, m at next level).
Notation "'do' ' p <- m ; k" := (bind m (fun v => let 'p := v in k))
  (right associativity, at level 61, p pattern, m at next level).

(** ** An instance of the library functions

    Plain decimal literals and the proleptic Gregorian calendar, enough to
    run the pipeline on concrete inputs. *)

Module SimplePy.

Definition digit_of (c : ascii) : option Z :=
  let n := nat_of_ascii c in
  if ((48 <=? n) && (n <=? 57))%nat then Some (Z.of_nat (n - 48)) else None.

(** A run of decimal digits read after the value [acc]; the number of digits
    read is returned with the value. *)
Fixpoint digits (s : string) (acc : Z) (n : nat) : option (Z * nat) :=
  match s with
  | EmptyString => Some (acc, n)
  | String c r =>
      match digit_of c with
      | Some d => digits r (acc * 10 + d)%Z (S n)
      | None => None
      end
  end.

Definition nonempty_digits (s : string) : option (Z * nat) :=
  match s with
  | EmptyString => None
  | _ => digits s 0 0
  end.

(** The text before and after the first occurrence of [sep]. *)
Fixpoint split_at (sep : ascii) (s : string) : string * option string :=
  match s with
  | EmptyString => (EmptyString, None)
  | String c r =>
      if Ascii.eqb c sep then (EmptyString, Some r)
      else let (a, b) := split_at sep r in (String c a, b)
  end.

Definition unsigned_decimal (s : string) : option Q :=
  match split_at "." s with
  | (i, None) =>
      match nonempty_digits i with
      | Some (n, _) => Some (inject_Z n)
      | None => None
      end
  | (i, Some f) =>
      match nonempty_digits i, nonempty_digits f with
      | Some (n, _), Some (m, k) =>
          Some (Qmake (n * 10 ^ Z.of_nat k + m) (Z.to_pos (10 ^ Z.of_nat k)))
      | _, _ => None
      end
  end.

(** Plain decimal literals: an optional sign, digits, an optional fraction. *)
Definition to_numeric_str (s : string) : option Q :=
  match s with
  | String "-" r => option_map Qopp (unsigned_decimal r)
  | String "+" r => unsigned_decimal r
  | _ => unsigned_decimal s
  end.

Definition string_of_Z (z : Z) : string :=
  NilZero.string_of_int (Z.to_int z).

Fixpoint zeros (n : nat) : string :=
  match n with
  | O => EmptyString
  | S n' => String "0" (zeros n')
  end.

(** [%0wd] *)
Definition pad (width : nat) (z : Z) : string :=
  let s := string_of_Z z in
  zeros (width - String.length s) ++ s.

Definition str_num (q : Q) : string :=
  let r := Qred q in
  match Qden r with
  | xH => string_of_Z (Qnum r)
  | d => string_of_Z (Qnum r) ++ "/" ++ string_of_Z (Zpos d)
  end.

(** Proleptic Gregorian calendar: the civil date of a day number counted
    from 1970-01-01, and back. *)
Definition civil_from_days (days : Z) : Z * Z * Z :=
  let z := (days + 719468)%Z in
  let era := (z / 146097)%Z in
  let doe := (z - era * 146097)%Z in
  let yoe := ((doe - doe / 1460 + doe / 36524 - doe / 146096) / 365)%Z in
  let y := (yoe + era * 400)%Z in
  let doy := (doe - (365 * yoe + yoe / 4 - yoe / 100))%Z in
  let mp := ((5 * doy + 2) / 153)%Z in
  let d := (doy - (153 * mp + 2) / 5 + 1)%Z in
  let m := (if mp <? 10 then mp + 3 else mp - 9)%Z in
  ((if m <=? 2 then y + 1 else y)%Z, m, d).

Definition days_from_civil (y m d : Z) : Z :=
  let y := (if m <=? 2 then y - 1 else y)%Z in
  let era := (y / 400)%Z in
  let yoe := (y - era * 400)%Z in
  let doy := ((153 * (if 2 <? m then m - 3 else m + 9) + 2) / 5 + d - 1)%Z in
  let doe := (yoe * 365 + yoe / 4 - yoe / 100 + doy)%Z in
  (era * 146097 + doe - 719468)%Z.

Definition usec_per_day : Z := 86400000000.

(** Year, month, day, hour, minute, second, microsecond of a datetime. *)
Definition fields (t : Z) : Z * Z * Z * Z * Z * Z * Z :=
  let days := (t / usec_per_day)%Z in
  let rest := (t mod usec_per_day)%Z in
  let '(y, m, d) := civil_from_days days in
  let secs := (rest / 1000000)%Z in
  (y, m, d, secs / 3600, (secs / 60) mod 60, secs mod 60, rest mod 1000000)%Z.

Definition of_fields (y m d hh mm ss us : Z) : Z :=
  (days_from_civil y m d * usec_per_day
   + ((hh * 60 + mm) * 60 + ss) * 1000000 + us)%Z.

Definition format_with (date_sep mid time_sep : string) (t : Z) : string :=
  let '(y, m, d, hh, mm, ss, _) := fields t in
  pad 4 y ++ date_sep ++ pad 2 m ++ date_sep ++ pad 2 d ++ mid
  ++ pad 2 hh ++ time_sep ++ pad 2 mm ++ time_sep ++ pad 2 ss.

Definition isoformat (t : Z) : string :=
  let '(_, _, _, _, _, _, us) := fields t in
  format_with "-" "T" ":" t
  ++ (if (us =? 0)%Z then "" else "." ++ pad 6 us).

(** The two formats of utils/date_utils.py that the pipeline prints. *)
Definition strftime (fmt : string) (t : Z) : string :=
  if String.eqb fmt "%Y%m%d_%H%M%S" then format_with "" "_" "" t
  else if String.eqb fmt "%Y-%m-%d %H:%M:%S" then format_with "-" " " ":" t
  else isoformat t.

Definition field (s : string) (start len : nat) : option Z :=
  match nonempty_digits (substring start len s) with
  | Some (v, n) => if (n =? len)%nat then Some v else None
  | None => None
  end.

(** [YYYY-MM-DD?HH:MM:SS] with the given separator between date and time,
    and an optional fraction of six digits. *)
Definition parse_with (mid : string) (s : string) : option Z :=
  match field s 0 4, field s 5 2, field s 8 2,
        field s 11 2, field s 14 2, field s 17 2 with
  | Some y, Some m, Some d, Some hh, Some mm, Some ss =>
      let seps_ok :=
        String.eqb (substring 4 1 s) "-" && String.eqb (substring 7 1 s) "-"
        && String.eqb (substring 10 1 s) mid
        && String.eqb (substring 13 1 s) ":"
        && String.eqb (substring 16 1 s) ":" in
      let in_range :=
        ((1 <=? m) && (m <=? 12) && (1 <=? d) && (d <=? 31) && (hh <=? 23)
         && (mm <=? 59) && (ss <=? 59))%Z in
      if seps_ok && in_range then
        if (String.length s =? 19)%nat then Some (of_fields y m d hh mm ss 0)
        else if (String.length s =? 26)%nat && String.eqb (substring 19 1 s) "."
        then option_map (of_fields y m d hh mm ss) (field s 20 6)
        else None
      else None
  | _, _, _, _, _, _ => None
  end.

Definition fromisoformat (s : string) : option Z := parse_with "T" s.

Definition parse_datetime (s : string) : option Z :=
  match parse_with " " s with
  | Some t => Some t
  | None => parse_with "T" s
  end.

Definition strptime_mysql_ok (s : string) : bool :=
  (String.length s =? 19)%nat
  && match parse_with " " s with Some _ => true | None => false end.

(** The special values of [Decimal(text)], in any letter case. *)
Definition special_decimal (s : string) : option Decimal :=
  let t := PyStr.lower s in
  if PyStr.mem t ["nan"; "+nan"; "-nan"] then Some DecNaN
  else if PyStr.mem t ["snan"; "+snan"; "-snan"] then Some DecSNaN
  else if PyStr.mem t ["inf"; "+inf"; "infinity"; "+infinity"]
  then Some (DecInf false)
  else if PyStr.mem t ["-inf"; "-infinity"] then Some (DecInf true)
  else None.

(** [Decimal(str(v))]: a numeric string, a special value, or a number. *)
Definition Decimal_of_json (v : json) : option Decimal :=
  match v with
  | JStr s =>
      match special_decimal s with
      | Some d => Some d
      | None => option_map Dec (to_numeric_str s)
      end
  | JNum q => Some (Dec q)
  | JNonFinite (S754_infinity s) => Some (DecInf s)
  | JNonFinite _ => Some DecNaN
  | _ => None
  end.

(** The mean of the values that are present, summed from left to right. *)
Definition series_mean (col : list (option F64.t)) : option F64.t :=
  let values :=
    flat_map (fun v => match v with Some x => [x] | None => [] end) col in
  match values with
  | [] => None
  | _ => F64.cell
           (F64.div (fold_left F64.add values (S754_zero false))
                    (F64.of_Z (Z.of_nat (List.length values))))
  end.

Definition lib : PyLib :=
  mkPyLib to_numeric_str str_num Decimal_of_json PyStr.strip PyStr.lower
          series_mean fromisoformat isoformat strftime parse_datetime
          strptime_mysql_ok (fun s _ => eq_refl) (fun s _ => eq_refl).

End SimplePy.

(** ** Values of main_optimized.py *)

Fixpoint has_slash (s : string) : bool :=
  match s with
  | EmptyString => false
  | String c r => Ascii.eqb c "/" || has_slash r
  end.

(** What follows the last slash. *)
Fixpoint basename (p : string) : string :=
  match p with
  | EmptyString => EmptyString
  | String c r =>
      if has_slash r then basename r
      else if Ascii.eqb c "/" then r else p
  end.

(** [os.path.basename(p)], which refuses [None]. *)
Definition os_path_basename (p : option string) : result string :=
  match p with
  | Some s => Ok (basename s)
  | None =>
      Raise (TypeError
               "expected str, bytes or os.PathLike object, not NoneType")
  end.

(** The dictionary [execution_result] of a finished run. *)
Module Execution.
Record Result : Type := mkResult {
  start_time : string;
  end_time : string;
  duration_seconds : Q;
  records_extracted : nat;
  records_transformed : nat;
  records_loaded_db : nat;
  files_created : PyStr.dict (option string);
  cloud_url : option string;
  trm_used : option F64.t;
  validation_passed : bool;
  errors : list string;
  ejecucion_id : option Z;
  optimization_features : list string }.
End Execution.

(** What [_finalize_execution] returns: the dictionary with 'success' True,
    or 'success' False with the text of the exception. *)
Inductive ExecutionResult : Type :=
| ExecutionSuccess (execution_result : Execution.Result)
| ExecutionFailure (error : string).

(** The arguments of a call of [finalizar_ejecucion_etl], which closes the
    row of the run in the table of executions. *)
Module Finalizar.
Record Call : Type := mkCall {
  ejecucion_id : Z;
  registros_procesados : nat;
  trm_rate : option F64.t;
  output_json_file : string;
  output_parquet_file : string;
  status : string;
  error_message : option string }.
End Finalizar.

Section Pipeline.

Context (py : PyLib).

(** ** services/trm_cache.py *)

Record TRMCache : Type := mkTRMCache { cache_duration : Z }.

(** [TRMCache(cache_duration_hours=24)] *)
Definition TRMCache_init (cache_duration_hours : Z) : TRMCache :=
  mkTRMCache (timedelta_hours cache_duration_hours).

Definition get_trm_cache : TRMCache := TRMCache_init 24.

(** [obj[key]] for a string key. *)
Definition subscript (obj : json) (key : string) : result json :=
  match obj with
  | JObj m =>
      match PyStr.get m key with
      | Some v => Ok v
      | None => Raise (KeyError key)
      end
  | JArr _ => Raise (TypeError "list indices must be integers or slices, not str")
  | JStr _ => Raise (TypeError "string indices must be integers")
  | _ => Raise (TypeError "object is not subscriptable")
  end.

Definition datetime_fromisoformat (v : json) : result Z :=
  match v with
  | JStr s =>
      match fromisoformat py s with
      | Some t => Ok t
      | None => Raise (ValueError "Invalid isoformat string")
      end
  | _ => Raise (TypeError "fromisoformat: argument must be str")
  end.

Definition Decimal_str (v : json) : result Decimal :=
  match Decimal_of_json py v with
  | Some d => Ok d
  | None => Raise InvalidOperation
  end.

(** The [try] block of [get_cached_trm]. *)
Definition get_cached_trm_try (self : TRMCache) : M (option Decimal) := fun w =>
  match cache_file w with
  | Missing => (Ok None, w)
  | Unreadable => (Raise (OSError "cannot open data/trm_cache.json"), w)
  | NotJson => (Raise (ValueError "Expecting value"), w)
  | Stored cache_data =>
      (try! ts <- subscript cache_data "timestamp";
       try! cached_time <- datetime_fromisoformat ts;
       if (now w - cached_time <? cache_duration self)%Z then
         try! v <- subscript cache_data "trm_value";
         try! trm_value <- Decimal_str v;
         Ok (Some trm_value)
       else Ok None, w)
  end.

Definition get_cached_trm (self : TRMCache) : M (option Decimal) :=
  try_except (get_cached_trm_try self) (fun _ => ret None).

(** [float(trm_value)] as [json.dump] writes it: a finite rate is written as
    the number it is, NaN and the infinities as their literals. *)
Definition json_float (trm_value : Decimal) : result json :=
  match trm_value with
  | Dec q => Ok (JNum q)
  | DecNaN => Ok (JNonFinite F64.nan)
  | DecInf s => Ok (JNonFinite (S754_infinity s))
  | DecSNaN => Raise (ValueError "cannot convert signaling NaN to float")
  end.

(** The [try] block of [save_trm_to_cache]. *)
Definition save_trm_to_cache_try (self : TRMCache) (trm_value : Decimal)
  : M unit :=
  fun w =>
    match json_float trm_value with
    | Raise e => (Raise e, w)
    | Ok number =>
        let cache_data :=
          JObj [("timestamp", JStr (isoformat py (now w)));
                ("trm_value", number)] in
        if cache_writable w then (Ok tt, set_cache_file (Stored cache_data) w)
        else (Raise (OSError "cannot write data/trm_cache.json"), w)
    end.

Definition save_trm_to_cache (self : TRMCache) (trm_value : Decimal)
  : M unit :=
  try_except (save_trm_to_cache_try self trm_value) (fun _ => ret tt).

Definition is_cache_valid (self : TRMCache) : M bool :=
  do cached_trm <- get_cached_trm self;
  ret (negb (isnull cached_trm)).

(** ** services/trm_service.py and services/trm_service_optimized.py *)

(** [requests.get(url, timeout=10)], [raise_for_status()] and
    [response.json()]. *)
Definition requests_get_json : M json := fun w =>
  let w' := request_made w in
  match api w with
  | ConnectionFailed => (Raise (RequestException "connection error"), w')
  | TimedOut => (Raise (RequestException "read timed out"), w')
  | HttpError _ => (Raise (RequestException "HTTP error status"), w')
  | Body None => (Raise (ValueError "response body is not JSON"), w')
  | Body (Some data) => (Ok data, w')
  end.

(** [bool(data)] *)
Definition json_truthy (data : json) : bool :=
  match data with
  | JNull => false
  | JBool b => b
  | JNum q => negb (Qeq_bool q 0)
  | JNonFinite _ => true
  | JStr s => negb (String.eqb s "")
  | JArr l => match l with [] => false | _ => true end
  | JObj m => match m with [] => false | _ => true end
  end.

(** [len(data)] *)
Definition json_len (data : json) : result nat :=
  match data with
  | JArr l => Ok (List.length l)
  | JObj m => Ok (List.length m)
  | JStr s => Ok (String.length s)
  | _ => Raise (TypeError "object has no len()")
  end.

(** [data[0]] *)
Definition json_first (data : json) : result json :=
  match data with
  | JArr (x :: _) => Ok x
  | JArr [] => Raise (Exception "list index out of range")
  | JObj _ => Raise (KeyError "0")
  | JStr (String c _) => Ok (JStr (String c EmptyString))
  | JStr EmptyString => Raise (Exception "string index out of range")
  | _ => Raise (TypeError "object is not subscriptable")
  end.

(** [Decimal(str(data[0].get('valor', self.fallback_trm)))]; the string of
    the fallback Decimal parses back to the fallback. *)
Definition valor_decimal (first : json) (fallback : Q) : result Decimal :=
  match first with
  | JObj m =>
      match PyStr.get m "valor" with
      | Some trm_value => Decimal_str trm_value
      | None => Ok (Dec fallback)
      end
  | _ => Raise (AttributeError "object has no attribute 'get'")
  end.

Definition _obtener_trm_respaldo (fallback : Q) : M Decimal :=
  ret (Dec fallback).

(** The three [except] clauses of [obtener_trm_actual]. *)
Definition trm_handlers (fallback : Q) (e : exn) : M Decimal :=
  match e with
  | RequestException _ => _obtener_trm_respaldo fallback
  | ValueError _ | KeyError _ | TypeError _ => _obtener_trm_respaldo fallback
  | _ => _obtener_trm_respaldo fallback
  end.

Record TRMService : Type := mkTRMService { fallback_trm_of : Q }.

(** [TRMService.__init__] *)
Definition TRMService_init : TRMService := mkTRMService fallback_trm.

(** The [try] block of [TRMService.obtener_trm_actual]. *)
Definition TRMService_fetch (self : TRMService) : M Decimal :=
  do data <- requests_get_json;
  if json_truthy data then
    do n <- lift (json_len data);
    if (0 <? n)%nat then
      do first <- lift (json_first data);
      do trm_decimal <- lift (valor_decimal first (fallback_trm_of self));
      ret trm_decimal
    else ret (Dec (fallback_trm_of self))
  else ret (Dec (fallback_trm_of self)).

Definition TRMService_obtener_trm_actual (self : TRMService) : M Decimal :=
  try_except (TRMService_fetch self) (trm_handlers (fallback_trm_of self)).

Record TRMServiceOptimized : Type := mkTRMServiceOptimized {
  opt_fallback_trm : Q;
  use_cache : bool;
  cache : option TRMCache }.

(** [TRMServiceOptimized.__init__(use_cache)] *)
Definition TRMServiceOptimized_init (use_cache : bool) : TRMServiceOptimized :=
  mkTRMServiceOptimized fallback_trm use_cache
    (if use_cache then Some get_trm_cache else None).

(** The [try] block of [TRMServiceOptimized.obtener_trm_actual]. *)
Definition TRMServiceOptimized_fetch (self : TRMServiceOptimized)
  : M Decimal :=
  do data <- requests_get_json;
  if json_truthy data then
    do n <- lift (json_len data);
    if (0 <? n)%nat then
      do first <- lift (json_first data);
      do trm_decimal <- lift (valor_decimal first (opt_fallback_trm self));
      do _ <- match use_cache self, cache self with
              | true, Some c => save_trm_to_cache c trm_decimal
              | _, _ => ret tt
              end;
      ret trm_decimal
    else ret (Dec (opt_fallback_trm self))
  else ret (Dec (opt_fallback_trm self)).

Definition TRMServiceOptimized_obtener_trm_actual
    (self : TRMServiceOptimized) : M Decimal :=
  let api_path :=
    try_except (TRMServiceOptimized_fetch self)
               (trm_handlers (opt_fallback_trm self)) in
  match use_cache self, cache self with
  | true, Some c =>
      do cached_trm <- get_cached_trm c;
      match cached_trm with
      | Some v => ret v
      | None => api_path
      end
  | _, _ => api_path
  end.

(** What the transformer asks of its [trm_service]. *)
Class RateService (S : Type) : Type := {
  obtener_trm_actual : S -> M Decimal }.

#[export] Instance TRMService_RateService : RateService TRMService :=
  {| obtener_trm_actual := TRMService_obtener_trm_actual |}.

#[export] Instance TRMServiceOptimized_RateService :
  RateService TRMServiceOptimized :=
  {| obtener_trm_actual := TRMServiceOptimized_obtener_trm_actual |}.

(** ** etl/transformer.py and etl/transformer_optimized.py *)

Definition gender_translation : PyStr.dict string :=
  [("male", "Masculino"); ("female", "Femenino");
   ("m", "Masculino"); ("f", "Femenino")].

Definition illness_translation : PyStr.dict string :=
  [("yes", "Sí"); ("no", "No"); ("y", "Sí"); ("n", "No");
   ("true", "Sí"); ("false", "No"); ("1", "Sí"); ("0", "No")].

(** [str(x)] of a cell. *)
Definition py_str (c : cell) : string :=
  match c with
  | NaN => "nan"
  | PyNone => "None"
  | Str s => s
  | Num q => str_num py q
  end.

(** [df[col].astype(str).str.strip()], applied to the object columns only.
    A missing value of an object column becomes the text 'nan' (or 'None')
    here, so [dropna] no longer sees it as null. *)
Definition astype_str_strip (dt : dtype) (c : cell) : cell :=
  match dt with
  | object => Str (str_strip py (py_str c))
  | float64 => c
  end.

(** [pd.to_numeric(col, errors='coerce')] on one cell. *)
Definition to_numeric (c : cell) : option Q :=
  match c with
  | Num q => Some q
  | Str s => to_numeric_str py s
  | NaN | PyNone => None
  end.

(** [col.str.lower().str.strip()] on one cell of a column of strings. *)
Definition str_lower_strip (c : cell) : option string :=
  match c with
  | Str s => Some (str_strip py (str_lower py s))
  | _ => None
  end.

(** The [.str] accessor exists on object columns only. *)
Definition str_accessor (dt : dtype) : result unit :=
  match dt with
  | object => Ok tt
  | float64 =>
      Raise (AttributeError "Can only use .str accessor with string values!")
  end.

Definition clean_row (dt : Raw.Dtypes) (r : Raw.Row) : Work.Row :=
  Work.mkRow
    (astype_str_strip (Raw.d_name dt) (Raw.name r))
    (to_numeric (astype_str_strip (Raw.d_age dt) (Raw.age r)))
    (str_lower_strip (astype_str_strip (Raw.d_gender dt) (Raw.gender r)))
    (to_numeric (astype_str_strip (Raw.d_income dt) (Raw.income r)))
    (str_lower_strip (astype_str_strip (Raw.d_illness dt) (Raw.illness r)))
    None None None None None None.

(** A null in one of name, age, gender, income, illness. *)
Definition critical_null (r : Work.Row) : bool :=
  cell_isnull (Work.name r) || isnull (Work.age r) || isnull (Work.gender r)
  || isnull (Work.income r) || isnull (Work.illness r).

(** [df.dropna(subset=['name', 'age', 'gender', 'income', 'illness'])] *)
Definition dropna (df : list Work.Row) : list Work.Row :=
  filter (fun r => negb (critical_null r)) df.

Definition _clean_data (df : Raw.DataFrame) : result (list Work.Row) :=
  let dt := Raw.dtypes df in
  let df_clean := List.map (clean_row dt) (Raw.rows df) in
  try! _ <- str_accessor (Raw.d_gender dt);
  try! _ <- str_accessor (Raw.d_illness dt);
  Ok (dropna df_clean).

(** [df[['name', ...]].isnull().any(axis=1)] on one row. *)
Definition critical_nulls (r : Work.Row) : bool :=
  existsb (fun b : bool => b)
    [cell_isnull (Work.name r); isnull (Work.age r); isnull (Work.gender r);
     isnull (Work.income r); isnull (Work.illness r)].

Definition _clean_data_optimized (df : Raw.DataFrame)
  : result (list Work.Row) :=
  let dt := Raw.dtypes df in
  let df_clean := List.map (clean_row dt) (Raw.rows df) in
  try! _ <- str_accessor (Raw.d_gender dt);
  try! _ <- str_accessor (Raw.d_illness dt);
  Ok (filter (fun r => negb (critical_nulls r)) df_clean).

(** Column assignments [df[col] = ...] on one row. *)
Definition set_genero_es (v : option string) (r : Work.Row) : Work.Row :=
  Work.mkRow (Work.name r) (Work.age r) (Work.gender r) (Work.income r)
    (Work.illness r) v (Work.Illness r) (Work.enfermedad_es r)
    (Work.edad_lustros r) (Work.ingreso_cop r) (Work.trm_utilizada r).

Definition set_Illness (v : option string) (r : Work.Row) : Work.Row :=
  Work.mkRow (Work.name r) (Work.age r) (Work.gender r) (Work.income r)
    (Work.illness r) (Work.genero_es r) v (Work.enfermedad_es r)
    (Work.edad_lustros r) (Work.ingreso_cop r) (Work.trm_utilizada r).

Definition set_enfermedad_es (v : option string) (r : Work.Row) : Work.Row :=
  Work.mkRow (Work.name r) (Work.age r) (Work.gender r) (Work.income r)
    (Work.illness r) (Work.genero_es r) (Work.Illness r) v
    (Work.edad_lustros r) (Work.ingreso_cop r) (Work.trm_utilizada r).

Definition set_edad_lustros (v : option F64.t) (r : Work.Row) : Work.Row :=
  Work.mkRow (Work.name r) (Work.age r) (Work.gender r) (Work.income r)
    (Work.illness r) (Work.genero_es r) (Work.Illness r)
    (Work.enfermedad_es r) v (Work.ingreso_cop r) (Work.trm_utilizada r).

Definition set_ingreso_cop (v : option F64.t) (r : Work.Row) : Work.Row :=
  Work.mkRow (Work.name r) (Work.age r) (Work.gender r) (Work.income r)
    (Work.illness r) (Work.genero_es r) (Work.Illness r)
    (Work.enfermedad_es r) (Work.edad_lustros r) v (Work.trm_utilizada r).

Definition set_trm_utilizada (v : option F64.t) (r : Work.Row) : Work.Row :=
  Work.mkRow (Work.name r) (Work.age r) (Work.gender r) (Work.income r)
    (Work.illness r) (Work.genero_es r) (Work.Illness r)
    (Work.enfermedad_es r) (Work.edad_lustros r) (Work.ingreso_cop r) v.

(** [Series.map(d)]: NaN stays NaN, a key outside [d] becomes NaN. *)
Definition series_map (d : PyStr.dict string) (v : option string)
  : option string :=
  match v with
  | Some k => PyStr.get d k
  | None => None
  end.

(** [Series.fillna(other)] on one cell. *)
Definition fillna {A} (v other : option A) : option A :=
  match v with
  | Some x => Some x
  | None => other
  end.

Definition option_string_dec (a b : option string) : {a = b} + {a <> b}.
Proof. decide equality. apply string_dec. Defined.

(** [Series.unique()] *)
Definition unique (l : list (option string)) : list (option string) :=
  nodup option_string_dec l.

Definition _transform_gender (df : list Work.Row) : list Work.Row :=
  let df :=
    List.map (fun r => set_genero_es
                         (series_map gender_translation (Work.gender r)) r) df in
  let unmapped_genders :=
    unique (List.map Work.gender
              (filter (fun r => isnull (Work.genero_es r)) df)) in
  if (0 <? List.length unmapped_genders)%nat then
    List.map (fun r => set_genero_es
                         (fillna (Work.genero_es r) (Work.gender r)) r) df
  else df.

Definition _transform_illness (df : list Work.Row) : list Work.Row :=
  let df := List.map (fun r => set_Illness (Work.illness r) r) df in
  let df :=
    List.map (fun r => set_enfermedad_es
                         (series_map illness_translation (Work.illness r)) r) df in
  let unmapped_illness :=
    unique (List.map Work.illness
              (filter (fun r => isnull (Work.enfermedad_es r)) df)) in
  if (0 <? List.length unmapped_illness)%nat then
    List.map (fun r => set_enfermedad_es
                         (fillna (Work.enfermedad_es r) (Some "No")) r) df
  else df.

(** [df['edad_lustros'] = df['age'] / 5], then [.round(2)]. *)
Definition _transform_age_to_lustros (df : list Work.Row) : list Work.Row :=
  let df :=
    List.map (fun r => set_edad_lustros
                         (F64.cell (F64.div (F64.of_cell (Work.age r))
                                            (F64.of_Z 5))) r) df in
  List.map (fun r => set_edad_lustros
                       (F64.cell (F64.round2 (F64.get (Work.edad_lustros r))))
                       r) df.

(** [df['ingreso_cop'] = df['income'] * float(self.current_trm)], then
    [.round(2)], then [df['trm_utilizada'] = float(self.current_trm)]. *)
Definition _transform_income_to_cop (current_trm : Decimal)
    (df : list Work.Row) : result (list Work.Row) :=
  try! trm_float <- float current_trm;
  let df :=
    List.map (fun r => set_ingreso_cop
                         (F64.cell (F64.mul (F64.of_cell (Work.income r))
                                            trm_float)) r) df in
  let df :=
    List.map (fun r => set_ingreso_cop
                         (F64.cell (F64.round2 (F64.get (Work.ingreso_cop r))))
                         r) df in
  try! trm_float <- float current_trm;
  Ok (List.map (set_trm_utilizada (F64.cell trm_float)) df).

(** The vectorised variants: the unmapped rows are selected by a mask and
    assigned through [df.loc[mask, col]]. *)
Definition _transform_gender_vectorized (df : list Work.Row) : list Work.Row :=
  let df :=
    List.map (fun r => set_genero_es
                         (series_map gender_translation (Work.gender r)) r) df in
  let unmapped_mask := fun r => isnull (Work.genero_es r) in
  if existsb unmapped_mask df then
    List.map (fun r => if unmapped_mask r
                       then set_genero_es (Work.gender r) r else r) df
  else df.

Definition _transform_illness_vectorized (df : list Work.Row) : list Work.Row :=
  let df := List.map (fun r => set_Illness (Work.illness r) r) df in
  let df :=
    List.map (fun r => set_enfermedad_es
                         (series_map illness_translation (Work.illness r)) r) df in
  let unmapped_mask := fun r => isnull (Work.enfermedad_es r) in
  if existsb unmapped_mask df then
    List.map (fun r => if unmapped_mask r
                       then set_enfermedad_es (Some "No") r else r) df
  else df.

(** [df['edad_lustros'] = (df['age'] / 5).round(2)] *)
Definition _transform_age_to_lustros_vectorized (df : list Work.Row)
  : list Work.Row :=
  List.map (fun r => set_edad_lustros
                       (F64.cell (F64.round2
                                    (F64.div (F64.of_cell (Work.age r))
                                             (F64.of_Z 5)))) r) df.

Definition _transform_income_to_cop_vectorized (current_trm : Decimal)
    (df : list Work.Row) : result (list Work.Row) :=
  try! trm_float <- float current_trm;
  let df :=
    List.map (fun r => set_ingreso_cop
                         (F64.cell (F64.round2
                                      (F64.mul (F64.of_cell (Work.income r))
                                               trm_float))) r) df in
  Ok (List.map (set_trm_utilizada (F64.cell trm_float)) df).

Definition _apply_vectorized_transformations (current_trm : Decimal)
    (df : list Work.Row) : result (list Work.Row) :=
  let df := _transform_gender_vectorized df in
  let df := _transform_illness_vectorized df in
  let df := _transform_age_to_lustros_vectorized df in
  _transform_income_to_cop_vectorized current_trm df.

(** [get_processing_timestamp()] *)
Definition get_processing_timestamp : M string :=
  fun w => (Ok (strftime py MYSQL_DATETIME_FORMAT (now w)), w).

(** [_add_transformation_metadata]: the timestamp column, the renamed
    columns, and the selection of [desired_order]. *)
Definition _add_transformation_metadata (df : list Work.Row)
  : M (list Canon.Row) :=
  do mysql_timestamp <- get_processing_timestamp;
  ret (List.map (fun r =>
         Canon.mkRow (Work.name r) (Work.age r) (Work.edad_lustros r)
           (Work.gender r) (Work.genero_es r) (Work.income r)
           (Work.ingreso_cop r) (Work.trm_utilizada r) (Work.Illness r)
           (Work.enfermedad_es r) mysql_timestamp) df).

(** [self.current_trm]: fetched when no rate is passed and a service is
    configured, otherwise [trm_value or Decimal('4200.00')]. *)
Definition resolve_trm {S} {RS : RateService S}
    (trm_service : option S) (trm_value : option Decimal) : M Decimal :=
  match trm_value, trm_service with
  | None, Some svc => obtener_trm_actual svc
  | _, _ => ret (py_or trm_value 4200)
  end.

(** [DataTransformer.transform_data] *)
Definition transform_data {S} {RS : RateService S}
    (trm_service : option S) (df : Raw.DataFrame) (trm_value : option Decimal)
  : M (list Canon.Row) :=
  do df_transformed <- lift (_clean_data df);
  do current_trm <- resolve_trm trm_service trm_value;
  let df_transformed := _transform_gender df_transformed in
  let df_transformed := _transform_illness df_transformed in
  let df_transformed := _transform_age_to_lustros df_transformed in
  do df_transformed <-
    lift (_transform_income_to_cop current_trm df_transformed);
  _add_transformation_metadata df_transformed.

(** [DataTransformerOptimized.transform_data] *)
Definition transform_data_optimized {S} {RS : RateService S}
    (trm_service : option S) (df : Raw.DataFrame) (trm_value : option Decimal)
  : M (list Canon.Row) :=
  do df_transformed <- lift (_clean_data_optimized df);
  do current_trm <- resolve_trm trm_service trm_value;
  do df_transformed <-
    lift (_apply_vectorized_transformations current_trm df_transformed);
  _add_transformation_metadata df_transformed.

(** ** database/connection_optimized.py *)

Record DatabaseConnectionOptimized : Type := mkConnection {
  config_database : string }.

(** One statement sent over the connection: the next recorded outcome decides
    whether the server raises. *)
Definition db_statement : M unit := fun w =>
  let d := db w in
  match faults d with
  | [] => (Ok tt, w)
  | false :: rest => (Ok tt, set_db (mkDB (committed d) (pending d) rest) w)
  | true :: rest =>
      (Raise (DatabaseError "MySQL server error"),
       set_db (mkDB (committed d) (pending d) rest) w)
  end.

(** [WHERE nombre = %s AND edad_anos = %s AND genero_original = %s AND
    ingreso_usd = %s]; the columns compare as the values that were sent. *)
Definition same_person (nombre : string) (edad_anos : Z)
    (genero_original : string) (ingreso_usd : Q) (p : Persona.Row) : bool :=
  String.eqb (Persona.nombre p) nombre
  && Z.eqb (Persona.edad_anos p) edad_anos
  && String.eqb (Persona.genero_original p) genero_original
  && Qeq_bool (Persona.ingreso_usd p) ingreso_usd.

(** The rows the connection sees: committed ones and its own inserts. *)
Definition visible_rows (d : Database) : list Persona.Row :=
  committed d ++ pending d.

(** The [try] block of [verificar_duplicado]. *)
Definition verificar_duplicado_try (nombre : string) (edad_anos : Z)
    (genero_original : string) (ingreso_usd : Q) : M bool :=
  do _ <- db_statement;
  fun w =>
    let count :=
      List.length (filter (same_person nombre edad_anos genero_original
                             ingreso_usd) (visible_rows (db w))) in
    (Ok (0 <? count)%nat, w).

Definition verificar_duplicado (nombre : string) (edad_anos : Z)
    (genero_original : string) (ingreso_usd : Q) : M bool :=
  try_except (verificar_duplicado_try nombre edad_anos genero_original
                ingreso_usd)
             (fun _ => ret false).

(** [cursor.executemany(query, batch_data)]; gives [cursor.rowcount]. *)
Definition executemany (batch_data : list Persona.Row) : M nat :=
  do _ <- db_statement;
  fun w =>
    let d := db w in
    (Ok (List.length batch_data),
     set_db (mkDB (committed d) (pending d ++ batch_data) (faults d)) w).

Definition commit : M unit :=
  do _ <- db_statement;
  fun w =>
    let d := db w in
    (Ok tt, set_db (mkDB (committed d ++ pending d) [] (faults d)) w).

(** [self.connection.rollback()], taken to succeed. *)
Definition rollback : M unit := fun w =>
  let d := db w in
  (Ok tt, set_db (mkDB (committed d) [] (faults d)) w).

(** [range(0, stop, step)] for a positive step. *)
Definition range_step (stop step : nat) : list nat :=
  List.map (fun k => k * step)%nat (seq 0 ((stop + step - 1) / step)).

(** [records_data[i:i + batch_size]] *)
Definition slice {A} (l : list A) (i j : nat) : list A :=
  firstn (j - i) (skipn i l).

(** The inner loop of the bulk insert: the records of one batch that the
    duplicate check lets through, and the number it holds back. *)
Fixpoint prepare_batch (batch : list Persona.Row)
  : M (list Persona.Row * nat) :=
  match batch with
  | [] => ret ([], 0%nat)
  | record :: rest =>
      do duplicado <- verificar_duplicado (Persona.nombre record)
                        (Persona.edad_anos record)
                        (Persona.genero_original record)
                        (Persona.ingreso_usd record);
      do ' (batch_data, duplicados) <- prepare_batch rest;
      if duplicado then ret (batch_data, S duplicados)
      else ret (record :: batch_data, duplicados)
  end.

(** The outer loop: one [executemany] per batch that is not empty. *)
Fixpoint insert_batches (batches : list (list Persona.Row))
    (registros_insertados registros_duplicados : nat) : M (nat * nat) :=
  match batches with
  | [] => ret (registros_insertados, registros_duplicados)
  | batch :: rest =>
      do ' (batch_data, duplicados) <- prepare_batch batch;
      do rowcount <- match batch_data with
                     | [] => ret 0%nat
                     | _ => executemany batch_data
                     end;
      insert_batches rest (registros_insertados + rowcount)%nat
                     (registros_duplicados + duplicados)%nat
  end.

(** The [try] block of [insertar_personas_transformadas_bulk]. *)
Definition insertar_personas_transformadas_bulk_try
    (records_data : list Persona.Row) (batch_size : nat) : M nat :=
  match records_data with
  | [] => ret 0%nat
  | _ =>
      do _ <- db_statement;                     (* get_cursor *)
      do batches <-
        match batch_size with
        | O => raise (ValueError "range() arg 3 must not be zero")
        | _ => ret (List.map (fun i => slice records_data i (i + batch_size))
                             (range_step (List.length records_data) batch_size))
        end;
      do ' (registros_insertados, _) <- insert_batches batches 0 0;
      do _ <- commit;
      ret registros_insertados
  end.

Definition insertar_personas_transformadas_bulk
    (self : DatabaseConnectionOptimized) (records_data : list Persona.Row)
    (batch_size : nat) : M nat :=
  try_except (insertar_personas_transformadas_bulk_try records_data batch_size)
             (fun e => do _ <- rollback; raise e).

(** [DatabaseConnectionOptimized.insertar_personas_transformadas] on the list
    of dictionaries of the loader. *)
Definition insertar_personas_transformadas_optimized
    (self : DatabaseConnectionOptimized) (records_data : list Persona.Row)
  : M nat :=
  insertar_personas_transformadas_bulk self records_data 1000.

(** ** database/connection.py *)

Record DatabaseConnection : Type := mkPlainConnection {
  plain_config_database : string }.

(** [cursor.execute(query, valores)] of one INSERT. *)
Definition execute_insert (record : Persona.Row) : M unit :=
  do _ <- db_statement;
  fun w =>
    let d := db w in
    (Ok tt, set_db (mkDB (committed d) (pending d ++ [record]) (faults d)) w).

(** The loop of [DatabaseConnection.insertar_personas_transformadas] over a
    list of dictionaries. *)
Fixpoint insert_each (records_data : list Persona.Row)
    (registros_insertados registros_duplicados : nat) : M (nat * nat) :=
  match records_data with
  | [] => ret (registros_insertados, registros_duplicados)
  | record :: rest =>
      do duplicado <- verificar_duplicado (Persona.nombre record)
                        (Persona.edad_anos record)
                        (Persona.genero_original record)
                        (Persona.ingreso_usd record);
      if duplicado then
        insert_each rest registros_insertados (S registros_duplicados)
      else
        do _ <- execute_insert record;
        insert_each rest (S registros_insertados) registros_duplicados
  end.

Definition insertar_personas_transformadas_plain
    (self : DatabaseConnection) (records_data : list Persona.Row) : M nat :=
  try_except
    (do _ <- db_statement;                      (* get_cursor *)
     do ' (registros_insertados, _) <- insert_each records_data 0 0;
     do _ <- commit;
     ret registros_insertados)
    (fun e => do _ <- rollback; raise e).

(** What the loader asks of its [db_manager]. *)
Class DbManager (D : Type) : Type := {
  insertar_personas_transformadas : D -> list Persona.Row -> M nat }.

#[export] Instance DatabaseConnection_DbManager : DbManager DatabaseConnection :=
  {| insertar_personas_transformadas := insertar_personas_transformadas_plain |}.

#[export] Instance DatabaseConnectionOptimized_DbManager :
  DbManager DatabaseConnectionOptimized :=
  {| insertar_personas_transformadas :=
       insertar_personas_transformadas_optimized |}.

(** ** etl/loader.py *)

Record LoadResult : Type := mkLoadResult {
  json_file : option string;
  parquet_file : option string;
  csv_file : option string;
  sql_script : option string;
  summary_file : option string;
  database_records : nat;
  cloud_url : option string;
  errors : list string }.

(** [cloud_service.upload_file(local_path, remote_name)]: what the object
    store answers, a URL or an exception.  The service keeps its copies
    outside the output directory. *)
Record CloudStorageService : Type := mkCloud {
  upload_file : string -> string -> result string }.

Definition output_dir_path : string := "data/output".

(** [get_timestamp_for_filename()] *)
Definition get_timestamp_for_filename : M string :=
  fun w => (Ok (strftime py TIMESTAMP_FORMAT (now w)), w).

(** Writing one file of the output directory; an existing file of the same
    name is replaced. *)
Definition write_file (s : sink) (file_path : string) (content : artifact)
  : M unit := fun w =>
  match sink_fault w s with
  | Some e => (Raise e, w)
  | None =>
      (Ok tt,
       set_output_dir
         ((file_path, content)
            :: filter (fun f => negb (String.eqb (fst f) file_path))
                      (output_dir w)) w)
  end.

Definition save_to_json (df : list Canon.Row) : M string :=
  do timestamp <- get_timestamp_for_filename;
  let file_path :=
    output_dir_path ++ "/transformed_data_" ++ timestamp ++ ".json" in
  do _ <- write_file SJson file_path (JsonFile df);
  ret file_path.

Definition save_to_parquet (df : list Canon.Row) : M string :=
  do timestamp <- get_timestamp_for_filename;
  let file_path :=
    output_dir_path ++ "/transformed_data_" ++ timestamp ++ ".parquet" in
  do _ <- write_file SParquet file_path (ParquetFile df);
  ret file_path.

Definition save_to_csv (df : list Canon.Row) : M string :=
  do timestamp <- get_timestamp_for_filename;
  let file_path :=
    output_dir_path ++ "/transformed_data_" ++ timestamp ++ ".csv" in
  do _ <- write_file SCsv file_path (CsvFile df);
  ret file_path.

(** [str(x)] of a text cell that may hold NaN. *)
Definition str_of_text (v : option string) : string :=
  match v with
  | Some s => s
  | None => "nan"
  end.

(** [float(x) if pd.notna(x) else 0.0] *)
Definition float_or_zero (v : option Q) : Q :=
  match v with
  | Some x => x
  | None => 0
  end.

(** The same on a column of computed floats. *)
Definition f64_or_zero (v : option F64.t) : F64.t :=
  match v with
  | Some x => x
  | None => S754_zero false
  end.

(** [ensure_mysql_datetime_format] on a string. *)
Definition ensure_mysql_datetime_format (value : option string) : M string :=
  fun w =>
    match value with
    | None => (Ok (strftime py MYSQL_DATETIME_FORMAT (now w)), w)
    | Some s =>
        match parse_datetime py s with
        | Some t => (Ok (strftime py MYSQL_DATETIME_FORMAT t), w)
        | None => (Ok (strftime py MYSQL_DATETIME_FORMAT (now w)), w)
        end
    end.

(** One row of [_prepare_dataframe_for_database] on a frame that has the
    columns of the canonical record.  The frame has neither a 'Gender' nor a
    'gender' column, so [genero_original] takes the last branch. *)
Definition prepare_record (row : Canon.Row) : M Persona.Row :=
  do fecha_col <- ensure_mysql_datetime_format
                    (Some (Canon.fecha_procesamiento row));
  do mysql_date <- ensure_mysql_datetime_format (Some fecha_col);
  do fecha <- (if strptime_mysql_ok py mysql_date then ret mysql_date
               else ensure_mysql_datetime_format None);
  ret (Persona.mkRow
         (py_str (Canon.nombre row))
         (match Canon.edad_anos row with
          | Some a => py_int a
          | None => 0%Z
          end)
         (f64_or_zero (Canon.edad_lustros row))
         ""
         (str_of_text (Canon.genero_es row))
         (float_or_zero (Canon.ingreso_usd row))
         (f64_or_zero (Canon.ingreso_cop row))
         (f64_or_zero (Canon.trm_utilizada row))
         (str_of_text (Canon.enfermedad_original row))
         (str_of_text (Canon.enfermedad_es row))
         fecha).

Fixpoint _prepare_dataframe_for_database (df : list Canon.Row)
  : M (list Persona.Row) :=
  match df with
  | [] => ret []
  | row :: rest =>
      do record <- prepare_record row;
      do records <- _prepare_dataframe_for_database rest;
      ret (record :: records)
  end.

Definition load_to_database {D} {DM : DbManager D} (df : list Canon.Row)
    (db_manager : D) : M nat :=
  do records_data <- _prepare_dataframe_for_database df;
  do rows_inserted <- insertar_personas_transformadas db_manager records_data;
  ret rows_inserted.

Definition generate_sql_insert_script (df : list Canon.Row) : M string :=
  do timestamp <- get_timestamp_for_filename;
  let file_path :=
    output_dir_path ++ "/insert_script_" ++ timestamp ++ ".sql" in
  do records_data <- _prepare_dataframe_for_database df;
  do _ <- write_file SSql file_path (SqlFile records_data);
  ret file_path.

(** [create_data_summary]; [int(df['edad_anos'].min())] raises when the
    column has no number in it. *)
Definition create_data_summary (df : list Canon.Row) : M string :=
  do timestamp <- get_timestamp_for_filename;
  let file_path :=
    output_dir_path ++ "/data_summary_" ++ timestamp ++ ".json" in
  do _ <- (if forallb (fun r => isnull (Canon.edad_anos r)) df
           then raise (ValueError "cannot convert float NaN to integer")
           else ret tt);
  do _ <- write_file SSummary file_path (SummaryFile (List.length df));
  ret file_path.

(** [try: results[key] = writer(df) except Exception as e:
    results['errors'].append(f"{label}: {e}")] *)
Definition attempt {A} (label : string) (m : M A) (errors : list string)
  : M (option A * list string) :=
  try_except (do a <- m; ret (Some a, errors))
             (fun e => ret (None, (errors ++ [(label ++ ": " ++ exn_str e)%string])%list)).

(** [OtakuDataLoader.load_otaku_data] *)
Definition load_otaku_data {D} {DM : DbManager D} (df : list Canon.Row)
    (db_manager : option D)
    (cloud_service : option CloudStorageService) : M LoadResult :=
  do ' (json_file, errors) <- attempt "Error guardando JSON" (save_to_json df) [];
  do ' (parquet_file, errors) <-
    attempt "Error guardando Parquet" (save_to_parquet df) errors;
  do ' (csv_file, errors) <- attempt "Error guardando CSV" (save_to_csv df) errors;
  do ' (sql_script, errors) <-
    attempt "Error generando script SQL" (generate_sql_insert_script df) errors;
  do ' (summary_file, errors) <-
    attempt "Error creando resumen" (create_data_summary df) errors;
  do ' (database_records, errors) <-
    match db_manager with
    | Some db_manager =>
        do ' (n, errors) <- attempt "Error cargando a base de datos"
                              (load_to_database df db_manager) errors;
        ret (match n with Some n => n | None => 0%nat end, errors)
    | None => ret (0%nat, errors)
    end;
  do ' (cloud_url, errors) <-
    match cloud_service, json_file with
    | Some cloud_service, Some json_path =>
        do remote <- get_timestamp_for_filename;
        attempt "Error subiendo a la nube"
                (lift (upload_file cloud_service json_path
                         ("otaku_data_" ++ remote ++ ".json"))) errors
    | _, _ => ret (None, errors)
    end;
  ret (mkLoadResult json_file parquet_file csv_file sql_script summary_file
         database_records cloud_url errors).

(** ** etl/extractor.py and api/server.py *)

(** A comparison [col < 0] on a column: on an object column a text cell
    cannot be compared with a number. *)
Definition compare_with_number (dt : dtype) (col : list cell) : result unit :=
  match dt with
  | float64 => Ok tt
  | object =>
      if existsb (fun c => match c with Str _ => true | _ => false end) col
      then Raise (TypeError
                    "'<' not supported between instances of 'str' and 'int'")
      else Ok tt
  end.

(** [OtakuDataExtractor._validate_otaku_data] on a frame with the five
    required columns: it only writes warnings, but its range checks and its
    use of [.str] raise on columns of the wrong kind. *)
Definition _validate_otaku_data (df : Raw.DataFrame) : result unit :=
  let dt := Raw.dtypes df in
  try! _ <- compare_with_number (Raw.d_age dt)
              (List.map Raw.age (Raw.rows df));
  try! _ <- str_accessor (Raw.d_gender dt);
  try! _ <- compare_with_number (Raw.d_income dt)
              (List.map Raw.income (Raw.rows df));
  Ok tt.

(** [OtakuDataExtractor.extract_otaku_data] on the frame pandas read from the
    file, with its headers cleaned: [_validate_extracted_data] refuses a
    frame without rows, and [_validate_otaku_data] runs on the others.  The
    five required columns are present by the type of the frame: for a file
    in which one is missing, [file] is the ValueError that the check of the
    required columns raises. *)
Definition extract_otaku_data (file : result Raw.DataFrame)
  : M Raw.DataFrame :=
  do df <- lift file;
  match Raw.rows df with
  | [] => raise (ValueError "No se extrajeron datos o el DataFrame está vacío")
  | _ =>
      do _ <- lift (_validate_otaku_data df);
      ret df
  end.

(** [OtakuDataTransformer.transform_otaku_data]: the transformation followed
    by [validate_transformed_data] and [get_transformation_summary], which
    catch their own exceptions and leave the frame as it is. *)
Definition transform_otaku_data {S} {RS : RateService S}
    (trm_service : option S) (df : Raw.DataFrame) (trm_value : option Decimal)
  : M (list Canon.Row) :=
  transform_data trm_service df trm_value.

(** The dictionary returned by [process_etl_pipeline]. *)
Inductive PipelineReport : Type :=
| ReportSuccess (data : list Canon.Row) (records_processed : nat)
                (trm_used : Decimal) (database_inserted : bool)
                (records_inserted : nat)
| ReportFailure (error : string).

Definition pipeline_success (r : PipelineReport) : bool :=
  match r with
  | ReportSuccess _ _ _ _ _ => true
  | ReportFailure _ => false
  end.

(** The [try] block of [process_etl_pipeline(input_file, insert_to_database)]
    of the API server, whose components are the plain [TRMService],
    [OtakuDataTransformer] and [DatabaseConnection]. *)
Definition process_etl_pipeline_try (trm_service : TRMService)
    (db_connection : option DatabaseConnection)
    (input_file : result Raw.DataFrame) (insert_to_database : bool)
  : M PipelineReport :=
  do _ <- match db_connection with
          | Some _ => rollback
          | None => ret tt
          end;
  do extracted_data <- extract_otaku_data input_file;
  do _ <- match Raw.rows extracted_data with
          | [] => raise (Exception "No se pudieron extraer datos del archivo")
          | _ => ret tt
          end;
  do transformed_data <-
    transform_otaku_data (Some trm_service) extracted_data None;
  do _ <- match transformed_data with
          | [] => raise (Exception "Error en la transformación de datos")
          | _ => ret tt
          end;
  do load_result <-
    load_otaku_data transformed_data
      (if insert_to_database then db_connection else None) None;
  do trm_used <- obtener_trm_actual trm_service;
  ret (ReportSuccess transformed_data (List.length transformed_data) trm_used
         (insert_to_database && (0 <? database_records load_result)%nat)
         (if insert_to_database then database_records load_result else 0%nat)).

Definition process_etl_pipeline (trm_service : TRMService)
    (db_connection : option DatabaseConnection)
    (input_file : result Raw.DataFrame) (insert_to_database : bool)
  : M PipelineReport :=
  try_except (process_etl_pipeline_try trm_service db_connection input_file
                insert_to_database)
             (fun e => ret (ReportFailure (exn_str e))).

(** ** Definitions used to state the properties *)

(** Row-wise reading of the column transformations and of the metadata step:
    the canonical record of one cleaned row. *)
Definition canonical_record (trm_float : F64.t) (timestamp : string)
    (r : Work.Row) : Canon.Row :=
  Canon.mkRow
    (Work.name r)
    (Work.age r)
    (F64.cell (F64.round2 (F64.div (F64.of_cell (Work.age r)) (F64.of_Z 5))))
    (Work.gender r)
    (fillna (series_map gender_translation (Work.gender r)) (Work.gender r))
    (Work.income r)
    (F64.cell (F64.round2 (F64.mul (F64.of_cell (Work.income r)) trm_float)))
    (F64.cell trm_float)
    (Work.illness r)
    (fillna (series_map illness_translation (Work.illness r)) (Some "No"))
    timestamp.

(** What [transform_data] computes. *)
Definition transform_outcome {S} {RS : RateService S}
    (trm_service : option S) (df : Raw.DataFrame) (trm_value : option Decimal)
    (w : World) : result (list Canon.Row) * World :=
  match _clean_data df with
  | Raise e => (Raise e, w)
  | Ok cleaned =>
      match resolve_trm trm_service trm_value w with
      | (Raise e, w') => (Raise e, w')
      | (Ok rate, w') =>
          match float rate with
          | Raise e => (Raise e, w')
          | Ok trm_float =>
              (Ok (List.map (canonical_record trm_float
                               (strftime py MYSQL_DATETIME_FORMAT (now w')))
                            cleaned), w')
          end
      end
  end.

(** The trimmed, lower-cased text of a raw cell of an object column. *)
Definition normalized (c : cell) : string :=
  str_strip py (str_lower py (str_strip py (py_str c))).

(** The raw rows that [_clean_data] keeps. *)
Definition survivors (df : Raw.DataFrame) : list Raw.Row :=
  filter (fun raw => negb (critical_null (clean_row (Raw.dtypes df) raw)))
         (Raw.rows df).

(** The source vocabularies, as the specification lists them. *)
Definition gender_vocabulary : list string := ["male"; "female"; "m"; "f"].

Definition illness_vocabulary : list string :=
  ["yes"; "y"; "true"; "1"; "no"; "n"; "false"; "0"].

(** What a response of the expected shape carries: a JSON array whose first
    element is an object with a [valor] that [Decimal] reads. *)
Definition expected_rate (data : json) : option Decimal :=
  match data with
  | JArr (JObj m :: _) =>
      match PyStr.get m "valor" with
      | Some v => Decimal_of_json py v
      | None => None
      end
  | _ => None
  end.

(** The rate the service answers with for an outcome of the request. *)
Definition rate_of_outcome (fallback : Q) (o : http_outcome) : Decimal :=
  match o with
  | Body (Some data) =>
      if json_truthy data then
        match data with
        | JArr (JObj m :: _) =>
            match PyStr.get m "valor" with
            | Some v =>
                match Decimal_of_json py v with
                | Some d => d
                | None => fallback
                end
            | None => fallback
            end
        | _ => fallback
        end
      else fallback
  | _ => fallback
  end.

(** The failure modes of the rate fetch, as the code tells them: the request
    raises, the body is not JSON, the response is empty, or it carries
    nothing that [Decimal] reads. *)
Inductive rate_fetch_failure : http_outcome -> Prop :=
| network_error : rate_fetch_failure ConnectionFailed
| timeout : rate_fetch_failure TimedOut
| http_error : forall code, rate_fetch_failure (HttpError code)
| body_not_json : rate_fetch_failure (Body None)
| empty_response : forall data,
    json_truthy data = false -> rate_fetch_failure (Body (Some data))
| malformed_response : forall data,
    expected_rate data = None -> rate_fetch_failure (Body (Some data)).

(** A persisted cache entry that reads back as a timestamp and a rate. *)
Definition cache_entry (content : json) (captured_at : Z) (rate : Decimal)
  : Prop :=
  exists m ts v,
    content = JObj m
    /\ PyStr.get m "timestamp" = Some (JStr ts)
    /\ fromisoformat py ts = Some captured_at
    /\ PyStr.get m "trm_value" = Some v
    /\ Decimal_of_json py v = Some rate.

(** The five write attempts at the head of [load_otaku_data]. *)
Definition write_files (df : list Canon.Row) : M LoadResult :=
  do ' (json_file, errors) <- attempt "Error guardando JSON" (save_to_json df) [];
  do ' (parquet_file, errors) <-
    attempt "Error guardando Parquet" (save_to_parquet df) errors;
  do ' (csv_file, errors) <- attempt "Error guardando CSV" (save_to_csv df) errors;
  do ' (sql_script, errors) <-
    attempt "Error generando script SQL" (generate_sql_insert_script df) errors;
  do ' (summary_file, errors) <-
    attempt "Error creando resumen" (create_data_summary df) errors;
  ret (mkLoadResult json_file parquet_file csv_file sql_script summary_file
         0 None errors).

Definition file_of (s : sink) (r : LoadResult) : option string :=
  match s with
  | SJson => json_file r
  | SParquet => parquet_file r
  | SCsv => csv_file r
  | SSql => sql_script r
  | SSummary => summary_file r
  end.

Definition sink_label (s : sink) : string :=
  match s with
  | SJson => "Error guardando JSON"
  | SParquet => "Error guardando Parquet"
  | SCsv => "Error guardando CSV"
  | SSql => "Error generando script SQL"
  | SSummary => "Error creando resumen"
  end.

(** The name a writer gives its file when the clock shows [t]. *)
Definition sink_path (s : sink) (t : Z) : string :=
  let timestamp := strftime py TIMESTAMP_FORMAT t in
  match s with
  | SJson => output_dir_path ++ "/transformed_data_" ++ timestamp ++ ".json"
  | SParquet => output_dir_path ++ "/transformed_data_" ++ timestamp ++ ".parquet"
  | SCsv => output_dir_path ++ "/transformed_data_" ++ timestamp ++ ".csv"
  | SSql => output_dir_path ++ "/insert_script_" ++ timestamp ++ ".sql"
  | SSummary => output_dir_path ++ "/data_summary_" ++ timestamp ++ ".json"
  end.

(** A failure inside a writer that does not come from its I/O: the summary
    needs at least one age. *)
Definition writer_fault (df : list Canon.Row) (w : World) (s : sink)
  : option exn :=
  match s with
  | SSummary =>
      if forallb (fun r => isnull (Canon.edad_anos r)) df
      then Some (ValueError "cannot convert float NaN to integer")
      else sink_fault w s
  | _ => sink_fault w s
  end.

(** What one write attempt leaves in the result: the path or nothing, and
    the message it appends to the errors. *)
Definition writer_outcome (df : list Canon.Row) (w : World) (s : sink)
  : option string * list string :=
  match writer_fault df w s with
  | Some e => (None, [(sink_label s ++ ": " ++ exn_str e)%string])
  | None => (Some (sink_path s (now w)), [])
  end.

(** The result of the five write attempts. *)
Definition files_result (df : list Canon.Row) (w : World) : LoadResult :=
  mkLoadResult
    (fst (writer_outcome df w SJson))
    (fst (writer_outcome df w SParquet))
    (fst (writer_outcome df w SCsv))
    (fst (writer_outcome df w SSql))
    (fst (writer_outcome df w SSummary))
    0 None
    (((((([] ++ snd (writer_outcome df w SJson))
          ++ snd (writer_outcome df w SParquet))
         ++ snd (writer_outcome df w SCsv))
        ++ snd (writer_outcome df w SSql))
       ++ snd (writer_outcome df w SSummary)))%list.

(** The key of the duplicate check, applied to a record. *)
Definition is_duplicate_of (record p : Persona.Row) : bool :=
  same_person (Persona.nombre record) (Persona.edad_anos record)
              (Persona.genero_original record) (Persona.ingreso_usd record) p.

Definition in_table (record : Persona.Row) (table : list Persona.Row) : bool :=
  existsb (is_duplicate_of record) table.

(** The time of the clock, the rest of the world unchanged. *)
Definition set_now (t : Z) (w : World) : World :=
  mkWorld t (api w) (api_later w) (api_calls w) (cache_file w) (cache_writable w)
          (output_dir w) (sink_fault w) (db w).

(** What a computation leaves as it was. *)
Definition preserves {A} (R : World -> World -> Prop) (m : M A) : Prop :=
  forall w r w', m w = (r, w') -> R w w'.

(** Everything but the database is unchanged. *)
Definition same_outside_db (w w' : World) : Prop :=
  now w' = now w
  /\ (api w' = api w /\ api_later w' = api_later w)
  /\ api_calls w' = api_calls w
  /\ cache_file w' = cache_file w /\ cache_writable w' = cache_writable w
  /\ output_dir w' = output_dir w /\ sink_fault w' = sink_fault w.

(** The table is unchanged: only outcomes of statements were consumed. *)
Definition same_rows (w w' : World) : Prop :=
  committed (db w') = committed (db w) /\ pending (db w') = pending (db w)
  /\ same_outside_db w w'.

(** Nothing was committed. *)
Definition same_committed (w w' : World) : Prop :=
  committed (db w') = committed (db w) /\ same_outside_db w w'.

(** The database, the clock and the writers' faults are unchanged. *)
Definition same_db (w w' : World) : Prop :=
  db w' = db w /\ now w' = now w /\ sink_fault w' = sink_fault w.

(** The columns the duplicate check compares. *)
Definition key_of (p : Persona.Row) : string * Z * string * Q :=
  (Persona.nombre p, Persona.edad_anos p, Persona.genero_original p,
   Persona.ingreso_usd p).

Definition key_in_table (k : string * Z * string * Q)
    (table : list Persona.Row) : bool :=
  let '(nombre, edad_anos, genero_original, ingreso_usd) := k in
  existsb (same_person nombre edad_anos genero_original ingreso_usd) table.

(** The key under which a canonical record reaches the duplicate check. *)
Definition canon_key (row : Canon.Row) : string * Z * string * Q :=
  (py_str (Canon.nombre row),
   match Canon.edad_anos row with
   | Some a => py_int a
   | None => 0%Z
   end,
   "",
   float_or_zero (Canon.ingreso_usd row)).

(** The names of the files in the output directory. *)
Definition file_names (w : World) : list string :=
  List.map fst (output_dir w).

(** A writer leaves the database, the clock and the faults alone, and every
    file name that was there is still there. *)
Definition files_grow (w w' : World) : Prop :=
  same_db w w' /\ incl (file_names w) (file_names w').

(** The message the loader records when the database step raises. *)
Definition database_error (e : exn) : string :=
  "Error cargando a base de datos: " ++ exn_str e.

(** The upload of the JSON file, when there is a cloud service and a JSON
    file: the URL or nothing, and the errors after it. *)
Definition cloud_step (cloud_service : option CloudStorageService)
    (json_file : option string) (errors : list string) (t : Z)
  : option string * list string :=
  match cloud_service, json_file with
  | Some c, Some json_path =>
      match upload_file c json_path
              ("otaku_data_" ++ strftime py TIMESTAMP_FORMAT t ++ ".json") with
      | Ok url => (Some url, errors)
      | Raise e =>
          (None,
           (errors ++ [("Error subiendo a la nube: " ++ exn_str e)%string])%list)
      end
  | _, _ => (None, errors)
  end.

(** The result of the load when the database step raised [e]. *)
Definition with_database_error (files : LoadResult) (e : exn)
    (cloud_service : option CloudStorageService) (t : Z) : LoadResult :=
  let (url, errs) :=
    cloud_step cloud_service (json_file files)
               (errors files ++ [database_error e]) t in
  mkLoadResult (json_file files) (parquet_file files) (csv_file files)
    (sql_script files) (summary_file files) 0 url errs.

(** The result of the load when the database step inserted [n] rows, or
    when there is no database. *)
Definition with_database_records (files : LoadResult) (n : nat)
    (cloud_service : option CloudStorageService) (t : Z) : LoadResult :=
  let (url, errs) :=
    cloud_step cloud_service (json_file files) (errors files) t in
  mkLoadResult (json_file files) (parquet_file files) (csv_file files)
    (sql_script files) (summary_file files) n url errs.

(** A writer that fails as [writer_fault] says and otherwise puts its file
    under [sink_path]. *)
Definition writes_as (df : list Canon.Row) (s : sink) (writer : M string)
  : Prop :=
  forall w,
    match writer_fault df w s with
    | Some e => writer w = (Raise e, w)
    | None =>
        exists w', writer w = (Ok (sink_path s (now w)), w')
                   /\ files_grow w w'
                   /\ In (sink_path s (now w)) (file_names w')
    end.

(** The second of two loads of the same records: it runs in the world the
    first one left, at a clock reading [t]. *)
Definition second_load (df : list Canon.Row)
    (db_manager : DatabaseConnectionOptimized) (w1 : World) (t : Z)
  : result LoadResult * World :=
  load_otaku_data df (Some db_manager) None (set_now t w1).

(** The specification's reading of an input that cleaning empties: the
    transformation raises. *)
Definition transform_raises_when_emptied : Prop :=
  forall (df : Raw.DataFrame) (trm_value : option Decimal) (w : World),
    _clean_data df = Ok [] ->
    exists e w',
      transform_data (Some TRMService_init) df trm_value w = (Raise e, w').

(** A response that carries no number as its rate: it is not an array whose
    first element is an object with a [valor] that reads as a number. *)
Definition carries_no_number (data : json) : Prop :=
  forall q : Q, expected_rate data <> Some (Dec q).

(** The specification's reading of a malformed response: whenever the
    response carries no number, the fallback is returned. *)
Definition malformed_response_gives_fallback : Prop :=
  forall (w : World) (data : json),
    api w = Body (Some data) -> carries_no_number data ->
    exists w',
      obtener_trm_actual TRMService_init w = (Ok (Dec fallback_trm), w').

(** The specification's reading of two loads over a working connection: no
    row the second time, and files of new names each time. *)
Definition second_load_is_fresh : Prop :=
  forall (df : list Canon.Row) (db_manager : DatabaseConnectionOptimized)
         (w0 w1 w2 : World) (r1 r2 : LoadResult) (t : Z),
    faults (db w0) = [] ->
    load_otaku_data df (Some db_manager) None w0 = (Ok r1, w1) ->
    (now w1 <= t)%Z ->
    second_load df db_manager w1 t = (Ok r2, w2) ->
    database_records r2 = 0%nat
    /\ forall s p1 p2,
         file_of s r1 = Some p1 -> file_of s r2 = Some p2 -> p1 <> p2.

(** ** Concrete inputs *)

Definition object_frame : Raw.Dtypes :=
  Raw.mkDtypes object float64 object float64 object.

(** The scenario of the specification: Ana, 25, Female, 1000, No. *)
Definition ana_df : Raw.DataFrame :=
  Raw.mkDF object_frame
    [Raw.mkRow (Str "Ana") (Num 25) (Str "Female") (Num 1000) (Str "No")].

(** Amounts that do not end on a cent: at a rate of 4012.35 the income 2.9
    has the exact product 11635.815, and 0.004525 at 4200 has 19.005. *)
Definition cents_df : Raw.DataFrame :=
  Raw.mkDF object_frame
    [Raw.mkRow (Str "Ana") (Num 25) (Str "Female") (Num (29 # 10)) (Str "No");
     Raw.mkRow (Str "Luz") (Num 33) (Str "F") (Num 1000) (Str "Yes");
     Raw.mkRow (Str "Eva") (Num (259 # 10)) (Str "M") (Num (4525 # 1000000))
               (Str "n")].

(** The endpoint answers with a [valor] that is no number. *)
Definition world_nan_rate : World :=
  mkWorld 1700000000000000
    (Body (Some (JArr [JObj [("valor", JStr "NaN")]])))
    (steady (Body (Some (JArr [JObj [("valor", JStr "NaN")]])))) 0
    Missing true []
    (fun _ => None) (mkDB [] [] []).

(** A file whose name column is empty throughout: pandas reads it as a
    float64 column of NaN. *)
Definition nameless_df : Raw.DataFrame :=
  Raw.mkDF (Raw.mkDtypes float64 float64 object float64 object)
    [Raw.mkRow NaN (Num 25) (Str "Female") (Num 1000) (Str "No");
     Raw.mkRow NaN (Num 31) (Str "Male") (Num 2500) (Str "Yes")].

(** Values outside both vocabularies. *)
Definition unmapped_df : Raw.DataFrame :=
  Raw.mkDF object_frame
    [Raw.mkRow (Str "Luz") (Num 40) (Str " Other ") (Num 10) (Str "Maybe")].

Definition no_faults : sink -> option exn := fun _ => None.

Definition empty_db : Database := mkDB [] [] [].

(** 2023-11-14 22:13:20 UTC, the endpoint unreachable, no cache file. *)
Definition world0 : World :=
  mkWorld 1700000000000000 ConnectionFailed (steady ConnectionFailed) 0
          Missing true [] no_faults
          empty_db.

Definition ana_canon : Canon.Row :=
  Canon.mkRow (Str "Ana") (Some 25) (Some (F64.of_Z 5)) (Some "female")
    (Some "Femenino") (Some 1000) (Some (F64.of_Z 4000000))
    (Some (F64.of_Z 4000)) (Some "no") (Some "No") "2023-11-14 22:13:20".

Definition ana_persona : Persona.Row :=
  Persona.mkRow "Ana" 25 (F64.of_Z 5) "" "Femenino" 1000 (F64.of_Z 4000000)
    (F64.of_Z 4000) "no" "No" "2023-11-14 22:13:20".

Definition conn : DatabaseConnectionOptimized := mkConnection "otaku".



(** The table holds Ana already and the next statement, the duplicate
    check, fails. *)
Definition world_failing_check : World :=
  mkWorld 1700000000000000 ConnectionFailed (steady ConnectionFailed) 0
          Missing true [] no_faults
          (mkDB [ana_persona] [] [true]).

Definition parquet_broken : sink -> option exn :=
  fun s => match s with
           | SParquet => Some (Exception "pyarrow is not installed")
           | _ => None
           end.

(** The Parquet writer is broken, and of the statements sent to the database
    the cursor, the duplicate check and the bulk INSERT go through and the
    COMMIT fails. *)
Definition world_faulty : World :=
  mkWorld 1700000000000000 ConnectionFailed (steady ConnectionFailed) 0
          Missing true [] parquet_broken
          (mkDB [] [] [false; false; false; true]).

(** A row whose gender is outside the vocabulary, as it is handed to the
    gender localisation and as it comes back. *)
Definition other_row : Work.Row :=
  Work.mkRow (Str "Luz") (Some 40) (Some "Other") (Some 10) (Some "maybe")
    None None None None None None.

Definition other_row_localised : Work.Row :=
  Work.mkRow (Str "Luz") (Some 40) (Some "Other") (Some 10) (Some "maybe")
    (Some "Other") None None None None None.

(** Whether a cell of the age or income column is a number after
    [astype(str).str.strip()] and [pd.to_numeric(errors='coerce')]. *)
Definition numeric_cell (dt : dtype) (c : cell) : bool :=
  negb (isnull (to_numeric (astype_str_strip dt c))).

(** The message of pandas when [.str] is used on a column that is not text. *)
Definition str_accessor_error : exn :=
  AttributeError "Can only use .str accessor with string values!".

(** A file with gaps: the second row has no gender and no illness, the third
    no age. *)
Definition gaps_df : Raw.DataFrame :=
  Raw.mkDF object_frame
    [Raw.mkRow (Str "Ana") (Num 25) (Str "Female") (Num 1000) (Str "No");
     Raw.mkRow (Str "Luz") (Num 40) NaN (Num 10) NaN;
     Raw.mkRow (Str "Eva") NaN (Str "F") (Num 70) (Str "Yes")].

(** No two rows of the table agree on the columns of the duplicate check. *)
Definition distinct_keys (table : list Persona.Row) : Prop :=
  ForallOrdPairs (fun a b => is_duplicate_of a b = false) table.

(** Worlds for the inserts: Ana is committed already; the connection fails
    at the third statement. *)
Definition world_with_ana : World :=
  mkWorld 1700000000000000 ConnectionFailed (steady ConnectionFailed) 0
          Missing true [] no_faults
          (mkDB [ana_persona] [] []).

Definition world_third_fails : World :=
  mkWorld 1700000000000000 ConnectionFailed (steady ConnectionFailed) 0
          Missing true [] no_faults
          (mkDB [] [] [false; false; true]).

Definition plain_conn : DatabaseConnection := mkPlainConnection "otaku".

Definition luz_persona : Persona.Row :=
  Persona.mkRow "Luz" 40 (F64.of_Z 8) "" "other" 10 (F64.of_Z 40000)
    (F64.of_Z 4000) "maybe" "No" "2023-11-14 22:13:20".

(** Everything but the output directory is unchanged. *)
Definition same_outside_files (w w' : World) : Prop :=
  db w' = db w /\ now w' = now w /\ sink_fault w' = sink_fault w
  /\ (api w' = api w /\ api_later w' = api_later w)
  /\ api_calls w' = api_calls w
  /\ cache_file w' = cache_file w /\ cache_writable w' = cache_writable w.

(** The world after the rollback that opens [process_etl_pipeline]. *)
Definition after_reset (db_connection : option DatabaseConnection)
    (w : World) : World :=
  match db_connection with
  | Some _ => set_db (mkDB (committed (db w)) [] (faults (db w))) w
  | None => w
  end.

(** What [process_etl_pipeline] reports, and the world it leaves, read off
    its steps. *)
Definition pipeline_outcome (db_connection : option DatabaseConnection)
    (input_file : result Raw.DataFrame) (insert_to_database : bool)
    (w : World) : result PipelineReport * World :=
  let w0 := after_reset db_connection w in
  match input_file with
  | Raise e => (Ok (ReportFailure (exn_str e)), w0)
  | Ok df =>
      match Raw.rows df with
      | [] =>
          (Ok (ReportFailure
                 "No se extrajeron datos o el DataFrame está vacío"), w0)
      | _ =>
          match _validate_otaku_data df, _clean_data df with
          | Raise e, _ | Ok _, Raise e =>
              (Ok (ReportFailure (exn_str e)), w0)
          | Ok _, Ok cleaned =>
              let w1 := request_made w0 in
              let rate := rate_of_outcome fallback_trm (api w) in
              match float rate, cleaned with
              | Raise e, _ => (Ok (ReportFailure (exn_str e)), w1)
              | Ok _, [] =>
                  (Ok (ReportFailure "Error en la transformación de datos"),
                   w1)
              | Ok trm_float, _ =>
                  let data :=
                    List.map (canonical_record trm_float
                                (strftime py MYSQL_DATETIME_FORMAT (now w)))
                             cleaned in
                  match load_otaku_data data
                          (if insert_to_database then db_connection else None)
                          None w1 with
                  | (Ok load_result, w2) =>
                      (Ok (ReportSuccess data (List.length data)
                             (rate_of_outcome fallback_trm (api_later w 0))
                             (insert_to_database
                              && (0 <? database_records load_result)%nat)
                             (if insert_to_database
                              then database_records load_result else 0%nat)),
                       request_made w2)
                  | (Raise e, w2) => (Ok (ReportFailure (exn_str e)), w2)
                  end
              end
          end
      end
  end.

(** Two records of one person, told apart only by fields the duplicate
    check does not see: the gender and the fraction of the age. *)
Definition ana_again : Canon.Row :=
  Canon.mkRow (Str "Ana") (Some (259 # 10)) (Some (F64.of_Q (518 # 100)))
    (Some "male") (Some "Masculino") (Some 1000) (Some (F64.of_Z 4000000))
    (Some (F64.of_Z 4000)) (Some "yes") (Some "Sí") "2023-11-14 22:13:20".

(** The endpoint answers with a rate of 3950.25; the cache file can be
    written. *)
Definition world_online : World :=
  mkWorld 1700000000000000
    (Body (Some (JArr [JObj [("valor", JStr "3950.25")]])))
    (steady (Body (Some (JArr [JObj [("valor", JStr "3950.25")]])))) 0
    Missing true []
    no_faults empty_db.

(** ** Validation and summary of the transformer

    [validate_transformed_data] and [get_transformation_summary] are the
    same in etl/transformer.py and etl/transformer_optimized.py up to the
    way a mask is counted. *)

(** [str(n)] of a count. *)
Definition str_nat (n : nat) : string :=
  NilZero.string_of_uint (Nat.to_uint n).

(** A comparison of a cell of a float column with an integer: False on
    NaN. *)
Definition cell_lt (v : option F64.t) (b : Z) : bool :=
  F64.ltb (F64.get v) (F64.of_Z b).

Definition cell_gt (v : option F64.t) (b : Z) : bool :=
  F64.ltb (F64.of_Z b) (F64.get v).

(** The cells of a column that are not NaN. *)
Fixpoint notna {A} (col : list (option A)) : list A :=
  match col with
  | [] => []
  | Some a :: rest => a :: notna rest
  | None :: rest => notna rest
  end.

(** [Series.value_counts().to_dict()]: how often each value occurs.  The
    result is a dict; the order of the list is not part of it. *)
Definition value_counts (col : list (option string)) : list (string * nat) :=
  let values := notna col in
  List.map (fun v => (v, count_occ string_dec values v))
           (nodup string_dec values).

Record Statistics : Type := mkStatistics {
  total_records : nat;
  avg_age_lustros : option F64.t;
  avg_income_cop : option F64.t;
  gender_distribution : list (string * nat);
  illness_distribution : list (string * nat) }.

Record ValidationResult : Type := mkValidation {
  is_valid : bool;
  validation_errors : list string;
  warnings : list string;
  statistics : Statistics }.

(** [validate_transformed_data] on a frame that has the columns of the
    canonical record: no required column is missing, and none of the
    operations of the [try] block raises. *)
Definition validate_transformed_data (df : list Canon.Row) : ValidationResult :=
  let invalid_lustros :=
    filter (fun r => cell_lt (Canon.edad_lustros r) 0
                     || cell_gt (Canon.edad_lustros r) 24) df in
  let warnings :=
    match invalid_lustros with
    | [] => []
    | _ => [str_nat (List.length invalid_lustros)
            ++ " registros con lustros fuera de rango"]
    end in
  let invalid_cop := filter (fun r => cell_lt (Canon.ingreso_cop r) 0) df in
  let '(errors, is_valid) :=
    match invalid_cop with
    | [] => ([], true)
    | _ => ([str_nat (List.length invalid_cop)
             ++ " registros con ingresos COP negativos"], false)
    end in
  mkValidation is_valid errors warnings
    (mkStatistics (List.length df)
       (series_mean py (List.map Canon.edad_lustros df))
       (series_mean py (List.map Canon.ingreso_cop df))
       (value_counts (List.map Canon.genero_es df))
       (value_counts (List.map Canon.enfermedad_es df))).

Record TransformationSummary : Type := mkSummary {
  original_records : nat;
  transformed_records : nat;
  records_lost : Z;
  trm_used : option F64.t;
  transformations_applied : list string;
  new_columns_created : list string }.

(** [float(self.current_trm) if self.current_trm else None]; a float that
    is NaN is still a value of the dictionary, so the cell is not used
    here. *)
Definition float_if_truthy (current_trm : option Decimal)
  : result (option F64.t) :=
  match current_trm with
  | Some trm =>
      if truthy trm then
        try! trm_float <- float trm; Ok (Some trm_float)
      else Ok None
  | None => Ok None
  end.

(** [get_transformation_summary]; [current_trm] is [self.current_trm],
    which is [None] before the first transformation.  [None] is the empty
    dictionary returned when building the summary raised. *)
Definition get_transformation_summary (current_trm : option Decimal)
    (original_df : Raw.DataFrame) (transformed_df : list Canon.Row)
  : option TransformationSummary :=
  match float_if_truthy current_trm with
  | Ok trm_used =>
      Some (mkSummary
              (List.length (Raw.rows original_df))
              (List.length transformed_df)
              (Z.of_nat (List.length (Raw.rows original_df))
               - Z.of_nat (List.length transformed_df))%Z
              trm_used
              ["Gender: English → Spanish"; "Illness: English → Spanish";
               "Age: Years → Lustros"; "Income: USD → COP";
               "Added processing metadata"]
              ["genero_es"; "enfermedad_es"; "edad_lustros"; "ingreso_cop";
               "trm_utilizada"; "fecha_procesamiento"])
  | Raise _ => None
  end.

(** [transformation_result.get('summary', {}).get('trm_used')] *)
Definition summary_trm_used (summary : option TransformationSummary)
  : option F64.t :=
  match summary with
  | Some s => trm_used s
  | None => None
  end.

(** [transform_data] together with the [self.current_trm] it leaves on the
    transformer. *)
Definition transform_data_self {S} {RS : RateService S}
    (trm_service : option S) (df : Raw.DataFrame) (trm_value : option Decimal)
  : M (list Canon.Row * Decimal) :=
  do df_transformed <- lift (_clean_data df);
  do current_trm <- resolve_trm trm_service trm_value;
  let df_transformed := _transform_gender df_transformed in
  let df_transformed := _transform_illness df_transformed in
  let df_transformed := _transform_age_to_lustros df_transformed in
  do df_transformed <-
    lift (_transform_income_to_cop current_trm df_transformed);
  do df_transformed <- _add_transformation_metadata df_transformed;
  ret (df_transformed, current_trm).

(** [OtakuDataTransformer.transform_otaku_data] with the report it returns
    beside the frame: the validation and the summary. *)
Definition transform_otaku_data_report {S} {RS : RateService S}
    (trm_service : option S) (df : Raw.DataFrame) (trm_value : option Decimal)
  : M (list Canon.Row
       * (ValidationResult * option TransformationSummary)) :=
  do ' (df_transformed, current_trm) <-
    transform_data_self trm_service df trm_value;
  let validation_result := validate_transformed_data df_transformed in
  let transformation_summary :=
    get_transformation_summary (Some current_trm) df df_transformed in
  ret (df_transformed, (validation_result, transformation_summary)).

(** ** The other methods of the rate service *)

(** [a <= b] on decimals: comparing with a NaN signals InvalidOperation,
    which the default context traps. *)
Definition Decimal_le (a b : Decimal) : result bool :=
  match a, b with
  | Dec x, Dec y => Ok (Qle_bool x y)
  | (DecNaN | DecSNaN), _ | _, (DecNaN | DecSNaN) => Raise InvalidOperation
  | DecInf s, DecInf s' => Ok (s || negb s')
  | DecInf s, Dec _ => Ok s
  | Dec _, DecInf s => Ok (negb s)
  end.

(** [TRMService.validar_trm]: any exception gives [False]. *)
Definition validar_trm (trm_value : json) : bool :=
  match
    (try! trm_decimal <- Decimal_str trm_value;
     try! low <- Decimal_le (Dec 3000) trm_decimal;
     if low then Decimal_le trm_decimal (Dec 6000) else Ok false)
  with
  | Ok b => b
  | Raise _ => false
  end.

(** The endpoint answers with a rate of 1, far outside the plausible
    range. *)
Definition world_odd_rate : World :=
  mkWorld 1700000000000000
    (Body (Some (JArr [JObj [("valor", JStr "1")]])))
    (steady (Body (Some (JArr [JObj [("valor", JStr "1")]])))) 0
    Missing true []
    no_faults empty_db.

(** A file with a negative income. *)
Definition debt_df : Raw.DataFrame :=
  Raw.mkDF object_frame
    [Raw.mkRow (Str "Ana") (Num 25) (Str "Female") (Num 1000) (Str "No");
     Raw.mkRow (Str "Luz") (Num 40) (Str "F") (Num (-10)) (Str "Yes")].

(** The endpoint answers the first request with 3950.25 and every later one
    with 4012.35. *)
Definition world_rate_moves : World :=
  mkWorld 1700000000000000
    (Body (Some (JArr [JObj [("valor", JStr "3950.25")]])))
    (steady (Body (Some (JArr [JObj [("valor", JStr "4012.35")]])))) 0
    Missing true [] no_faults empty_db.

(** The endpoint answers with a rate of 0. *)
Definition world_zero_rate : World :=
  mkWorld 1700000000000000
    (Body (Some (JArr [JObj [("valor", JNum 0)]])))
    (steady (Body (Some (JArr [JObj [("valor", JNum 0)]])))) 0
    Missing true []
    no_faults empty_db.

(** ** etl/extractor.py: column names, formats, validation *)

Fixpoint string_map (f : ascii -> ascii) (s : string) : string :=
  match s with
  | EmptyString => EmptyString
  | String c r => String (f c) (string_map f r)
  end.

Fixpoint string_filter (p : ascii -> bool) (s : string) : string :=
  match s with
  | EmptyString => EmptyString
  | String c r => if p c then String c (string_filter p r)
                  else string_filter p r
  end.

Fixpoint string_forall (p : ascii -> bool) (s : string) : bool :=
  match s with
  | EmptyString => true
  | String c r => p c && string_forall p r
  end.

(** The class [a-zA-Z0-9_] of the regular expression. *)
Definition is_word_char (c : ascii) : bool :=
  let n := nat_of_ascii c in
  ((48 <=? n) && (n <=? 57) || (65 <=? n) && (n <=? 90)
   || (97 <=? n) && (n <=? 122) || (n =? 95))%nat.

(** [a-z0-9_]: what is left of a header after [clean_column_names]. *)
Definition is_clean_char (c : ascii) : bool :=
  let n := nat_of_ascii c in
  ((48 <=? n) && (n <=? 57) || (97 <=? n) && (n <=? 122) || (n =? 95))%nat.

(** [str.replace(' ', '_')] *)
Definition spaces_to_underscores (s : string) : string :=
  string_map (fun c => if Ascii.eqb c " " then "_"%char else c) s.

(** One header through [clean_column_names]: [strip], [lower],
    [replace(' ', '_')], and the removal of every character outside
    [a-zA-Z0-9_]. *)
Definition clean_column_name (col : string) : string :=
  let col := PyStr.strip col in
  let col := PyStr.lower col in
  let col := spaces_to_underscores col in
  string_filter is_word_char col.

(** [clean_column_names] on the headers of a frame. *)
Definition clean_column_names (columns : list string) : list string :=
  List.map clean_column_name columns.

Definition required_columns : list string :=
  ["name"; "age"; "gender"; "income"; "illness"].

(** [validate_required_columns(df, required_columns)] on the headers. *)
Definition validate_required_columns (columns : list string)
    (required : list string) : bool :=
  let df_columns :=
    List.map (fun col => PyStr.strip (PyStr.lower col)) columns in
  let missing_columns :=
    filter (fun required_col =>
              negb (PyStr.mem (PyStr.strip (PyStr.lower required_col))
                              df_columns)) required in
  match missing_columns with
  | [] => true
  | _ => false
  end.

(** A frame as a reader returns it: headers and rows of cells. *)
Record Table : Type := mkTable {
  columns : list string;
  records : list (list cell) }.

(** [df.empty] *)
Definition table_empty (df : Table) : bool :=
  match columns df, records df with
  | [], _ | _, [] => true
  | _, _ => false
  end.

Inductive file_reader : Type := CsvReader | ExcelReader | JsonReader.

Definition supported_formats : list string :=
  [".csv"; ".xlsx"; ".xls"; ".json"; ".txt"].

(** [DataExtractor.extract_data]: [suffix] is [Path(file_path).suffix] and
    [read] what each of the three readers returns for the file. *)
Definition extract_data (suffix : string)
    (read : file_reader -> result Table) : result Table :=
  let extension := PyStr.lower suffix in
  if negb (PyStr.mem extension supported_formats) then
    Raise (ValueError
             ("Formato no soportado: " ++ extension
              ++ ". Formatos soportados: "
              ++ "['.csv', '.xlsx', '.xls', '.json', '.txt']"))
  else
    try! df <-
      (if String.eqb extension ".csv" then read CsvReader
       else if PyStr.mem extension [".xlsx"; ".xls"] then read ExcelReader
       else if String.eqb extension ".json" then read JsonReader
       else Raise (ValueError
                     ("Extractor no implementado para: " ++ extension)));
    if table_empty df then
      Raise (ValueError "No se extrajeron datos o el DataFrame está vacío")
    else Ok df.

(** The reading of a file that the extractor has accepted, or its failure. *)
Definition accepted_by_extractor (input_file : result Raw.DataFrame) : Prop :=
  match input_file with
  | Ok df => _validate_otaku_data df = Ok tt
  | Raise _ => True
  end.

(** ** api/server.py: importing a file into the table *)

(** The answer of [/api/import-to-database]: the JSON of a finished import,
    or an error with its HTTP status. *)
Inductive ImportResponse : Type :=
| ImportDone (records_processed : nat) (records_inserted : nat)
             (data : list Canon.Row) (filename : string)
| ImportError (status : nat) (error : string).

(** The inner [try] block of [import_to_database]: extraction,
    transformation, and [load_to_database] without any file. *)
Definition import_to_database_try (trm_service : TRMService)
    (db_connection : DatabaseConnection)
    (filename : string) (input_file : result Raw.DataFrame)
  : M ImportResponse :=
  do extracted_data <- extract_otaku_data input_file;
  do _ <- match Raw.rows extracted_data with
          | [] => raise (Exception "No se pudieron extraer datos del archivo")
          | _ => ret tt
          end;
  do transformed_data <-
    transform_otaku_data (Some trm_service) extracted_data None;
  do _ <- match transformed_data with
          | [] => raise (Exception "Error en la transformación de datos")
          | _ => ret tt
          end;
  do records_inserted <- load_to_database transformed_data db_connection;
  ret (ImportDone (List.length (Raw.rows extracted_data)) records_inserted
         transformed_data filename).

(** [import_to_database()]: [upload] is the 'file' part of the request, its
    name and what reading the saved copy gives. *)
Definition import_to_database (trm_service : TRMService)
    (db_connection : option DatabaseConnection)
    (upload : option (string * result Raw.DataFrame)) : M ImportResponse :=
  match upload with
  | None => ret (ImportError 400 "No se encontró archivo")
  | Some (filename, input_file) =>
      if String.eqb filename "" then
        ret (ImportError 400 "No se seleccionó archivo")
      else
        match db_connection with
        | None => ret (ImportError 503 "Base de datos no disponible")
        | Some conn =>
            try_except
              (import_to_database_try trm_service conn filename input_file)
              (fun e => ret (ImportError 500 (exn_str e)))
        end
  end.

(** ** main_optimized.py: the end of a run *)

(** [self.db_connection and self.ejecucion_id] *)
Definition run_is_registered
    (db_connection : option DatabaseConnectionOptimized)
    (ejecucion_id : option Z) : bool :=
  match db_connection, ejecucion_id with
  | Some _, Some id => negb (id =? 0)%Z
  | _, _ => false
  end.

(** The [try] block of [_finalize_execution]: the result, and the call made
    on the connection if there is one. *)
Definition _finalize_execution_try
    (db_connection : option DatabaseConnectionOptimized)
    (ejecucion_id : option Z) (start_time end_time : Z)
    (extracted_data : Raw.DataFrame) (transformed_data : list Canon.Row)
    (transformation_result
       : ValidationResult * option TransformationSummary)
    (load_result : LoadResult)
  : result (Execution.Result * option Finalizar.Call) :=
  let duration := inject_Z (end_time - start_time) / 1000000 in
  let execution_result :=
    Execution.mkResult
      (isoformat py start_time) (isoformat py end_time) duration
      (List.length (Raw.rows extracted_data))
      (List.length transformed_data)
      (database_records load_result)
      [("json", json_file load_result);
       ("parquet", parquet_file load_result);
       ("csv", csv_file load_result);
       ("sql_script", sql_script load_result);
       ("summary", summary_file load_result)]
      (cloud_url load_result)
      (summary_trm_used (snd transformation_result))
      (is_valid (fst transformation_result))
      (errors load_result)
      ejecucion_id
      ["TRM Cache"; "Vectorized Transformations"; "Bulk Database Inserts";
       "Optimized Logging"] in
  try! call <-
    match db_connection, ejecucion_id with
    | Some _, Some id =>
        if (id =? 0)%Z then Ok None
        else
          let estado :=
            match Execution.errors execution_result with
            | [] => "COMPLETADO"
            | _ => "COMPLETADO_CON_ADVERTENCIAS"
            end in
          try! json_name <- os_path_basename (json_file load_result);
          try! parquet_name <- os_path_basename (parquet_file load_result);
          Ok (Some (Finalizar.mkCall id
                      (List.length (Raw.rows extracted_data))
                      (Execution.trm_used execution_result)
                      json_name parquet_name estado
                      (match Execution.errors execution_result with
                       | [] => None
                       | errs => Some (String.concat "; " errs)
                       end)))
    | _, _ => Ok None
    end;
  Ok (execution_result, call).

(** [OtakuETLOptimized._finalize_execution] *)
Definition _finalize_execution
    (db_connection : option DatabaseConnectionOptimized)
    (ejecucion_id : option Z) (start_time end_time : Z)
    (extracted_data : Raw.DataFrame) (transformed_data : list Canon.Row)
    (transformation_result
       : ValidationResult * option TransformationSummary)
    (load_result : LoadResult)
  : ExecutionResult * option Finalizar.Call :=
  match _finalize_execution_try db_connection ejecucion_id start_time
          end_time extracted_data transformed_data transformation_result
          load_result with
  | Ok (execution_result, call) => (ExecutionSuccess execution_result, call)
  | Raise e => (ExecutionFailure (exn_str e), None)
  end.

(** A world in which Parquet files cannot be written. *)
Definition world_without_parquet : World :=
  mkWorld 1700000000000000 TimedOut (steady TimedOut) 0
          Missing true [] parquet_broken empty_db.

(** The endpoint answers with an object that has no [valor]. *)
Definition world_without_valor : World :=
  mkWorld 1700000000000000
    (Body (Some (JArr [JObj [("vigenciadesde", JStr "2023-11-14")]])))
    (steady (Body (Some (JArr [JObj [("vigenciadesde", JStr "2023-11-14")]])))) 0
    Missing true [] no_faults empty_db.

(** * Properties *)

(** ** Lists and strings *)

Lemma filter_nil_forall {A} (p : A -> bool) (l : list A) :
  filter p l = [] -> forall x, In x l -> p x = false.
Proof.
  induction l as [|a l IH]; simpl; intros Hf x Hx; [contradiction|].
  destruct (p a) eqn:Hpa; [discriminate|].
  destruct Hx as [->|Hx]; auto.
Qed.

Lemma nodup_nil {A} (dec : forall a b : A, {a = b} + {a <> b}) (l : list A) :
  nodup dec l = [] -> l = [].
Proof.
  destruct l as [|a l]; [reflexivity|]; intros H.
  assert (Hin : In a (nodup dec (a :: l))) by (apply nodup_In; left; reflexivity).
  rewrite H in Hin. contradiction.
Qed.

Lemma unique_empty_no_null (f : Work.Row -> option string)
    (p : Work.Row -> bool) (df : list Work.Row) :
  (0 <? List.length (unique (List.map f (filter p df))))%nat = false ->
  forall r, In r df -> p r = false.
Proof.
  intros H. apply filter_nil_forall.
  apply Nat.ltb_ge in H.
  destruct (unique (List.map f (filter p df))) eqn:Hu; [|simpl in H; lia].
  apply nodup_nil in Hu. destruct (filter p df); [reflexivity|discriminate].
Qed.

Lemma existsb_false_forall {A} (p : A -> bool) (l : list A) :
  existsb p l = false -> forall x, In x l -> p x = false.
Proof.
  induction l as [|a l IH]; simpl; intros H x Hx; [contradiction|].
  apply orb_false_iff in H. destruct H as [Ha Hl].
  destruct Hx as [->|Hx]; auto.
Qed.

Lemma fillna_notnull {A} (v other : option A) :
  isnull v = false -> fillna v other = v.
Proof. destruct v; [reflexivity|discriminate]. Qed.

Lemma length_append (s t : string) :
  String.length (s ++ t) = (String.length s + String.length t)%nat.
Proof. induction s; simpl; congruence. Qed.

Lemma append_inv_head (p s t : string) : (p ++ s = p ++ t)%string -> s = t.
Proof. induction p; simpl; intros H; [assumption|]. injection H; auto. Qed.

Lemma append_inv_tail (e s t : string) : (s ++ e = t ++ e)%string -> s = t.
Proof.
  revert t; induction s as [|c s IH]; intros [|c' t] H; simpl in H.
  - reflexivity.
  - apply (f_equal String.length) in H. simpl in H.
    rewrite length_append in H. lia.
  - apply (f_equal String.length) in H. simpl in H.
    rewrite length_append in H. lia.
  - injection H as -> H. f_equal. auto.
Qed.

(** ** The transformer, row by row *)

(** Storing a float in a column and reading it back gives the float. *)
Lemma F64_get_cell (x : F64.t) : F64.get (F64.cell x) = x.
Proof. destruct x; reflexivity. Qed.

Lemma F64_cell_get (v : option F64.t) :
  v <> Some F64.nan -> F64.cell (F64.get v) = v.
Proof.
  destruct v as [x|]; [|reflexivity]. intros H.
  destruct x; try reflexivity. contradiction H. reflexivity.
Qed.

Lemma _transform_gender_rowwise (df : list Work.Row) :
  _transform_gender df =
  List.map (fun r => set_genero_es
              (fillna (series_map gender_translation (Work.gender r))
                      (Work.gender r)) r) df.
Proof.
  unfold _transform_gender.
  match goal with |- (if ?g then _ else _) = _ => destruct g eqn:Hg end.
  - rewrite map_map. apply map_ext. intros r. reflexivity.
  - apply map_ext_in. intros r Hr.
    pose proof (unique_empty_no_null _ _ _ Hg
                  (set_genero_es (series_map gender_translation (Work.gender r)) r)
                  (in_map _ _ _ Hr)) as Hn.
    simpl in Hn. rewrite (fillna_notnull _ _ Hn). reflexivity.
Qed.

Lemma _transform_gender_vectorized_rowwise (df : list Work.Row) :
  _transform_gender_vectorized df =
  List.map (fun r => set_genero_es
              (fillna (series_map gender_translation (Work.gender r))
                      (Work.gender r)) r) df.
Proof.
  unfold _transform_gender_vectorized.
  match goal with |- (if ?g then _ else _) = _ => destruct g eqn:Hg end.
  - rewrite map_map. apply map_ext. intros r. simpl.
    destruct (series_map gender_translation (Work.gender r)); reflexivity.
  - apply map_ext_in. intros r Hr.
    pose proof (existsb_false_forall _ _ Hg
                  (set_genero_es (series_map gender_translation (Work.gender r)) r)
                  (in_map _ _ _ Hr)) as Hn.
    simpl in Hn. rewrite (fillna_notnull _ _ Hn). reflexivity.
Qed.

Lemma _transform_illness_rowwise (df : list Work.Row) :
  _transform_illness df =
  List.map (fun r => set_enfermedad_es
              (fillna (series_map illness_translation (Work.illness r))
                      (Some "No"))
              (set_Illness (Work.illness r) r)) df.
Proof.
  unfold _transform_illness.
  match goal with |- (if ?g then _ else _) = _ => destruct g eqn:Hg end.
  - rewrite !map_map. apply map_ext. intros r. reflexivity.
  - rewrite map_map. apply map_ext_in. intros r Hr.
    rewrite map_map in Hg.
    pose proof (unique_empty_no_null _ _ _ Hg _ (in_map _ _ _ Hr)) as Hn.
    simpl in Hn. rewrite (fillna_notnull _ _ Hn). reflexivity.
Qed.

Lemma _transform_illness_vectorized_rowwise (df : list Work.Row) :
  _transform_illness_vectorized df =
  List.map (fun r => set_enfermedad_es
              (fillna (series_map illness_translation (Work.illness r))
                      (Some "No"))
              (set_Illness (Work.illness r) r)) df.
Proof.
  unfold _transform_illness_vectorized.
  match goal with |- (if ?g then _ else _) = _ => destruct g eqn:Hg end.
  - rewrite !map_map. apply map_ext. intros r. simpl.
    destruct (series_map illness_translation (Work.illness r)); reflexivity.
  - rewrite map_map. apply map_ext_in. intros r Hr.
    rewrite map_map in Hg.
    pose proof (existsb_false_forall _ _ Hg _ (in_map _ _ _ Hr)) as Hn.
    simpl in Hn. rewrite (fillna_notnull _ _ Hn). reflexivity.
Qed.

Lemma _transform_age_to_lustros_rowwise (df : list Work.Row) :
  _transform_age_to_lustros df = _transform_age_to_lustros_vectorized df.
Proof.
  unfold _transform_age_to_lustros, _transform_age_to_lustros_vectorized.
  rewrite map_map. apply map_ext. intros r. simpl.
  rewrite F64_get_cell. reflexivity.
Qed.

Lemma _transform_income_to_cop_rowwise (trm : Decimal) (df : list Work.Row) :
  _transform_income_to_cop trm df = _transform_income_to_cop_vectorized trm df.
Proof.
  unfold _transform_income_to_cop, _transform_income_to_cop_vectorized.
  destruct (float trm) as [trm_float|e]; [|reflexivity].
  unfold rbind. apply f_equal. rewrite !map_map. apply map_ext. intros r.
  simpl.
  rewrite F64_get_cell. reflexivity.
Qed.

Lemma _clean_data_optimized_eq (df : Raw.DataFrame) :
  _clean_data_optimized df = _clean_data df.
Proof.
  unfold _clean_data_optimized, _clean_data, dropna.
  destruct (str_accessor _); [|reflexivity]. simpl.
  destruct (str_accessor _); [|reflexivity]. simpl.
  f_equal. apply filter_ext. intros r.
  unfold critical_nulls, critical_null. simpl.
  rewrite orb_false_r, !orb_assoc. reflexivity.
Qed.

(** The column transformations and the metadata step, as one map; they
    raise when the rate has no float. *)
Lemma transformations_rowwise (trm : Decimal) (df : list Work.Row)
    (w : World) :
  (do df_transformed <-
     lift (_transform_income_to_cop trm
             (_transform_age_to_lustros
                (_transform_illness (_transform_gender df))));
   _add_transformation_metadata df_transformed) w
  = match float trm with
    | Ok trm_float =>
        (Ok (List.map (canonical_record trm_float
                         (strftime py MYSQL_DATETIME_FORMAT (now w))) df), w)
    | Raise e => (Raise e, w)
    end.
Proof.
  rewrite _transform_income_to_cop_rowwise, _transform_age_to_lustros_rowwise,
    _transform_illness_rowwise, _transform_gender_rowwise.
  unfold _transform_income_to_cop_vectorized, bind, lift, rbind.
  destruct (float trm) as [trm_float|e]; [|reflexivity].
  unfold _add_transformation_metadata, bind, get_processing_timestamp, ret,
    _transform_age_to_lustros_vectorized.
  rewrite !map_map. reflexivity.
Qed.

Lemma vectorized_transformations_rowwise (trm : Decimal) (df : list Work.Row)
    (w : World) :
  (do df_transformed <- lift (_apply_vectorized_transformations trm df);
   _add_transformation_metadata df_transformed) w
  = match float trm with
    | Ok trm_float =>
        (Ok (List.map (canonical_record trm_float
                         (strftime py MYSQL_DATETIME_FORMAT (now w))) df), w)
    | Raise e => (Raise e, w)
    end.
Proof.
  unfold _apply_vectorized_transformations.
  rewrite _transform_illness_vectorized_rowwise,
    _transform_gender_vectorized_rowwise.
  unfold _transform_income_to_cop_vectorized, bind, lift, rbind.
  destruct (float trm) as [trm_float|e]; [|reflexivity].
  unfold _add_transformation_metadata, bind, get_processing_timestamp, ret,
    _transform_age_to_lustros_vectorized.
  rewrite !map_map. reflexivity.
Qed.

Lemma transform_data_outcome {S} {RS : RateService S}
    (trm_service : option S) (df : Raw.DataFrame) (trm_value : option Decimal)
    (w : World) :
  transform_data trm_service df trm_value w
  = transform_outcome trm_service df trm_value w.
Proof.
  unfold transform_data, transform_outcome, bind at 1 2, lift at 1.
  destruct (_clean_data df) as [cleaned|e]; [|reflexivity].
  destruct (resolve_trm trm_service trm_value w) as [[rate|e] w'];
    [|reflexivity].
  rewrite transformations_rowwise. destruct (float rate); reflexivity.
Qed.

Lemma transform_data_optimized_eq {S} {RS : RateService S}
    (trm_service : option S) (df : Raw.DataFrame) (trm_value : option Decimal)
    (w : World) :
  transform_data_optimized trm_service df trm_value w
  = transform_data trm_service df trm_value w.
Proof.
  rewrite transform_data_outcome.
  unfold transform_data_optimized, transform_outcome, bind at 1 2, lift at 1.
  rewrite _clean_data_optimized_eq.
  destruct (_clean_data df) as [cleaned|e]; [|reflexivity].
  destruct (resolve_trm trm_service trm_value w) as [[rate|e] w'];
    [|reflexivity].
  rewrite vectorized_transformations_rowwise.
  destruct (float rate); reflexivity.
Qed.

Lemma filter_map_comm {A B} (f : A -> B) (p : B -> bool) (l : list A) :
  filter p (List.map f l) = List.map f (filter (fun a => p (f a)) l).
Proof.
  induction l as [|a l IH]; simpl; [reflexivity|].
  destruct (p (f a)); simpl; rewrite IH; reflexivity.
Qed.

Lemma Forall2_map_r {A B} (R : A -> B -> Prop) (f : A -> B) (l : list A) :
  (forall a, In a l -> R a (f a)) -> Forall2 R l (List.map f l).
Proof.
  induction l as [|a l IH]; simpl; intros H; constructor.
  - apply H. left. reflexivity.
  - apply IH. intros b Hb. apply H. right. assumption.
Qed.

Lemma _clean_data_survivors (df : Raw.DataFrame) (cleaned : list Work.Row) :
  _clean_data df = Ok cleaned ->
  Raw.d_gender (Raw.dtypes df) = object
  /\ Raw.d_illness (Raw.dtypes df) = object
  /\ cleaned = List.map (clean_row (Raw.dtypes df)) (survivors df).
Proof.
  unfold _clean_data, str_accessor, survivors, dropna.
  destruct (Raw.d_gender (Raw.dtypes df)); simpl; [|discriminate].
  destruct (Raw.d_illness (Raw.dtypes df)); simpl; [|discriminate].
  intros H. injection H as <-. rewrite filter_map_comm. auto.
Qed.

Lemma dropna_complete (df : list Work.Row) (c : Work.Row) :
  In c (dropna df) ->
  exists a i g l,
    Work.age c = Some a /\ Work.income c = Some i
    /\ Work.gender c = Some g /\ Work.illness c = Some l
    /\ cell_isnull (Work.name c) = false.
Proof.
  unfold dropna. intros H. apply filter_In in H. destruct H as [_ H].
  apply negb_true_iff in H. unfold critical_null in H.
  repeat (apply orb_false_iff in H; destruct H as [H ?]).
  destruct (Work.age c) as [a|]; [|discriminate].
  destruct (Work.income c) as [i|]; [|discriminate].
  destruct (Work.gender c) as [g|]; [|discriminate].
  destruct (Work.illness c) as [l|]; [|discriminate].
  exists a, i, g, l. auto.
Qed.

Lemma _clean_data_complete (df : Raw.DataFrame) (cleaned : list Work.Row)
    (c : Work.Row) :
  _clean_data df = Ok cleaned -> In c cleaned ->
  exists a i g l,
    Work.age c = Some a /\ Work.income c = Some i
    /\ Work.gender c = Some g /\ Work.illness c = Some l
    /\ cell_isnull (Work.name c) = false.
Proof.
  unfold _clean_data. intros H Hc.
  destruct (str_accessor _); [|discriminate]. simpl in H.
  destruct (str_accessor _); [|discriminate]. simpl in H.
  injection H as <-. eapply dropna_complete; eassumption.
Qed.

(** Either transformer, run to a frame. *)
Lemma transformed_frame {S} {RS : RateService S} (trm_service : option S)
    (df : Raw.DataFrame) (trm_value : option Decimal) (w w' : World)
    (out : list Canon.Row) :
  transform_data trm_service df trm_value w = (Ok out, w')
  \/ transform_data_optimized trm_service df trm_value w = (Ok out, w') ->
  exists cleaned rate trm_float,
    _clean_data df = Ok cleaned
    /\ resolve_trm trm_service trm_value w = (Ok rate, w')
    /\ float rate = Ok trm_float
    /\ out = List.map (canonical_record trm_float
                         (strftime py MYSQL_DATETIME_FORMAT (now w'))) cleaned.
Proof.
  rewrite transform_data_optimized_eq, transform_data_outcome.
  intros H.
  assert (H' : transform_outcome trm_service df trm_value w = (Ok out, w'))
    by (destruct H; assumption).
  clear H. unfold transform_outcome in H'.
  destruct (_clean_data df) as [cleaned|e]; [|discriminate].
  destruct (resolve_trm trm_service trm_value w) as [[rate|e] w1];
    [|discriminate].
  destruct (float rate) as [trm_float|e] eqn:Hf; [|discriminate].
  injection H' as <- <-. exists cleaned, rate, trm_float. auto.
Qed.


(** ** Localisation of gender and illness *)

Lemma get_outside_keys {V} (d : PyStr.dict V) (k : string) :
  ~ In k (PyStr.keys d) -> PyStr.get d k = None.
Proof.
  induction d as [|[k' v] d IH]; simpl; intros H; [reflexivity|].
  destruct (String.eqb_spec k' k) as [E|E]; [exfalso; auto|].
  apply IH. intros Hin. apply H. right. assumption.
Qed.

Lemma get_within_keys {V} (d : PyStr.dict V) (k : string) :
  PyStr.get d k <> None -> In k (PyStr.keys d).
Proof.
  induction d as [|[k' v] d IH]; simpl; intros H; [contradiction|].
  destruct (String.eqb_spec k' k) as [E|E]; [left; assumption|].
  right. apply IH. assumption.
Qed.

Lemma illness_unmapped (v : string) :
  ~ In v illness_vocabulary -> PyStr.get illness_translation v = None.
Proof.
  intros H. apply get_outside_keys. intros Hin. apply H.
  unfold illness_vocabulary. cbn in Hin |- *. tauto.
Qed.

Lemma gender_mapped_is_normal (v : string) :
  PyStr.get gender_translation v <> None ->
  In (PyStr.strip (PyStr.lower v)) gender_vocabulary.
Proof.
  intros H. apply get_within_keys in H. cbn in H.
  repeat (destruct H as [H|H]; [rewrite <- H; vm_compute; tauto|]).
  contradiction.
Qed.

Lemma gender_unmapped (v : string) :
  ~ In (PyStr.strip (PyStr.lower v)) gender_vocabulary ->
  PyStr.get gender_translation v = None.
Proof.
  intros H. destruct (PyStr.get gender_translation v) eqn:E; [|reflexivity].
  exfalso. apply H. apply gender_mapped_is_normal. rewrite E. discriminate.
Qed.

Lemma clean_row_illness (dt : Raw.Dtypes) (raw : Raw.Row) :
  Raw.d_illness dt = object ->
  Work.illness (clean_row dt raw) = Some (normalized (Raw.illness raw)).
Proof. intros H. unfold clean_row. simpl. rewrite H. reflexivity. Qed.

Lemma clean_row_gender (dt : Raw.Dtypes) (raw : Raw.Row) :
  Raw.d_gender dt = object ->
  Work.gender (clean_row dt raw) = Some (normalized (Raw.gender raw)).
Proof. intros H. unfold clean_row. simpl. rewrite H. reflexivity. Qed.

Lemma Forall2_map_both {A B C} (R : A -> C -> Prop) (f : A -> B)
    (g : B -> C) (l : list A) :
  (forall a, In a l -> R a (g (f a))) ->
  Forall2 R l (List.map g (List.map f l)).
Proof. intros H. rewrite map_map. apply Forall2_map_r. assumption. Qed.

(** C3. An illness value whose trimmed, lower-cased form is outside
    {yes, y, true, 1, no, n, false, 0} is localised to 'No': the record made
    from it never carries the affirmative 'Sí' nor the value it came from. *)
Theorem C3_illness_falls_back_to_no {S} {RS : RateService S}
    (trm_service : option S) (df : Raw.DataFrame) (trm_value : option Decimal)
    (w w' : World) (out : list Canon.Row) :
  transform_data trm_service df trm_value w = (Ok out, w')
  \/ transform_data_optimized trm_service df trm_value w = (Ok out, w') ->
  Forall2 (fun raw r =>
     ~ In (normalized (Raw.illness raw)) illness_vocabulary ->
     Canon.enfermedad_es r = Some "No"
     /\ Canon.enfermedad_es r <> Some "Sí"
     /\ Canon.enfermedad_es r <> Some (py_str (Raw.illness raw)))
    (survivors df) out.
Proof.
  intros H. apply transformed_frame in H.
  destruct H as (cleaned & rate & trm_float & Hclean & _ & _ & ->).
  apply _clean_data_survivors in Hclean.
  destruct Hclean as (_ & Hobj & ->).
  apply Forall2_map_both. intros raw _ Hout.
  unfold canonical_record; cbn [Canon.enfermedad_es].
  rewrite (clean_row_illness _ _ Hobj). cbn [series_map].
  rewrite (illness_unmapped _ Hout). cbn [fillna].
  repeat split; try discriminate.
  intros E. injection E as E. apply Hout.
  unfold normalized. rewrite <- E.
  rewrite (str_strip_ascii py "No" eq_refl).
  change (PyStr.strip "No") with "No"%string.
  rewrite (str_lower_ascii py "No" eq_refl).
  change (PyStr.lower "No") with "no"%string.
  rewrite (str_strip_ascii py "no" eq_refl). vm_compute. tauto.
Qed.

(** C4. A gender value that the vocabulary {male, female, m, f} does not
    map, however it is cased or padded, is handed through by the gender
    localisation as it is, where the illness localisation would put its
    negative default.  In the pipeline the value that reaches the
    localisation is the cleaned text, which is also what [genero_original]
    holds: for an unmapped value [genero_es] equals [genero_original]. *)
Theorem C4_gender_identity_fallback :
  (forall (df : list Work.Row) (r : Work.Row) (v : string),
     In r (_transform_gender df) \/ In r (_transform_gender_vectorized df) ->
     Work.gender r = Some v ->
     ~ In (PyStr.strip (PyStr.lower v)) gender_vocabulary ->
     Work.genero_es r = Some v)
  /\ (forall S (RS : RateService S) (trm_service : option S)
        (df : Raw.DataFrame) (trm_value : option Decimal) (w w' : World)
        (out : list Canon.Row),
        transform_data trm_service df trm_value w = (Ok out, w')
        \/ transform_data_optimized trm_service df trm_value w = (Ok out, w') ->
        Forall2 (fun raw r =>
           Canon.genero_original r = Some (normalized (Raw.gender raw))
           /\ (~ In (normalized (Raw.gender raw)) gender_vocabulary ->
               Canon.genero_es r = Canon.genero_original r))
          (survivors df) out).
Proof.
  split.
  - intros df r v Hr Hv Hout.
    rewrite _transform_gender_vectorized_rowwise,
      <- _transform_gender_rowwise in Hr.
    assert (Hin : In r (_transform_gender df)) by tauto. clear Hr.
    rewrite _transform_gender_rowwise in Hin.
    apply in_map_iff in Hin. destruct Hin as (r0 & <- & _).
    unfold set_genero_es in *. cbn [Work.gender Work.genero_es] in *.
    rewrite Hv. cbn [series_map].
    rewrite (gender_unmapped _ Hout). reflexivity.
  - intros S RS trm_service df trm_value w w' out H.
    apply transformed_frame in H.
    destruct H as (cleaned & rate & trm_float & Hclean & _ & _ & ->).
    apply _clean_data_survivors in Hclean.
    destruct Hclean as (Hobj & _ & ->).
    apply Forall2_map_both. intros raw _.
    unfold canonical_record; cbn [Canon.genero_es Canon.genero_original].
    rewrite (clean_row_gender _ _ Hobj). cbn [series_map].
    split; [reflexivity|].
    intros Hout. rewrite get_outside_keys; [reflexivity|].
    intros Hin. apply Hout. unfold gender_vocabulary. cbn in Hin |- *. tauto.
Qed.

(** C9. A rate that is passed but is numerically zero is not used: the
    truthiness test of [trm_value or Decimal('4200.00')] replaces it, so every
    record is converted with and stamped with 4200.00; the same happens when
    neither a rate nor a rate service is given.  In both cases nothing is
    fetched: the world is left as it was.  The conversion is the one of the
    code, the product of doubles rounded by numpy's [round]. *)
Theorem C9_zero_rate_is_replaced {S} {RS : RateService S}
    (trm_service : option S) (df : Raw.DataFrame) (trm_value : option Decimal)
    (w w' : World) (out : list Canon.Row) :
  (exists zero : Q, trm_value = Some (Dec zero) /\ zero == 0)
  \/ (trm_value = None /\ trm_service = None) ->
  transform_data trm_service df trm_value w = (Ok out, w')
  \/ transform_data_optimized trm_service df trm_value w = (Ok out, w') ->
  w' = w
  /\ resolve_trm trm_service trm_value w = (Ok (Dec fallback_trm), w)
  /\ Forall (fun r =>
       Canon.trm_utilizada r = Some (F64.of_Z 4200)
       /\ forall income,
            Canon.ingreso_usd r = Some income ->
            Canon.ingreso_cop r
            = F64.cell (F64.round2 (F64.mul (F64.of_Q income)
                                            (F64.of_Z 4200))))
     out.
Proof.
  intros Hrate H. apply transformed_frame in H.
  destruct H as (cleaned & rate & trm_float & _ & Hres & Hf & ->).
  assert (Hr : rate = Dec fallback_trm /\ w' = w).
  { destruct Hrate as [(zero & -> & Hz)|[-> ->]].
    - destruct trm_service; unfold resolve_trm, ret, py_or, truthy in Hres;
        apply Qeq_bool_iff in Hz; rewrite Hz in Hres; simpl in Hres;
        injection Hres as <- <-; auto.
    - unfold resolve_trm, ret, py_or in Hres. injection Hres as <- <-. auto. }
  destruct Hr as [-> ->]. split; [reflexivity|]. split; [assumption|].
  assert (Ef : trm_float = F64.of_Z 4200)
    by (vm_compute in Hf; injection Hf as <-; reflexivity).
  subst trm_float.
  apply Forall_forall. intros r Hr. apply in_map_iff in Hr.
  destruct Hr as (c & <- & _). unfold canonical_record.
  cbn [Canon.trm_utilizada Canon.ingreso_usd Canon.ingreso_cop].
  split; [reflexivity|]. intros income ->. reflexivity.
Qed.

(** ** The rate cache *)

Lemma get_cached_trm_total (self : TRMCache) (w : World) :
  exists cached, get_cached_trm self w = (Ok cached, w).
Proof.
  unfold get_cached_trm, try_except, get_cached_trm_try, ret.
  destruct (cache_file w); eauto.
  match goal with |- context [match ?r with Ok _ => _ | Raise _ => _ end] =>
    destruct r eqn:E end; eauto.
  all: match goal with
       | |- exists c, (let (_, _) := (?r, _) in _) = _ => destruct r; eauto
       | |- exists c, match ?r with _ => _ end = _ => destruct r; eauto
       end.
Qed.

Lemma get_cached_trm_entry (self : TRMCache) (w : World) (content : json)
    (captured_at : Z) (rate : Decimal) :
  cache_file w = Stored content ->
  cache_entry content captured_at rate ->
  get_cached_trm self w
  = (Ok (if (now w - captured_at <? cache_duration self)%Z
         then Some rate else None), w).
Proof.
  intros Hfile (m & ts & v & -> & Hts & Hiso & Hv & Hdec).
  unfold get_cached_trm, try_except, get_cached_trm_try, ret.
  rewrite Hfile. unfold subscript. rewrite Hts. simpl. rewrite Hiso. simpl.
  destruct (now w - captured_at <? cache_duration self)%Z; [|reflexivity].
  rewrite Hv. simpl. unfold Decimal_str. rewrite Hdec. reflexivity.
Qed.

Lemma save_trm_to_cache_total (self : TRMCache) (rate : Decimal)
    (w : World) :
  save_trm_to_cache self rate w
  = (Ok tt,
     match json_float rate with
     | Ok number =>
         if cache_writable w
         then set_cache_file
                (Stored (JObj [("timestamp", JStr (isoformat py (now w)));
                               ("trm_value", number)])) w
         else w
     | Raise _ => w
     end).
Proof.
  unfold save_trm_to_cache, try_except, save_trm_to_cache_try, ret.
  destruct (json_float rate); [|reflexivity].
  destruct (cache_writable w); reflexivity.
Qed.


(** ** The rate services *)

Lemma trm_handlers_fallback (fallback : Q) (e : exn) (w : World) :
  trm_handlers fallback e w = (Ok (Dec fallback), w).
Proof. destruct e; reflexivity. Qed.

Ltac run_fetch :=
  unfold try_except, bind, lift, ret, requests_get_json, json_len, json_first,
    valor_decimal, Decimal_str;
  cbn [json_truthy rate_of_outcome].

Ltac handled :=
  cbn; rewrite ?trm_handlers_fallback; unfold _obtener_trm_respaldo, ret; cbn.

Lemma TRMService_obtener_trm_actual_eq (self : TRMService) (w : World) :
  TRMService_obtener_trm_actual self w
  = (Ok (rate_of_outcome (fallback_trm_of self) (api w)),
     request_made w).
Proof.
  unfold TRMService_obtener_trm_actual, TRMService_fetch. run_fetch.
  destruct (api w) as [| |code|[data|]]; try (handled; reflexivity).
  destruct data as [|b|q|f|s|l|m]; handled.
  - reflexivity.
  - destruct b; handled; reflexivity.
  - destruct (Qeq_bool q 0); handled; reflexivity.
  - reflexivity.
  - destruct s; handled; reflexivity.
  - destruct l as [|x l]; handled; [reflexivity|].
    destruct x; handled; try reflexivity.
    destruct (PyStr.get m "valor"); handled; [|reflexivity].
    destruct (Decimal_of_json py j); handled; reflexivity.
  - destruct m; handled; reflexivity.
Qed.

Lemma TRMServiceOptimized_api_path (self : TRMServiceOptimized) (w : World) :
  exists w',
    try_except (TRMServiceOptimized_fetch self)
               (trm_handlers (opt_fallback_trm self)) w
    = (Ok (rate_of_outcome (opt_fallback_trm self) (api w)), w').
Proof.
  unfold TRMServiceOptimized_fetch. run_fetch.
  destruct (api w) as [| |code|[data|]]; try (handled; eauto; fail).
  destruct data as [|b|q|f|s|l|m]; handled.
  - eauto.
  - destruct b; handled; eauto.
  - destruct (Qeq_bool q 0); handled; eauto.
  - eauto.
  - destruct s; handled; eauto.
  - destruct l as [|x l]; handled; [eauto|].
    destruct x; handled; eauto.
    destruct (PyStr.get m "valor"); handled.
    + destruct (Decimal_of_json py j); handled; eauto.
      destruct (use_cache self), (cache self); handled;
        rewrite ?save_trm_to_cache_total; eauto.
    + destruct (use_cache self), (cache self); handled;
        rewrite ?save_trm_to_cache_total; eauto.
  - destruct m; handled; eauto.
Qed.

Lemma TRMServiceOptimized_total (self : TRMServiceOptimized) (w : World) :
  exists rate w',
    TRMServiceOptimized_obtener_trm_actual self w = (Ok rate, w').
Proof.
  unfold TRMServiceOptimized_obtener_trm_actual.
  destruct (TRMServiceOptimized_api_path self w) as [w' Hapi].
  destruct (use_cache self), (cache self) as [c|]; eauto.
  unfold bind. destruct (get_cached_trm_total c w) as [[v|] ->]; eauto.
  unfold ret. eauto.
Qed.

Lemma rate_of_failure (fallback : Q) (o : http_outcome) :
  rate_fetch_failure o -> rate_of_outcome fallback o = Dec fallback.
Proof.
  intros H. destruct H as [| | code | | data Hd | data Hd]; cbn; try reflexivity.
  - rewrite Hd. reflexivity.
  - destruct (json_truthy data); [|reflexivity].
    destruct data as [|b|q|f|s|l|m]; try reflexivity.
    destruct l as [|x l]; [reflexivity|]. destruct x; try reflexivity.
    cbn in Hd. destruct (PyStr.get m "valor"); [|reflexivity].
    rewrite Hd. reflexivity.
Qed.

Lemma rate_of_expected (fallback : Q) (data : json) (d : Decimal) :
  expected_rate data = Some d ->
  rate_of_outcome fallback (Body (Some data)) = d.
Proof.
  destruct data as [|b|q|f|s|l|m]; try discriminate.
  destruct l as [|x l]; [discriminate|]. destruct x; try discriminate.
  cbn. destruct (PyStr.get m "valor"); [|discriminate].
  intros ->. reflexivity.
Qed.

(** C7, as the code has it.  Whatever the request does,
    [obtener_trm_actual] returns a rate and raises nothing; and when the
    fetch fails (network error, timeout, error status, a body that is not
    JSON, an empty response, or a response whose first element does not carry
    a [valor] that [Decimal] reads) the rate it returns is exactly the
    fallback 4200.00.  For the caching service this is the case whenever the
    fetch is made, that is, when the cache is off or has no fresh entry.  A
    [valor] that [Decimal] reads is returned as it is read, also when it is
    no number (NaN, sNaN, Infinity): such a response is no failure for the
    code. *)
Theorem C7_rate_fetch_failure_gives_fallback (w : World) :
  (exists rate w', obtener_trm_actual TRMService_init w = (Ok rate, w'))
  /\ (forall use_cache, exists rate w',
        obtener_trm_actual (TRMServiceOptimized_init use_cache) w
        = (Ok rate, w'))
  /\ (rate_fetch_failure (api w) ->
      (exists w',
         obtener_trm_actual TRMService_init w = (Ok (Dec 4200), w'))
      /\ (forall use_cache,
            (use_cache = true ->
             get_cached_trm get_trm_cache w = (Ok None, w)) ->
            exists w',
              obtener_trm_actual (TRMServiceOptimized_init use_cache) w
              = (Ok (Dec 4200), w')))
  /\ (forall data d,
        api w = Body (Some data) -> expected_rate data = Some d ->
        (exists w', obtener_trm_actual TRMService_init w = (Ok d, w'))
        /\ (forall use_cache,
              (use_cache = true ->
               get_cached_trm get_trm_cache w = (Ok None, w)) ->
              exists w',
                obtener_trm_actual (TRMServiceOptimized_init use_cache) w
                = (Ok d, w'))).
Proof.
  assert (Hopt : forall use_cache,
            (use_cache = true ->
             get_cached_trm get_trm_cache w = (Ok None, w)) ->
            exists w',
              obtener_trm_actual (TRMServiceOptimized_init use_cache) w
              = (Ok (rate_of_outcome fallback_trm (api w)), w')).
  { intros use_cache Hmiss.
    cbn [obtener_trm_actual TRMServiceOptimized_RateService].
    unfold TRMServiceOptimized_obtener_trm_actual.
    destruct (TRMServiceOptimized_api_path
                (TRMServiceOptimized_init use_cache) w) as [w' Hapi].
    destruct use_cache; cbn in *; [|eauto].
    unfold bind. rewrite (Hmiss eq_refl). eauto. }
  split.
  { cbn [obtener_trm_actual TRMService_RateService].
    rewrite TRMService_obtener_trm_actual_eq. eauto. }
  split.
  { intros use_cache. apply TRMServiceOptimized_total. }
  split.
  { intros Hfail. split.
    - cbn [obtener_trm_actual TRMService_RateService].
      rewrite TRMService_obtener_trm_actual_eq, (rate_of_failure _ _ Hfail).
      eauto.
    - intros use_cache Hmiss. destruct (Hopt use_cache Hmiss) as [w' H].
      rewrite (rate_of_failure _ _ Hfail) in H. eauto. }
  intros data d Hapi Hd. split.
  - cbn [obtener_trm_actual TRMService_RateService].
    rewrite TRMService_obtener_trm_actual_eq, Hapi.
    cbn [fallback_trm_of TRMService_init].
    rewrite (rate_of_expected _ _ _ Hd). eauto.
  - intros use_cache Hmiss. destruct (Hopt use_cache Hmiss) as [w' H].
    rewrite Hapi, (rate_of_expected _ _ _ Hd) in H. eauto.
Qed.

(** ** An input that cleaning empties *)

Lemma resolve_trm_plain_total (trm_value : option Decimal) (w : World) :
  exists rate w',
    resolve_trm (Some TRMService_init) trm_value w = (Ok rate, w').
Proof.
  destruct trm_value; cbn; unfold ret; eauto.
  rewrite TRMService_obtener_trm_actual_eq. eauto.
Qed.

Lemma resolve_trm_optimized_total (use_cache : bool) (trm_value : option Decimal)
    (w : World) :
  exists rate w',
    resolve_trm (Some (TRMServiceOptimized_init use_cache)) trm_value w
    = (Ok rate, w').
Proof.
  destruct trm_value; cbn -[TRMServiceOptimized_init]; unfold ret; eauto.
  apply TRMServiceOptimized_total.
Qed.

(** [float] raises for the signalling NaN only. *)
Lemma float_total (d : Decimal) :
  d <> DecSNaN -> exists trm_float, float d = Ok trm_float.
Proof. destruct d; cbn; eauto. intros H. contradiction H. reflexivity. Qed.

Lemma float_raises (d : Decimal) (e : exn) :
  float d = Raise e ->
  d = DecSNaN /\ e = ValueError "cannot convert signaling NaN to float".
Proof. destruct d; cbn; try discriminate. intros H. injection H as <-. auto. Qed.

Lemma transform_data_empty {S} {RS : RateService S} (svc : S)
    (df : Raw.DataFrame) (trm_value : option Decimal) (w : World) :
  _clean_data df = Ok [] ->
  (exists rate w', resolve_trm (Some svc) trm_value w = (Ok rate, w')) ->
  exists rate w',
    resolve_trm (Some svc) trm_value w = (Ok rate, w')
    /\ (rate <> DecSNaN ->
        transform_data (Some svc) df trm_value w = (Ok [], w'))
    /\ (rate = DecSNaN ->
        transform_data (Some svc) df trm_value w
        = (Raise (ValueError "cannot convert signaling NaN to float"), w')).
Proof.
  intros Hclean (rate & w' & Hres). exists rate, w'.
  split; [assumption|].
  rewrite transform_data_outcome. unfold transform_outcome.
  rewrite Hclean, Hres. split.
  - intros Hr. destruct (float_total rate Hr) as [f ->]. reflexivity.
  - intros ->. reflexivity.
Qed.

(** C2, as the code has it.  When cleaning leaves no row, the transformation
    does not raise for want of rows: it returns the empty frame, in the plain
    and in the vectorised transformer, unless the rate it resolved is a
    signalling NaN, which [float] refuses whatever the frame holds.  It is
    the pipeline of the API server that turns the empty frame into a failed
    run: it reports a failure in every case, and the failure is 'Error en la
    transformación de datos' when the extractor's validation has let the
    frame through and the rate has a float; a file without any row is
    refused earlier, by the extractor, and the run is reported as failed as
    well. *)
Theorem C2_empty_frame_is_returned (df : Raw.DataFrame) (w : World) :
  (Raw.rows df = [] ->
   forall db_connection insert_to_database, exists w',
     process_etl_pipeline TRMService_init db_connection (Ok df)
                          insert_to_database w
     = (Ok (ReportFailure "No se extrajeron datos o el DataFrame está vacío"),
        w'))
  /\ (_clean_data df = Ok [] ->
      (forall trm_value, exists rate w',
         resolve_trm (Some TRMService_init) trm_value w = (Ok rate, w')
         /\ (rate <> DecSNaN ->
             transform_data (Some TRMService_init) df trm_value w
             = (Ok [], w')))
      /\ (forall use_cache trm_value, exists rate w',
            resolve_trm (Some (TRMServiceOptimized_init use_cache))
                        trm_value w = (Ok rate, w')
            /\ (rate <> DecSNaN ->
                transform_data_optimized
                  (Some (TRMServiceOptimized_init use_cache)) df trm_value w
                = (Ok [], w')))
      /\ (Raw.rows df <> [] ->
          forall db_connection insert_to_database, exists error w',
            process_etl_pipeline TRMService_init db_connection (Ok df)
                                 insert_to_database w
            = (Ok (ReportFailure error), w')
            /\ (_validate_otaku_data df = Ok tt ->
                rate_of_outcome fallback_trm (api w) <> DecSNaN ->
                error = "Error en la transformación de datos"))).
Proof.
  split.
  - intros Hrows db_connection insert_to_database.
    unfold process_etl_pipeline, try_except, process_etl_pipeline_try, bind,
      extract_otaku_data, lift, rollback, ret, raise.
    destruct db_connection; cbn; rewrite Hrows; cbn; eauto.
  - intros Hclean. split; [|split].
    + intros trm_value.
      destruct (transform_data_empty TRMService_init df trm_value w Hclean
                  (resolve_trm_plain_total trm_value w))
        as (rate & w' & Hres & H & _).
      eauto.
    + intros use_cache trm_value.
      destruct (transform_data_empty (TRMServiceOptimized_init use_cache) df
                  trm_value w Hclean
                  (resolve_trm_optimized_total use_cache trm_value w))
        as (rate & w' & Hres & H & _).
      exists rate, w'. split; [assumption|].
      rewrite transform_data_optimized_eq. exact H.
    + intros Hrows db_connection insert_to_database.
      unfold process_etl_pipeline, try_except, process_etl_pipeline_try,
        extract_otaku_data, transform_otaku_data.
      set (w1 := snd (match db_connection with
                      | Some _ => rollback
                      | None => ret tt
                      end w)).
      assert (Hw1 : match db_connection with
                    | Some _ => rollback
                    | None => ret tt
                    end w = (Ok tt, w1) /\ api w1 = api w).
      { subst w1. destruct db_connection; cbn; auto. }
      destruct Hw1 as [Hreset Hapi].
      destruct (transform_data_empty TRMService_init df None w1 Hclean
                  (resolve_trm_plain_total None w1))
        as (rate & w' & Hres & Hok & Hsnan).
      assert (Hrate : rate = rate_of_outcome fallback_trm (api w)).
      { cbn in Hres. rewrite TRMService_obtener_trm_actual_eq in Hres.
        injection Hres as <- _. rewrite Hapi. reflexivity. }
      unfold bind at 1. rewrite Hreset.
      unfold bind at 1, lift at 1.
      destruct (Raw.rows df) eqn:E; [contradiction|].
      unfold bind at 1, lift at 1.
      destruct (_validate_otaku_data df) as [[]|e] eqn:Ev.
      * unfold ret at 1. unfold bind at 1. rewrite E. unfold ret at 1.
        unfold bind at 1.
        assert (Hdec : rate = DecSNaN \/ rate <> DecSNaN)
          by (destruct rate; auto; right; discriminate).
        destruct Hdec as [Hs|Hs].
        -- rewrite E. unfold ret at 1. unfold bind at 1.
           rewrite (Hsnan Hs). unfold ret.
           eexists _, _. split; [reflexivity|].
           intros _ Hne. contradiction Hne. congruence.
        -- rewrite E. unfold ret at 1. unfold bind at 1.
           rewrite (Hok Hs). unfold bind at 1, raise, ret.
           eexists _, _. split; [reflexivity|]. intros; reflexivity.
      * rewrite E. unfold bind at 1. unfold ret.
        eexists _, _. split; [reflexivity|]. discriminate.
Qed.

(** ** Reasoning about computations *)

Lemma preserves_ret {A} (R : World -> World -> Prop) (a : A) :
  (forall w, R w w) -> preserves R (ret a).
Proof. intros Hrefl w r w' H. injection H as _ <-. apply Hrefl. Qed.

Lemma preserves_raise {A} (R : World -> World -> Prop) (e : exn) :
  (forall w, R w w) -> preserves R (@raise A e).
Proof. intros Hrefl w r w' H. injection H as _ <-. apply Hrefl. Qed.

Lemma preserves_bind {A B} (R : World -> World -> Prop) (m : M A)
    (k : A -> M B) :
  (forall w1 w2 w3, R w1 w2 -> R w2 w3 -> R w1 w3) ->
  preserves R m -> (forall a, preserves R (k a)) -> preserves R (bind m k).
Proof.
  intros Htrans Hm Hk w r w' H. unfold bind in H.
  destruct (m w) as [[a|e] w1] eqn:E.
  - eapply Htrans; [eapply Hm; eassumption|eapply Hk; eassumption].
  - injection H as _ <-. eapply Hm; eassumption.
Qed.

Lemma preserves_try_except {A} (R : World -> World -> Prop) (m : M A)
    (h : exn -> M A) :
  (forall w1 w2 w3, R w1 w2 -> R w2 w3 -> R w1 w3) ->
  preserves R m -> (forall e, preserves R (h e)) ->
  preserves R (try_except m h).
Proof.
  intros Htrans Hm Hh w r w' H. unfold try_except in H.
  destruct (m w) as [[a|e] w1] eqn:E.
  - injection H as _ <-. eapply Hm; eassumption.
  - eapply Htrans; [eapply Hm; eassumption|eapply Hh; eassumption].
Qed.

Lemma same_outside_db_refl (w : World) : same_outside_db w w.
Proof. unfold same_outside_db. tauto. Qed.

Lemma same_outside_db_trans (w1 w2 w3 : World) :
  same_outside_db w1 w2 -> same_outside_db w2 w3 -> same_outside_db w1 w3.
Proof. unfold same_outside_db. intuition congruence. Qed.

Lemma same_outside_db_set_db (d : Database) (w : World) :
  same_outside_db w (set_db d w).
Proof. unfold same_outside_db. cbn. tauto. Qed.

Lemma same_rows_refl (w : World) : same_rows w w.
Proof. unfold same_rows. auto using same_outside_db_refl. Qed.

Lemma same_rows_trans (w1 w2 w3 : World) :
  same_rows w1 w2 -> same_rows w2 w3 -> same_rows w1 w3.
Proof.
  unfold same_rows. intros (? & ? & ?) (? & ? & ?).
  split; [congruence|split; [congruence|]].
  eapply same_outside_db_trans; eassumption.
Qed.

Lemma same_committed_refl (w : World) : same_committed w w.
Proof. unfold same_committed. auto using same_outside_db_refl. Qed.

Lemma same_committed_trans (w1 w2 w3 : World) :
  same_committed w1 w2 -> same_committed w2 w3 -> same_committed w1 w3.
Proof.
  unfold same_committed. intros (? & ?) (? & ?).
  split; [congruence|]. eapply same_outside_db_trans; eassumption.
Qed.

Lemma same_rows_committed (w w' : World) :
  same_rows w w' -> same_committed w w'.
Proof. unfold same_rows, same_committed. tauto. Qed.

Lemma same_db_refl (w : World) : same_db w w.
Proof. unfold same_db. tauto. Qed.

Lemma same_db_trans (w1 w2 w3 : World) :
  same_db w1 w2 -> same_db w2 w3 -> same_db w1 w3.
Proof. unfold same_db. intuition congruence. Qed.

(** ** The duplicate check and the bulk insert *)

Lemma db_statement_rows : preserves same_rows db_statement.
Proof.
  intros w r w' H. unfold db_statement in H.
  destruct (faults (db w)) as [|[|] rest]; injection H as _ <-;
    unfold same_rows; cbn; auto using same_outside_db_refl,
      same_outside_db_set_db.
Qed.

Lemma db_statement_healthy (w : World) :
  faults (db w) = [] -> db_statement w = (Ok tt, w).
Proof. intros H. unfold db_statement. rewrite H. reflexivity. Qed.

Lemma count_positive {A} (p : A -> bool) (l : list A) :
  (0 <? List.length (filter p l))%nat = existsb p l.
Proof.
  induction l as [|a l IH]; [reflexivity|]. simpl.
  destruct (p a); simpl; [reflexivity|assumption].
Qed.

(** The check answers [True] only for a record that is in the table. *)
Lemma verificar_duplicado_spec (record : Persona.Row) (w : World) :
  exists w',
    same_rows w w'
    /\ faults (db w') = tl (faults (db w))
    /\ verificar_duplicado (Persona.nombre record) (Persona.edad_anos record)
         (Persona.genero_original record) (Persona.ingreso_usd record) w
       = (Ok (match faults (db w) with
              | true :: _ => false
              | _ => in_table record (visible_rows (db w))
              end), w').
Proof.
  unfold verificar_duplicado, try_except, verificar_duplicado_try, bind,
    db_statement, ret, in_table, is_duplicate_of.
  destruct (faults (db w)) as [|[|] rest] eqn:E; cbv beta iota;
    rewrite ?count_positive; eexists; (split; [|split; [|reflexivity]]);
    unfold same_rows; cbn; rewrite ?E;
    auto using same_outside_db_refl, same_outside_db_set_db.
Qed.

Lemma same_rows_visible (w w' : World) :
  same_rows w w' -> visible_rows (db w') = visible_rows (db w).
Proof. unfold same_rows, visible_rows. intros (-> & -> & _). reflexivity. Qed.

(** The inner loop never raises and never touches the table; a record it
    holds back is in the table. *)
Lemma prepare_batch_spec (batch : list Persona.Row) (w : World) :
  exists batch_data duplicados w',
    prepare_batch batch w = (Ok (batch_data, duplicados), w')
    /\ same_rows w w'
    /\ (faults (db w) = [] -> faults (db w') = [])
    /\ incl batch_data batch
    /\ (forall record, In record batch ->
          In record batch_data
          \/ in_table record (visible_rows (db w)) = true)
    /\ (forall record, In record batch_data -> faults (db w) = [] ->
          in_table record (visible_rows (db w)) = false).
Proof.
  revert w. induction batch as [|record rest IH]; intros w.
  - exists [], 0%nat, w. cbn. unfold ret.
    split; [reflexivity|]. split; [apply same_rows_refl|].
    split; [auto|]. split; [apply incl_refl|].
    split; intros r Hr; contradiction.
  - destruct (verificar_duplicado_spec record w) as (w1 & Hrows1 & Hf1 & Hv).
    destruct (IH w1) as (data & d & w2 & Hrest & Hrows2 & Hf2 & Hincl & Hskip
                         & Hnew).
    pose proof (same_rows_visible _ _ Hrows1) as Hvis.
    cbn [prepare_batch]. unfold bind at 1. rewrite Hv.
    unfold bind at 1. rewrite Hrest.
    assert (Hh : faults (db w) = [] -> faults (db w2) = []).
    { intros E. apply Hf2. rewrite Hf1, E. reflexivity. }
    assert (Hh1 : faults (db w) = [] -> faults (db w1) = []).
    { intros E. rewrite Hf1, E. reflexivity. }
    destruct (match faults (db w) with
              | true :: _ => false
              | _ => in_table record (visible_rows (db w))
              end) eqn:Hb; unfold ret.
    + assert (Hdup : in_table record (visible_rows (db w)) = true).
      { destruct (faults (db w)) as [|[|] fs]; [assumption|discriminate|
          assumption]. }
      exists data, (S d), w2.
      split; [reflexivity|].
      split; [eapply same_rows_trans; eassumption|].
      split; [assumption|].
      split; [apply incl_tl; assumption|].
      split.
      * intros r [<-|Hr]; [right; assumption|].
        rewrite <- Hvis. apply Hskip. assumption.
      * intros r Hr E. rewrite <- Hvis. apply Hnew; auto.
    + exists (record :: data), d, w2.
      split; [reflexivity|].
      split; [eapply same_rows_trans; eassumption|].
      split; [assumption|].
      split; [apply incl_cons; [left; reflexivity|apply incl_tl; assumption]|].
      split.
      * intros r [<-|Hr]; [left; left; reflexivity|].
        destruct (Hskip r Hr) as [H|H]; [left; right; assumption|].
        right. rewrite <- Hvis. assumption.
      * intros r [<-|Hr] E.
        -- rewrite E in Hb. assumption.
        -- rewrite <- Hvis. apply Hnew; auto.
Qed.

Lemma verificar_duplicado_failing (record : Persona.Row) (w : World)
    (fs : list bool) :
  faults (db w) = true :: fs ->
  verificar_duplicado (Persona.nombre record) (Persona.edad_anos record)
    (Persona.genero_original record) (Persona.ingreso_usd record) w
  = (Ok false, set_db (mkDB (committed (db w)) (pending (db w)) fs) w).
Proof.
  intros H.
  unfold verificar_duplicado, try_except, verificar_duplicado_try, bind,
    db_statement, ret.
  rewrite H. reflexivity.
Qed.

(** C10. When the query of the duplicate check fails, [verificar_duplicado]
    answers [False] and raises nothing; the bulk insert then takes the record
    into its batch and, the insert and the commit going through, the record
    is in the table, even if the table held it already.  In general the loop
    holds a record back only if the table has a row with the same name, age,
    gender and income: a failing check admits, it never skips. *)
Theorem C10_failing_check_admits (record : Persona.Row) (w : World)
    (fs : list bool) :
  faults (db w) = true :: fs ->
  (exists w',
     verificar_duplicado (Persona.nombre record) (Persona.edad_anos record)
       (Persona.genero_original record) (Persona.ingreso_usd record) w
     = (Ok false, w')
     /\ same_rows w w')
  /\ (forall rest, exists batch_data duplicados w',
        prepare_batch (record :: rest) w
        = (Ok (record :: batch_data, duplicados), w'))
  /\ (forall batch w0, exists batch_data duplicados w',
        prepare_batch batch w0 = (Ok (batch_data, duplicados), w')
        /\ forall r, In r batch -> ~ In r batch_data ->
                     in_table r (visible_rows (db w0)) = true)
  /\ (forall self w0 fs',
        faults (db w0) = false :: true :: false :: false :: fs' ->
        exists w',
          insertar_personas_transformadas_bulk self [record] 1000 w0
          = (Ok 1%nat, w')
          /\ committed (db w')
             = (committed (db w0) ++ pending (db w0) ++ [record])%list).
Proof.
  intros Hfail. split; [|split; [|split]].
  - rewrite (verificar_duplicado_failing record w fs Hfail).
    eexists. split; [reflexivity|].
    unfold same_rows. cbn. auto using same_outside_db_set_db.
  - intros rest. cbn [prepare_batch]. unfold bind at 1.
    rewrite (verificar_duplicado_failing record w fs Hfail).
    destruct (prepare_batch_spec rest
                (set_db (mkDB (committed (db w)) (pending (db w)) fs) w))
      as (data & d & w2 & Hrest & _).
    unfold bind. rewrite Hrest. unfold ret. eauto.
  - intros batch w0.
    destruct (prepare_batch_spec batch w0)
      as (data & d & w' & Hrun & _ & _ & _ & Hskip & _).
    exists data, d, w'. split; [assumption|].
    intros r Hr Hnot. destruct (Hskip r Hr); [contradiction|assumption].
  - intros self w0 fs' Hf.
    unfold insertar_personas_transformadas_bulk, try_except,
      insertar_personas_transformadas_bulk_try, bind, db_statement, ret.
    rewrite Hf. cbn -[Nat.div].
    unfold bind, verificar_duplicado, try_except, verificar_duplicado_try,
      bind, db_statement. cbn -[Nat.div].
    unfold bind, executemany, commit, db_statement, bind, ret. cbn.
    eexists. split; [reflexivity|]. cbn. reflexivity.
Qed.

(** ** Batches *)

Lemma firstn_add {A} (a b : nat) (l : list A) :
  firstn (a + b) l = (firstn a l ++ firstn b (skipn a l))%list.
Proof.
  revert l. induction a as [|a IH]; intros l; [reflexivity|].
  destruct l as [|x l]; cbn [Nat.add firstn skipn].
  - rewrite firstn_nil. reflexivity.
  - rewrite IH. reflexivity.
Qed.

Lemma batches_prefix {A} (l : list A) (step k : nat) :
  concat (List.map (fun i => slice l i (i + step))
            (List.map (fun j => j * step)%nat (seq 0 k)))
  = firstn (k * step) l.
Proof.
  induction k as [|k IH]; [reflexivity|].
  rewrite seq_S, !map_app, concat_app, IH. cbn [List.map concat Nat.add].
  rewrite app_nil_r. unfold slice.
  replace (k * step + step - k * step)%nat with step by lia.
  replace (S k * step)%nat with (k * step + step)%nat by lia.
  symmetry. apply firstn_add.
Qed.

(** The batches of the bulk insert are the records, in order. *)
Lemma batches_cover {A} (l : list A) (step : nat) :
  (0 < step)%nat ->
  concat (List.map (fun i => slice l i (i + step))
            (range_step (List.length l) step)) = l.
Proof.
  intros Hstep. unfold range_step. rewrite batches_prefix.
  apply firstn_all2.
  pose proof (Nat.div_mod_eq (List.length l + step - 1) step) as Hdm.
  pose proof (Nat.mod_upper_bound (List.length l + step - 1) step) as Hmod.
  nia.
Qed.

(** ** A healthy connection *)

Lemma is_duplicate_of_refl (r : Persona.Row) : is_duplicate_of r r = true.
Proof.
  unfold is_duplicate_of, same_person.
  rewrite !String.eqb_refl, Z.eqb_refl. cbn.
  apply Qeq_bool_iff. reflexivity.
Qed.

Lemma in_table_app (r : Persona.Row) (t added : list Persona.Row) :
  in_table r t = true -> in_table r (t ++ added) = true.
Proof. unfold in_table. rewrite existsb_app. intros ->. reflexivity. Qed.

Lemma in_table_added (r : Persona.Row) (t added : list Persona.Row) :
  In r added -> in_table r (t ++ added) = true.
Proof.
  intros H. unfold in_table. apply existsb_exists. exists r.
  split; [apply in_or_app; right; assumption|apply is_duplicate_of_refl].
Qed.

Lemma in_table_key (r : Persona.Row) (t : list Persona.Row) :
  in_table r t = key_in_table (key_of r) t.
Proof. reflexivity. Qed.

Lemma verificar_duplicado_healthy (record : Persona.Row) (w : World) :
  faults (db w) = [] ->
  verificar_duplicado (Persona.nombre record) (Persona.edad_anos record)
    (Persona.genero_original record) (Persona.ingreso_usd record) w
  = (Ok (in_table record (visible_rows (db w))), w).
Proof.
  intros H.
  unfold verificar_duplicado, try_except, verificar_duplicado_try, bind.
  rewrite (db_statement_healthy w H). cbv beta iota.
  rewrite count_positive. reflexivity.
Qed.

Lemma prepare_batch_healthy (batch : list Persona.Row) (w : World) :
  faults (db w) = [] ->
  exists duplicados,
    prepare_batch batch w
    = (Ok (filter (fun r => negb (in_table r (visible_rows (db w)))) batch,
           duplicados), w).
Proof.
  intros H. induction batch as [|record rest [d IH]].
  - exists 0%nat. reflexivity.
  - cbn [prepare_batch filter]. unfold bind at 1.
    rewrite (verificar_duplicado_healthy record w H).
    unfold bind at 1. rewrite IH.
    destruct (in_table record (visible_rows (db w))); unfold ret; cbn; eauto.
Qed.

Lemma executemany_healthy (batch_data : list Persona.Row) (w : World) :
  faults (db w) = [] ->
  executemany batch_data w
  = (Ok (List.length batch_data),
     set_db (mkDB (committed (db w)) (pending (db w) ++ batch_data) []) w).
Proof.
  intros H. unfold executemany, bind.
  rewrite (db_statement_healthy w H). rewrite H. reflexivity.
Qed.

(** With a healthy connection the outer loop ends with every record of every
    batch visible in the table. *)
Lemma insert_batches_healthy (batches : list (list Persona.Row))
    (insertados duplicados : nat) (w : World) :
  faults (db w) = [] ->
  exists n d w',
    insert_batches batches insertados duplicados w = (Ok (n, d), w')
    /\ faults (db w') = []
    /\ same_committed w w'
    /\ (exists added,
          visible_rows (db w') = (visible_rows (db w) ++ added)%list)
    /\ (forall batch r, In batch batches -> In r batch ->
          in_table r (visible_rows (db w')) = true).
Proof.
  revert insertados duplicados w.
  induction batches as [|batch rest IH]; intros insertados duplicados w H.
  - exists insertados, duplicados, w. cbn. unfold ret.
    split; [reflexivity|]. split; [assumption|].
    split; [apply same_committed_refl|].
    split; [exists []; rewrite app_nil_r; reflexivity|].
    intros batch r Hb. contradiction.
  - destruct (prepare_batch_healthy batch w H) as [d Hprep].
    cbn [insert_batches]. unfold bind at 1. rewrite Hprep.
    set (data := filter (fun r => negb (in_table r (visible_rows (db w))))
                        batch) in *.
    assert (Hstep : exists rowcount w1,
              match data with
              | [] => ret 0%nat
              | _ => executemany data
              end w = (Ok rowcount, w1)
              /\ faults (db w1) = []
              /\ same_committed w w1
              /\ visible_rows (db w1) = (visible_rows (db w) ++ data)%list).
    { destruct data as [|x data'] eqn:E.
      - exists 0%nat, w. unfold ret.
        split; [reflexivity|]. split; [assumption|].
        split; [apply same_committed_refl|].
        rewrite app_nil_r. reflexivity.
      - rewrite <- E. exists (List.length data). eexists.
        split; [apply executemany_healthy; assumption|].
        split; [reflexivity|].
        split; [unfold same_committed; cbn;
                auto using same_outside_db_set_db|].
        unfold visible_rows. cbn. rewrite app_assoc. reflexivity. }
    destruct Hstep as (rowcount & w1 & Hrun & Hf1 & Hc1 & Hvis1).
    unfold bind at 1. rewrite Hrun.
    destruct (IH (insertados + rowcount)%nat (duplicados + d)%nat w1 Hf1)
      as (n & d' & w' & Hrest & Hf' & Hc' & [added Hvis'] & Hall).
    exists n, d', w'.
    split; [assumption|]. split; [assumption|].
    split; [eapply same_committed_trans; eassumption|].
    split.
    { exists (data ++ added)%list. rewrite Hvis', Hvis1, app_assoc.
      reflexivity. }
    intros b r [<-|Hb] Hr; [|eapply Hall; eassumption].
    rewrite Hvis', Hvis1. apply in_table_app.
    destruct (in_table r (visible_rows (db w))) eqn:Hdup.
    + apply in_table_app. assumption.
    + apply in_table_added. subst data. apply filter_In.
      split; [assumption|]. rewrite Hdup. reflexivity.
Qed.

Lemma filter_none_left {A} (p : A -> bool) (l : list A) :
  (forall x, In x l -> p x = false) -> filter p l = [].
Proof.
  induction l as [|a l IH]; intros H; [reflexivity|].
  cbn [filter]. rewrite (H a); [|left; reflexivity].
  apply IH. intros x Hx. apply H. right. assumption.
Qed.

(** With a healthy connection and every record already visible, the outer
    loop inserts nothing and leaves the world as it is. *)
Lemma insert_batches_all_present (batches : list (list Persona.Row))
    (insertados duplicados : nat) (w : World) :
  faults (db w) = [] ->
  (forall batch r, In batch batches -> In r batch ->
     in_table r (visible_rows (db w)) = true) ->
  exists d, insert_batches batches insertados duplicados w
            = (Ok (insertados, d), w).
Proof.
  intros H. revert insertados duplicados.
  induction batches as [|batch rest IH]; intros insertados duplicados Hall.
  - exists duplicados. reflexivity.
  - destruct (prepare_batch_healthy batch w H) as [d Hprep].
    cbn [insert_batches]. unfold bind at 1. rewrite Hprep.
    rewrite (filter_none_left _ batch).
    + unfold bind at 1, ret at 1. rewrite Nat.add_0_r.
      apply IH. intros b r Hb. apply Hall. right. assumption.
    + intros r Hr. rewrite (Hall batch r); auto. left. reflexivity.
Qed.

Lemma commit_healthy (w : World) :
  faults (db w) = [] ->
  commit w
  = (Ok tt, set_db (mkDB (committed (db w) ++ pending (db w)) [] []) w).
Proof.
  intros H. unfold commit, bind. rewrite (db_statement_healthy w H).
  rewrite H. reflexivity.
Qed.

Lemma In_slice {A} (l : list A) (i j : nat) (r : A) :
  In r (slice l i j) -> In r l.
Proof.
  unfold slice. intros H.
  rewrite <- (firstn_skipn i l). apply in_or_app. right.
  rewrite <- (firstn_skipn (j - i) (skipn i l)). apply in_or_app. left.
  assumption.
Qed.

Lemma in_batches {A} (l : list A) (step : nat) (r : A) :
  (0 < step)%nat -> In r l ->
  exists batch,
    In batch (List.map (fun i => slice l i (i + step))
                (range_step (List.length l) step))
    /\ In r batch.
Proof.
  intros Hstep Hr. rewrite <- (batches_cover l step Hstep) in Hr at 1.
  apply in_concat in Hr. destruct Hr as (batch & Hb & Hr). eauto.
Qed.

(** The bulk insert over a healthy connection: it returns, and afterwards
    every record is visible in the table. *)
Lemma bulk_insert_healthy (self : DatabaseConnectionOptimized)
    (records_data : list Persona.Row) (w : World) :
  faults (db w) = [] ->
  exists n w',
    insertar_personas_transformadas_bulk self records_data 1000 w = (Ok n, w')
    /\ faults (db w') = []
    /\ same_outside_db w w'
    /\ (forall r, In r records_data ->
          in_table r (visible_rows (db w')) = true).
Proof.
  intros H.
  unfold insertar_personas_transformadas_bulk, try_except,
    insertar_personas_transformadas_bulk_try.
  destruct records_data as [|r0 rs] eqn:E.
  - exists 0%nat, w. unfold ret.
    split; [reflexivity|]. split; [assumption|].
    split; [apply same_outside_db_refl|]. intros r Hr. contradiction.
  - rewrite <- E. unfold bind at 1. rewrite (db_statement_healthy w H).
    unfold bind at 1, ret at 1.
    destruct (insert_batches_healthy
                (List.map (fun i => slice records_data i (i + 1000))
                   (range_step (List.length records_data) 1000)) 0 0 w H)
      as (n & d & w1 & Hrun & Hf1 & [Hc1 Ho1] & [added Hvis] & Hall).
    unfold bind at 1. rewrite Hrun.
    unfold bind at 1. rewrite (commit_healthy w1 Hf1).
    unfold ret. eexists. eexists. split; [reflexivity|].
    split; [reflexivity|].
    split.
    { eapply same_outside_db_trans; [eassumption|].
      apply same_outside_db_set_db. }
    intros r Hr.
    destruct (in_batches records_data 1000 r ltac:(lia) Hr)
      as (batch & Hb & Hrb).
    pose proof (Hall batch r Hb Hrb) as Hin.
    unfold visible_rows in *. cbn. rewrite app_nil_r. assumption.
Qed.

(** The bulk insert over a healthy connection that already shows every
    record: nothing is inserted and no row is added. *)
Lemma bulk_insert_all_present (self : DatabaseConnectionOptimized)
    (records_data : list Persona.Row) (w : World) :
  faults (db w) = [] ->
  (forall r, In r records_data ->
     in_table r (visible_rows (db w)) = true) ->
  exists w',
    insertar_personas_transformadas_bulk self records_data 1000 w
    = (Ok 0%nat, w')
    /\ visible_rows (db w') = visible_rows (db w)
    /\ faults (db w') = []
    /\ same_outside_db w w'.
Proof.
  intros H Hall.
  unfold insertar_personas_transformadas_bulk, try_except,
    insertar_personas_transformadas_bulk_try.
  destruct records_data as [|r0 rs] eqn:E.
  - exists w. unfold ret. auto using same_outside_db_refl.
  - rewrite <- E in *. unfold bind at 1. rewrite (db_statement_healthy w H).
    unfold bind at 1, ret at 1.
    destruct (insert_batches_all_present
                (List.map (fun i => slice records_data i (i + 1000))
                   (range_step (List.length records_data) 1000)) 0 0 w H)
      as [d Hrun].
    { intros batch r Hb Hr. apply Hall.
      apply in_map_iff in Hb. destruct Hb as (i & <- & _).
      eapply In_slice. eassumption. }
    unfold bind at 1. rewrite Hrun.
    unfold bind at 1. rewrite (commit_healthy w H).
    unfold ret. eexists. split; [reflexivity|].
    split; [unfold visible_rows; cbn; apply app_nil_r|].
    split; [reflexivity|apply same_outside_db_set_db].
Qed.

(** ** Preparing the records for the database *)

Lemma ensure_mysql_datetime_format_total (value : option string) (w : World) :
  exists s, ensure_mysql_datetime_format value w = (Ok s, w).
Proof.
  unfold ensure_mysql_datetime_format.
  destruct value as [s|]; [destruct (parse_datetime py s)|]; eauto.
Qed.

Lemma prepare_record_total (row : Canon.Row) (w : World) :
  exists record,
    prepare_record row w = (Ok record, w) /\ key_of record = canon_key row.
Proof.
  unfold prepare_record.
  destruct (ensure_mysql_datetime_format_total
              (Some (Canon.fecha_procesamiento row)) w) as [s1 H1].
  unfold bind at 1. rewrite H1.
  destruct (ensure_mysql_datetime_format_total (Some s1) w) as [s2 H2].
  unfold bind at 1. rewrite H2.
  destruct (ensure_mysql_datetime_format_total None w) as [s3 H3].
  unfold bind at 1.
  destruct (strptime_mysql_ok py s2); [unfold ret at 1|rewrite H3];
    unfold ret; eexists; split; reflexivity.
Qed.

Lemma _prepare_dataframe_for_database_total (df : list Canon.Row) (w : World) :
  exists records,
    _prepare_dataframe_for_database df w = (Ok records, w)
    /\ List.map key_of records = List.map canon_key df.
Proof.
  induction df as [|row rest (records & IH & Hkeys)].
  - exists []. split; reflexivity.
  - destruct (prepare_record_total row w) as (record & Hrec & Hkey).
    exists (record :: records). cbn [_prepare_dataframe_for_database].
    unfold bind at 1. rewrite Hrec. unfold bind at 1. rewrite IH.
    unfold ret. split; [reflexivity|]. cbn. rewrite Hkey, Hkeys. reflexivity.
Qed.

Lemma keys_in_table (records : list Persona.Row) (df : list Canon.Row)
    (table : list Persona.Row) :
  List.map key_of records = List.map canon_key df ->
  ((forall r, In r records -> in_table r table = true)
   <-> (forall row, In row df -> key_in_table (canon_key row) table = true)).
Proof.
  revert df. induction records as [|r rs IH]; intros [|row df] H;
    try discriminate.
  - split; intros _ x Hx; contradiction.
  - cbn [List.map] in H.
    pose proof (f_equal (@List.hd _ (canon_key row)) H) as Hk.
    pose proof (f_equal (@List.tl _) H) as Hrest.
    cbn [List.hd List.tl] in Hk, Hrest. specialize (IH df Hrest).
    split; intros Hall x [<-|Hx].
    + rewrite <- Hk, <- in_table_key. apply Hall. left. reflexivity.
    + apply IH; [|assumption]. intros y Hy. apply Hall. right. assumption.
    + rewrite in_table_key, Hk. apply Hall. left. reflexivity.
    + apply IH; [|assumption]. intros y Hy. apply Hall. right. assumption.
Qed.

(** The database step over a healthy connection. *)
Lemma load_to_database_healthy (df : list Canon.Row)
    (db_manager : DatabaseConnectionOptimized) (w : World) :
  faults (db w) = [] ->
  exists n w',
    load_to_database df db_manager w = (Ok n, w')
    /\ faults (db w') = []
    /\ same_outside_db w w'
    /\ (forall row, In row df ->
          key_in_table (canon_key row) (visible_rows (db w')) = true).
Proof.
  intros H. unfold load_to_database.
  destruct (_prepare_dataframe_for_database_total df w)
    as (records & Hprep & Hkeys).
  unfold bind at 1. rewrite Hprep.
  cbn [insertar_personas_transformadas DatabaseConnectionOptimized_DbManager].
  unfold insertar_personas_transformadas_optimized.
  destruct (bulk_insert_healthy db_manager records w H)
    as (n & w' & Hrun & Hf & Ho & Hall).
  unfold bind. rewrite Hrun. unfold ret.
  exists n, w'. split; [reflexivity|]. split; [assumption|].
  split; [assumption|].
  apply (keys_in_table records df _ Hkeys). assumption.
Qed.

Lemma load_to_database_all_present (df : list Canon.Row)
    (db_manager : DatabaseConnectionOptimized) (w : World) :
  faults (db w) = [] ->
  (forall row, In row df ->
     key_in_table (canon_key row) (visible_rows (db w)) = true) ->
  exists w',
    load_to_database df db_manager w = (Ok 0%nat, w')
    /\ visible_rows (db w') = visible_rows (db w)
    /\ same_outside_db w w'.
Proof.
  intros H Hall. unfold load_to_database.
  destruct (_prepare_dataframe_for_database_total df w)
    as (records & Hprep & Hkeys).
  unfold bind at 1. rewrite Hprep.
  cbn [insertar_personas_transformadas DatabaseConnectionOptimized_DbManager].
  unfold insertar_personas_transformadas_optimized.
  destruct (bulk_insert_all_present db_manager records w H)
    as (w' & Hrun & Hvis & Hf & Ho).
  { apply (keys_in_table records df _ Hkeys). assumption. }
  unfold bind. rewrite Hrun. unfold ret. eauto.
Qed.

(** ** The file writers *)

Lemma files_grow_refl (w : World) : files_grow w w.
Proof. split; [apply same_db_refl|apply incl_refl]. Qed.

Lemma files_grow_trans (w1 w2 w3 : World) :
  files_grow w1 w2 -> files_grow w2 w3 -> files_grow w1 w3.
Proof.
  intros [? ?] [? ?]. split; [eapply same_db_trans|eapply incl_tran];
    eassumption.
Qed.

Lemma names_after_write (path : string) (content : artifact)
    (dir : list (string * artifact)) :
  incl (List.map fst dir)
       (List.map fst
          ((path, content)
             :: filter (fun f => negb (String.eqb (fst f) path)) dir)).
Proof.
  intros p Hp. apply in_map_iff in Hp. destruct Hp as ([p' a] & <- & Hin).
  cbn [fst List.map]. destruct (String.eqb_spec p' path) as [E|E].
  - left. symmetry. assumption.
  - right. apply in_map_iff. exists (p', a). split; [reflexivity|].
    apply filter_In. split; [assumption|]. cbn.
    destruct (String.eqb_spec p' path); [contradiction|reflexivity].
Qed.

Lemma writer_fault_same (df : list Canon.Row) (w w' : World) (s : sink) :
  same_db w w' -> writer_fault df w' s = writer_fault df w s.
Proof. intros (_ & _ & H). unfold writer_fault. rewrite H. reflexivity. Qed.

Lemma writer_outcome_same (df : list Canon.Row) (w w' : World) (s : sink) :
  same_db w w' -> writer_outcome df w' s = writer_outcome df w s.
Proof.
  intros H. unfold writer_outcome. rewrite (writer_fault_same df w w' s H).
  destruct H as (_ & -> & _). reflexivity.
Qed.

Lemma write_file_as (s : sink) (path : string) (content : artifact)
    (w : World) :
  match sink_fault w s with
  | Some e => write_file s path content w = (Raise e, w)
  | None =>
      exists w', write_file s path content w = (Ok tt, w')
                 /\ files_grow w w' /\ In path (file_names w')
  end.
Proof.
  unfold write_file. destruct (sink_fault w s); [reflexivity|].
  eexists. split; [reflexivity|]. split.
  - split; [unfold same_db; cbn; tauto|].
    unfold file_names. cbn [output_dir set_output_dir].
    apply names_after_write.
  - unfold file_names. cbn. left. reflexivity.
Qed.

Ltac via_write_file Hw :=
  cbv beta iota zeta delta [sink_path] in Hw;
  match type of Hw with
  | match sink_fault ?w ?s with _ => _ end =>
      destruct (sink_fault w s);
      [rewrite Hw; reflexivity
      |let w' := fresh "w'" in
       destruct Hw as (w' & -> & ? & ?); unfold ret; eauto]
  end.

Lemma save_to_json_as (df : list Canon.Row) :
  writes_as df SJson (save_to_json df).
Proof.
  intros w.
  pose proof (write_file_as SJson (sink_path SJson (now w)) (JsonFile df) w)
    as Hw.
  unfold writer_fault, save_to_json, get_timestamp_for_filename, bind.
  via_write_file Hw.
Qed.

Lemma save_to_parquet_as (df : list Canon.Row) :
  writes_as df SParquet (save_to_parquet df).
Proof.
  intros w.
  pose proof (write_file_as SParquet (sink_path SParquet (now w))
                (ParquetFile df) w) as Hw.
  unfold writer_fault, save_to_parquet, get_timestamp_for_filename, bind.
  via_write_file Hw.
Qed.

Lemma save_to_csv_as (df : list Canon.Row) :
  writes_as df SCsv (save_to_csv df).
Proof.
  intros w.
  pose proof (write_file_as SCsv (sink_path SCsv (now w)) (CsvFile df) w)
    as Hw.
  unfold writer_fault, save_to_csv, get_timestamp_for_filename, bind.
  via_write_file Hw.
Qed.

Lemma generate_sql_insert_script_as (df : list Canon.Row) :
  writes_as df SSql (generate_sql_insert_script df).
Proof.
  intros w.
  destruct (_prepare_dataframe_for_database_total df w) as (records & Hp & _).
  pose proof (write_file_as SSql (sink_path SSql (now w)) (SqlFile records) w)
    as Hw.
  unfold writer_fault, generate_sql_insert_script, get_timestamp_for_filename,
    bind.
  rewrite Hp. via_write_file Hw.
Qed.

Lemma create_data_summary_as (df : list Canon.Row) :
  writes_as df SSummary (create_data_summary df).
Proof.
  intros w.
  pose proof (write_file_as SSummary (sink_path SSummary (now w))
                (SummaryFile (List.length df)) w) as Hw.
  unfold writer_fault, create_data_summary, get_timestamp_for_filename, bind.
  destruct (forallb (fun r => isnull (Canon.edad_anos r)) df);
    [reflexivity|].
  change (@ret unit tt w) with (@Ok unit tt, w). cbv beta iota.
  via_write_file Hw.
Qed.

(** One write attempt: its failure becomes a message, never an exception. *)
Lemma attempt_writer (df : list Canon.Row) (s : sink) (writer : M string)
    (errs : list string) (w : World) :
  writes_as df s writer ->
  exists w',
    attempt (sink_label s) writer errs w
    = (Ok (fst (writer_outcome df w s),
           (errs ++ snd (writer_outcome df w s))%list), w')
    /\ files_grow w w'
    /\ (writer_fault df w s = None ->
        In (sink_path s (now w)) (file_names w')).
Proof.
  intros Has. specialize (Has w).
  unfold attempt, try_except, bind, writer_outcome.
  destruct (writer_fault df w s) as [e|].
  - rewrite Has. unfold ret. cbn [fst snd]. exists w.
    split; [reflexivity|]. split; [apply files_grow_refl|discriminate].
  - destruct Has as (w' & -> & Hgrow & Hin). unfold ret. cbn [fst snd].
    rewrite app_nil_r. eauto.
Qed.

(** The five write attempts, one after the other. *)
Lemma write_files_eq (df : list Canon.Row) (w : World) :
  exists w1,
    write_files df w = (Ok (files_result df w), w1)
    /\ files_grow w w1
    /\ (forall s, writer_fault df w s = None ->
                  In (sink_path s (now w)) (file_names w1)).
Proof.
  unfold write_files, files_result.
  destruct (attempt_writer df SJson _ [] w (save_to_json_as df))
    as (w1 & H1 & G1 & I1).
  destruct (attempt_writer df SParquet _
              ([] ++ snd (writer_outcome df w SJson)) w1
              (save_to_parquet_as df)) as (w2 & H2 & G2 & I2).
  rewrite (writer_outcome_same df w w1 _ (proj1 G1)) in H2.
  pose proof (files_grow_trans _ _ _ G1 G2) as G12.
  destruct (attempt_writer df SCsv _
              (([] ++ snd (writer_outcome df w SJson))
                 ++ snd (writer_outcome df w SParquet)) w2
              (save_to_csv_as df)) as (w3 & H3 & G3 & I3).
  rewrite (writer_outcome_same df w w2 _ (proj1 G12)) in H3.
  pose proof (files_grow_trans _ _ _ G12 G3) as G13.
  destruct (attempt_writer df SSql _
              ((([] ++ snd (writer_outcome df w SJson))
                  ++ snd (writer_outcome df w SParquet))
                 ++ snd (writer_outcome df w SCsv)) w3
              (generate_sql_insert_script_as df)) as (w4 & H4 & G4 & I4).
  rewrite (writer_outcome_same df w w3 _ (proj1 G13)) in H4.
  pose proof (files_grow_trans _ _ _ G13 G4) as G14.
  destruct (attempt_writer df SSummary _
              (((([] ++ snd (writer_outcome df w SJson))
                   ++ snd (writer_outcome df w SParquet))
                  ++ snd (writer_outcome df w SCsv))
                 ++ snd (writer_outcome df w SSql)) w4
              (create_data_summary_as df)) as (w5 & H5 & G5 & I5).
  rewrite (writer_outcome_same df w w4 _ (proj1 G14)) in H5.
  pose proof (files_grow_trans _ _ _ G14 G5) as G15.
  exists w5.
  cbn [sink_label] in H1, H2, H3, H4, H5.
  unfold bind at 1. rewrite H1. unfold bind at 1. rewrite H2.
  unfold bind at 1. rewrite H3. unfold bind at 1. rewrite H4.
  unfold bind at 1. rewrite H5. unfold ret.
  split; [reflexivity|]. split; [assumption|].
  intros s Hs.
  assert (Hnow : forall w', same_db w w' -> now w' = now w)
    by (intros w' (_ & E & _); exact E).
  destruct s.
  - apply (proj2 G5), (proj2 G4), (proj2 G3), (proj2 G2). auto.
  - apply (proj2 G5), (proj2 G4), (proj2 G3).
    rewrite <- (Hnow w1 (proj1 G1)). apply I2.
    rewrite (writer_fault_same df w w1 _ (proj1 G1)). assumption.
  - apply (proj2 G5), (proj2 G4).
    rewrite <- (Hnow w2 (proj1 G12)). apply I3.
    rewrite (writer_fault_same df w w2 _ (proj1 G12)). assumption.
  - apply (proj2 G5).
    rewrite <- (Hnow w3 (proj1 G13)). apply I4.
    rewrite (writer_fault_same df w w3 _ (proj1 G13)). assumption.
  - rewrite <- (Hnow w4 (proj1 G14)). apply I5.
    rewrite (writer_fault_same df w w4 _ (proj1 G14)). assumption.
Qed.

(** ** The load as a whole *)

Lemma load_otaku_data_eq {D} {DM : DbManager D} (df : list Canon.Row)
    (db_manager : option D) (cloud_service : option CloudStorageService)
    (w : World) :
  load_otaku_data df db_manager cloud_service w
  = match write_files df w with
    | (Raise e, w1) => (Raise e, w1)
    | (Ok files, w1) =>
        match db_manager with
        | None =>
            (Ok (with_database_records files 0 cloud_service (now w1)), w1)
        | Some m =>
            match load_to_database df m w1 with
            | (Ok n, w2) =>
                (Ok (with_database_records files n cloud_service (now w2)), w2)
            | (Raise e, w2) =>
                (Ok (with_database_error files e cloud_service (now w2)), w2)
            end
        end
    end.
Proof.
  unfold load_otaku_data, write_files, bind.
  repeat match goal with
  | |- context [attempt ?l ?m ?e ?w0] =>
      destruct (attempt l m e w0) as [[[? ?]|?] ?]; try reflexivity
  end.
  unfold with_database_records, with_database_error, cloud_step, attempt,
    try_except, bind, ret, lift, get_timestamp_for_filename, database_error.
  cbv beta iota. cbn [json_file errors].
  destruct db_manager as [m|].
  - destruct (load_to_database df m w4) as [[n|e] w5];
      destruct cloud_service as [c|], o as [json_path|]; try reflexivity;
      destruct (upload_file c json_path _); reflexivity.
  - destruct cloud_service as [c|], o as [json_path|]; try reflexivity;
      destruct (upload_file c json_path _); reflexivity.
Qed.

Lemma prepare_batch_rows (batch : list Persona.Row) :
  preserves same_rows (prepare_batch batch).
Proof.
  intros w r w' H.
  destruct (prepare_batch_spec batch w) as (data & d & w1 & Hrun & Hrows & _).
  rewrite Hrun in H. injection H as _ <-. assumption.
Qed.

Lemma executemany_committed (batch_data : list Persona.Row) :
  preserves same_committed (executemany batch_data).
Proof.
  intros w r w' H. unfold executemany, bind in H.
  destruct (db_statement w) as [[[]|e] w1] eqn:E;
    apply db_statement_rows in E; apply same_rows_committed in E.
  - injection H as _ <-. eapply same_committed_trans; [eassumption|].
    unfold same_committed. cbn. auto using same_outside_db_set_db.
  - injection H as _ <-. assumption.
Qed.

Lemma insert_batches_committed (batches : list (list Persona.Row))
    (insertados duplicados : nat) :
  preserves same_committed (insert_batches batches insertados duplicados).
Proof.
  revert insertados duplicados.
  induction batches as [|batch rest IH]; intros insertados duplicados.
  - apply preserves_ret, same_committed_refl.
  - cbn [insert_batches].
    apply preserves_bind; [apply same_committed_trans| |].
    + intros w r w' H. apply same_rows_committed.
      eapply prepare_batch_rows; eassumption.
    + intros [data d].
      apply preserves_bind; [apply same_committed_trans| |].
      * destruct data; [apply preserves_ret, same_committed_refl
                       |apply executemany_committed].
      * intros rowcount. apply IH.
Qed.

(** A bulk insert that raises has rolled back: nothing it did is committed
    and no insert is left pending. *)
Lemma bulk_insert_raise (self : DatabaseConnectionOptimized)
    (records_data : list Persona.Row) (batch_size : nat) (w w' : World)
    (e : exn) :
  insertar_personas_transformadas_bulk self records_data batch_size w
  = (Raise e, w') ->
  same_committed w w' /\ pending (db w') = [].
Proof.
  unfold insertar_personas_transformadas_bulk, try_except. intros H.
  destruct (insertar_personas_transformadas_bulk_try records_data batch_size w)
    as [[n|e1] w1] eqn:Hbody; [discriminate|].
  assert (Hc : same_committed w w1).
  { unfold insertar_personas_transformadas_bulk_try in Hbody.
    destruct records_data as [|r0 rs]; [discriminate|].
    unfold bind at 1 in Hbody.
    destruct (db_statement w) as [[[]|e0] w0] eqn:E0;
      pose proof (same_rows_committed _ _ (db_statement_rows _ _ _ E0)) as H0;
      [|injection Hbody as _ <-; assumption].
    unfold bind at 1 in Hbody.
    destruct batch_size as [|bs];
      [unfold raise in Hbody; injection Hbody as _ <-; assumption|].
    unfold ret at 1 in Hbody. unfold bind at 1 in Hbody.
    match type of Hbody with
    | context [insert_batches ?b ?i0 ?d0 w0] =>
        destruct (insert_batches b i0 d0 w0) as [[[n d]|e2] w2] eqn:E2;
        pose proof (insert_batches_committed _ _ _ _ _ _ E2) as H2
    end;
      [|injection Hbody as _ <-; eapply same_committed_trans; eassumption].
    unfold bind at 1, commit in Hbody. unfold bind at 1 in Hbody.
    destruct (db_statement w2) as [[[]|e3] w3] eqn:E3;
      pose proof (same_rows_committed _ _ (db_statement_rows _ _ _ E3)) as H3;
      [discriminate|].
    injection Hbody as _ <-.
    eapply same_committed_trans; [|eassumption].
    eapply same_committed_trans; eassumption. }
  unfold bind, rollback, raise in H. injection H as _ <-.
  split; [|reflexivity].
  eapply same_committed_trans; [eassumption|].
  unfold same_committed. cbn. auto using same_outside_db_set_db.
Qed.

Lemma load_to_database_raise (df : list Canon.Row)
    (db_manager : DatabaseConnectionOptimized) (w w' : World) (e : exn) :
  load_to_database df db_manager w = (Raise e, w') ->
  same_committed w w' /\ pending (db w') = [].
Proof.
  unfold load_to_database. intros H.
  destruct (_prepare_dataframe_for_database_total df w)
    as (records & Hprep & _).
  unfold bind at 1 in H. rewrite Hprep in H.
  cbn [insertar_personas_transformadas DatabaseConnectionOptimized_DbManager]
    in H.
  unfold insertar_personas_transformadas_optimized, bind in H.
  destruct (insertar_personas_transformadas_bulk db_manager records 1000 w)
    as [[n|e1] w1] eqn:E; [discriminate|].
  injection H as _ <-. eapply bulk_insert_raise. eassumption.
Qed.

Lemma file_of_with_database_records (files : LoadResult) (n : nat)
    (cloud_service : option CloudStorageService) (t : Z) (s : sink) :
  file_of s (with_database_records files n cloud_service t) = file_of s files.
Proof.
  unfold with_database_records. destruct (cloud_step _ _ _ _).
  destruct s; reflexivity.
Qed.

Lemma file_of_with_database_error (files : LoadResult) (e : exn)
    (cloud_service : option CloudStorageService) (t : Z) (s : sink) :
  file_of s (with_database_error files e cloud_service t) = file_of s files.
Proof.
  unfold with_database_error. destruct (cloud_step _ _ _ _).
  destruct s; reflexivity.
Qed.

Lemma cloud_step_keeps_errors (cloud_service : option CloudStorageService)
    (json_file : option string) (errs : list string) (t : Z) :
  incl errs (snd (cloud_step cloud_service json_file errs t)).
Proof.
  unfold cloud_step.
  destruct cloud_service as [c|], json_file as [p|]; cbn;
    try apply incl_refl.
  destruct (upload_file c p _); cbn; [apply incl_refl|].
  apply incl_appl, incl_refl.
Qed.

(** C6. Each of the five writers is attempted on its own: a writer that
    fails leaves no path and one message in the errors, the others still
    put their files in the output directory, and the load returns a result
    instead of raising, whatever database and cloud service it is given.
    When the database step raises, the transaction has been rolled back
    (nothing it inserted is committed, nothing is pending), the message is
    in the errors of the result, and the files and their entries in the
    result are the ones the writers produced. *)
Theorem C6_partial_failures_are_collected (df : list Canon.Row) (w : World) :
  exists files w1,
    write_files df w = (Ok files, w1)
    /\ db w1 = db w
    /\ (forall s,
          match writer_fault df w s with
          | Some e =>
              file_of s files = None
              /\ In (sink_label s ++ ": " ++ exn_str e)%string (errors files)
          | None =>
              file_of s files = Some (sink_path s (now w))
              /\ In (sink_path s (now w)) (file_names w1)
          end)
    /\ (forall D (DM : DbManager D) (db_manager : option D) cloud_service,
          exists result w2,
            load_otaku_data df db_manager cloud_service w = (Ok result, w2)
            /\ (forall s, file_of s result = file_of s files)
            /\ incl (errors files) (errors result))
    /\ (forall (db_manager : DatabaseConnectionOptimized) cloud_service e w2,
          load_to_database df db_manager w1 = (Raise e, w2) ->
          exists result,
            load_otaku_data df (Some db_manager) cloud_service w
            = (Ok result, w2)
            /\ committed (db w2) = committed (db w)
            /\ pending (db w2) = []
            /\ file_names w2 = file_names w1
            /\ database_records result = 0%nat
            /\ In (database_error e) (errors result)
            /\ (forall s, file_of s result = file_of s files)
            /\ incl (errors files) (errors result)).
Proof.
  destruct (write_files_eq df w) as (w1 & Hfiles & [Hdb Hnames] & Hin).
  exists (files_result df w), w1.
  split; [assumption|]. split; [apply Hdb|]. split; [|split].
  - intros s. specialize (Hin s). unfold files_result, writer_outcome in *.
    destruct s; cbn [file_of json_file parquet_file csv_file sql_script
                       summary_file errors];
      match goal with
      | |- match ?f with _ => _ end =>
          destruct f eqn:E; cbn [fst snd];
          (split; [reflexivity|]); [|apply Hin; reflexivity]
      end;
      repeat (apply in_or_app; first [right; left; reflexivity|left]).
  - intros D DM db_manager cloud_service.
    rewrite load_otaku_data_eq, Hfiles.
    assert (Hrec : forall n t,
              incl (errors (files_result df w))
                   (errors (with_database_records (files_result df w) n
                              cloud_service t))).
    { intros n t. unfold with_database_records.
      pose proof (cloud_step_keeps_errors cloud_service
                    (json_file (files_result df w))
                    (errors (files_result df w)) t) as Hk.
      destruct (cloud_step _ _ _ _). exact Hk. }
    assert (Herr : forall e t,
              incl (errors (files_result df w))
                   (errors (with_database_error (files_result df w) e
                              cloud_service t))).
    { intros e t. unfold with_database_error.
      pose proof (cloud_step_keeps_errors cloud_service
                    (json_file (files_result df w))
                    (errors (files_result df w) ++ [database_error e]) t)
        as Hk.
      destruct (cloud_step _ _ _ _).
      eapply incl_tran; [apply incl_appl, incl_refl|exact Hk]. }
    destruct db_manager as [m|];
      [destruct (load_to_database df m w1) as [[n|e] w2]|];
      eexists; eexists; (split; [reflexivity|]);
      (split; [intros s; first [apply file_of_with_database_records
                               |apply file_of_with_database_error]|]);
      auto.
  - intros db_manager cloud_service e w2 Hraise.
    rewrite load_otaku_data_eq, Hfiles, Hraise.
    destruct (load_to_database_raise _ _ _ _ _ Hraise)
      as ([Hc Ho] & Hp).
    eexists. split; [reflexivity|].
    split; [rewrite Hc, (proj1 Hdb); reflexivity|].
    split; [assumption|].
    split.
    { unfold file_names. destruct Ho as (_ & _ & _ & _ & _ & -> & _).
      reflexivity. }
    pose proof (cloud_step_keeps_errors cloud_service
                  (json_file (files_result df w))
                  (errors (files_result df w) ++ [database_error e])
                  (now w2)) as Hk.
    unfold with_database_error.
    destruct (cloud_step _ _ _ _) as [url errs]. cbn [snd] in Hk.
    split; [reflexivity|].
    split; [apply Hk, in_or_app; right; left; reflexivity|].
    split; [intros s; destruct s; reflexivity|].
    eapply incl_tran; [apply incl_appl, incl_refl|exact Hk].
Qed.

(** ** Loading the same records twice *)

Lemma sink_path_stamp (s : sink) (t1 t2 : Z) :
  sink_path s t1 = sink_path s t2 ->
  strftime py TIMESTAMP_FORMAT t1 = strftime py TIMESTAMP_FORMAT t2.
Proof.
  unfold sink_path. intros H.
  destruct s; apply append_inv_head in H; apply append_inv_head in H;
    apply append_inv_tail in H; assumption.
Qed.

Lemma file_of_files_result (df : list Canon.Row) (w : World) (s : sink)
    (p : string) :
  file_of s (files_result df w) = Some p -> p = sink_path s (now w).
Proof.
  unfold files_result, writer_outcome.
  destruct s; cbn [file_of json_file parquet_file csv_file sql_script
                     summary_file];
    match goal with
    | |- fst (match ?f with _ => _ end) = _ -> _ => destruct f
    end; cbn [fst]; congruence.
Qed.

(** One load over a healthy connection. *)
Lemma load_healthy (df : list Canon.Row)
    (db_manager : DatabaseConnectionOptimized) (w w' : World)
    (r : LoadResult) :
  faults (db w) = [] ->
  load_otaku_data df (Some db_manager) None w = (Ok r, w') ->
  faults (db w') = []
  /\ now w' = now w
  /\ (forall s p, file_of s r = Some p -> p = sink_path s (now w))
  /\ (forall row, In row df ->
        key_in_table (canon_key row) (visible_rows (db w')) = true).
Proof.
  intros H Hload. rewrite load_otaku_data_eq in Hload.
  destruct (write_files_eq df w) as (w1 & Hfiles & [(Hdb & Hnow & _) _] & _).
  rewrite Hfiles in Hload.
  destruct (load_to_database_healthy df db_manager w1)
    as (n & w2 & Hrun & Hf & Ho & Hall); [rewrite Hdb; assumption|].
  rewrite Hrun in Hload. injection Hload as <- <-.
  split; [assumption|].
  split; [destruct Ho as (-> & _); assumption|].
  split; [|assumption].
  intros s p Hp. apply (file_of_files_result df w s p).
  rewrite file_of_with_database_records in Hp. exact Hp.
Qed.

(** C5, as the code has it.  Over a working connection the second load of
    the same records inserts no row: every record is found in the table by
    its name, age, gender and income and is held back, and the rows the
    connection sees are the same as before.  Each load names its files after
    the clock, to the second, at the time it runs; the files of the second
    load have other names than those of the first whenever the two
    timestamps differ. *)
Theorem C5_second_load_inserts_nothing (df : list Canon.Row)
    (db_manager : DatabaseConnectionOptimized) (w0 w1 w2 : World)
    (r1 r2 : LoadResult) (t : Z) :
  faults (db w0) = [] ->
  load_otaku_data df (Some db_manager) None w0 = (Ok r1, w1) ->
  second_load df db_manager w1 t = (Ok r2, w2) ->
  database_records r2 = 0%nat
  /\ visible_rows (db w2) = visible_rows (db w1)
  /\ (forall s p1 p2,
        file_of s r1 = Some p1 -> file_of s r2 = Some p2 ->
        p1 = sink_path s (now w0) /\ p2 = sink_path s t
        /\ (strftime py TIMESTAMP_FORMAT (now w0)
            <> strftime py TIMESTAMP_FORMAT t -> p1 <> p2)).
Proof.
  intros H Hfirst Hsecond.
  destruct (load_healthy df db_manager w0 w1 r1 H Hfirst)
    as (Hf1 & Hnow1 & Hpaths1 & Hall).
  unfold second_load in Hsecond.
  pose proof Hsecond as Hsecond'.
  rewrite load_otaku_data_eq in Hsecond.
  destruct (write_files_eq df (set_now t w1))
    as (wa & Hfiles & [(Hdb & Hnow & _) _] & _).
  rewrite Hfiles in Hsecond. cbn [db set_now] in Hdb.
  destruct (load_to_database_all_present df db_manager wa)
    as (wb & Hrun & Hvis & _).
  { rewrite Hdb. assumption. }
  { rewrite Hdb. assumption. }
  rewrite Hrun in Hsecond. injection Hsecond as <- <-.
  split; [reflexivity|]. split; [rewrite Hvis, Hdb; reflexivity|].
  intros s p1 p2 Hp1 Hp2.
  apply Hpaths1 in Hp1.
  assert (Hp2' : p2 = sink_path s t).
  { apply (file_of_files_result df (set_now t w1) s p2).
    rewrite file_of_with_database_records in Hp2. exact Hp2. }
  split; [assumption|]. split; [assumption|].
  intros Hstamp E. apply Hstamp. subst p1 p2.
  eapply sink_path_stamp. eassumption.
Qed.

(** * Further properties of the code *)

(** ** The two transformers *)

Lemma _transform_gender_vectorized_eq (df : list Work.Row) :
  _transform_gender_vectorized df = _transform_gender df.
Proof.
  rewrite _transform_gender_vectorized_rowwise, _transform_gender_rowwise.
  reflexivity.
Qed.

Lemma _transform_illness_vectorized_eq (df : list Work.Row) :
  _transform_illness_vectorized df = _transform_illness df.
Proof.
  rewrite _transform_illness_vectorized_rowwise, _transform_illness_rowwise.
  reflexivity.
Qed.

(** The vectorised transformer computes what the row-wise transformer
    computes: the cleaning, each of the four column steps and the whole
    transformation give the same frame, the same exception and the same
    requests to the rate service. *)
Theorem vectorized_transformer_agrees {S} {RS : RateService S}
    (trm_service : option S) (df : Raw.DataFrame) (trm_value : option Decimal)
    (w : World) :
  _clean_data_optimized df = _clean_data df
  /\ (forall rows, _transform_gender_vectorized rows = _transform_gender rows)
  /\ (forall rows, _transform_illness_vectorized rows = _transform_illness rows)
  /\ (forall rows, _transform_age_to_lustros_vectorized rows
                   = _transform_age_to_lustros rows)
  /\ (forall rate rows, _transform_income_to_cop_vectorized rate rows
                        = _transform_income_to_cop rate rows)
  /\ transform_data_optimized trm_service df trm_value w
     = transform_data trm_service df trm_value w.
Proof.
  split; [apply _clean_data_optimized_eq|].
  split; [apply _transform_gender_vectorized_eq|].
  split; [apply _transform_illness_vectorized_eq|].
  split; [intros rows; symmetry; apply _transform_age_to_lustros_rowwise|].
  split; [intros rate rows; symmetry; apply _transform_income_to_cop_rowwise|].
  apply transform_data_optimized_eq.
Qed.

(** ** What cleaning drops *)

Lemma critical_null_text_columns (dt : Raw.Dtypes) (raw : Raw.Row) :
  Raw.d_name dt = object -> Raw.d_gender dt = object ->
  Raw.d_illness dt = object ->
  negb (critical_null (clean_row dt raw))
  = numeric_cell (Raw.d_age dt) (Raw.age raw)
    && numeric_cell (Raw.d_income dt) (Raw.income raw).
Proof.
  intros Hn Hg Hi. unfold critical_null, clean_row, numeric_cell.
  cbn [Work.name Work.age Work.gender Work.income Work.illness].
  rewrite Hn, Hg, Hi. cbn [astype_str_strip str_lower_strip cell_isnull isnull].
  rewrite !orb_false_r, negb_orb. reflexivity.
Qed.

Lemma Forall2_map_map {A B C} (R : A -> C -> Prop) (f : A -> B) (g : B -> C)
    (l : list A) :
  (forall a, In a l -> R a (g (f a))) ->
  Forall2 R l (List.map g (List.map f l)).
Proof. rewrite map_map. apply Forall2_map_r. Qed.

(** In a frame whose name, gender and illness columns are text, cleaning
    drops a row exactly when its age or its income is not a number.  A
    missing name, gender or illness does not drop the row: [astype(str)]
    has turned it into the text 'nan' before [dropna] looks at it, so the
    record comes out with the name 'nan', with gender 'nan' in both gender
    fields, and with illness 'nan' localised to 'No'. *)
Theorem missing_text_survives_cleaning {S} {RS : RateService S}
    (trm_service : option S) (df : Raw.DataFrame) (trm_value : option Decimal)
    (w w' : World) (out : list Canon.Row) :
  transform_data trm_service df trm_value w = (Ok out, w') ->
  Raw.d_name (Raw.dtypes df) = object ->
  survivors df
  = filter (fun raw =>
              numeric_cell (Raw.d_age (Raw.dtypes df)) (Raw.age raw)
              && numeric_cell (Raw.d_income (Raw.dtypes df)) (Raw.income raw))
           (Raw.rows df)
  /\ Forall2 (fun raw r =>
        (Raw.name raw = NaN -> Canon.nombre r = Str "nan")
        /\ (Raw.gender raw = NaN ->
            Canon.genero_original r = Some "nan"
            /\ Canon.genero_es r = Some "nan")
        /\ (Raw.illness raw = NaN ->
            Canon.enfermedad_original r = Some "nan"
            /\ Canon.enfermedad_es r = Some "No"))
       (survivors df) out.
Proof.
  intros H Hn.
  destruct (transformed_frame trm_service df trm_value w w' out (or_introl H))
    as (cleaned & rate & trm_float & Hclean & _ & _ & ->).
  destruct (_clean_data_survivors df cleaned Hclean) as (Hg & Hi & ->).
  assert (Es : str_strip py "nan" = "nan"%string)
    by (rewrite (str_strip_ascii py "nan" eq_refl); reflexivity).
  assert (El : str_lower py "nan" = "nan"%string)
    by (rewrite (str_lower_ascii py "nan" eq_refl); reflexivity).
  split.
  - unfold survivors. apply filter_ext. intros raw.
    apply critical_null_text_columns; assumption.
  - apply Forall2_map_map. intros raw _.
    unfold canonical_record, clean_row.
    cbn [Canon.nombre Canon.genero_original Canon.genero_es
         Canon.enfermedad_original Canon.enfermedad_es
         Work.name Work.gender Work.illness].
    rewrite Hn, Hg, Hi.
    cbn [astype_str_strip str_lower_strip].
    split; [|split]; intros ->; cbn [py_str]; rewrite ?Es, ?El, ?Es;
      [reflexivity| |]; split; reflexivity.
Qed.

(** ** When the transformation raises *)

Lemma _clean_data_raise (df : Raw.DataFrame) (e : exn) :
  _clean_data df = Raise e
  <-> (Raw.d_gender (Raw.dtypes df) = float64
       \/ Raw.d_illness (Raw.dtypes df) = float64)
      /\ e = str_accessor_error.
Proof.
  unfold _clean_data, str_accessor, str_accessor_error.
  destruct (Raw.d_gender (Raw.dtypes df)), (Raw.d_illness (Raw.dtypes df));
    cbn [rbind]; split.
  all: try (intros H; discriminate H).
  all: try (intros [[H|H] _]; discriminate H).
  all: try (intros H; injection H as <-; auto).
  all: intros [_ ->]; reflexivity.
Qed.

Lemma transform_data_raise {S} {RS : RateService S} (svc : S)
    (df : Raw.DataFrame) (trm_value : option Decimal) (w w' : World)
    (e : exn) :
  (exists rate w1, resolve_trm (Some svc) trm_value w = (Ok rate, w1)) ->
  transform_data (Some svc) df trm_value w = (Raise e, w')
  <-> (_clean_data df = Raise e /\ w' = w)
      \/ ((exists cleaned, _clean_data df = Ok cleaned)
          /\ resolve_trm (Some svc) trm_value w = (Ok DecSNaN, w')
          /\ e = ValueError "cannot convert signaling NaN to float").
Proof.
  intros (rate & w1 & Hr).
  rewrite transform_data_outcome. unfold transform_outcome. rewrite Hr.
  destruct (_clean_data df) as [cleaned|e0]; split.
  - destruct (float rate) as [f|e0] eqn:Hf; [discriminate|].
    apply float_raises in Hf. destruct Hf as [-> ->].
    intros H. injection H as <- <-. right. eauto.
  - intros [[H _]|(_ & H & ->)]; [discriminate|].
    injection H as -> ->. reflexivity.
  - intros H; injection H as <- <-. auto.
  - intros [[H ->]|([cleaned H] & _)]; [|discriminate].
    injection H as <-. reflexivity.
Qed.

(** With the rate services of the repository, the transformation raises in
    two cases only.  When the gender or the illness column is not a text
    column (a column that is empty throughout is read as float64) the
    exception is the AttributeError of the [.str] accessor, and it comes
    before the rate is asked for, so nothing has been requested or written.
    When both are text columns and the rate that was passed, fetched or
    cached is a signalling NaN, [float] raises its ValueError in the income
    step.  Every other frame is transformed, whatever its cells hold. *)
Theorem transform_raises_iff_not_text (df : Raw.DataFrame)
    (trm_value : option Decimal) (w w' : World) (e : exn) :
  (transform_data (Some TRMService_init) df trm_value w = (Raise e, w')
   <-> ((Raw.d_gender (Raw.dtypes df) = float64
         \/ Raw.d_illness (Raw.dtypes df) = float64)
        /\ e = str_accessor_error /\ w' = w)
       \/ (Raw.d_gender (Raw.dtypes df) = object
           /\ Raw.d_illness (Raw.dtypes df) = object
           /\ resolve_trm (Some TRMService_init) trm_value w
              = (Ok DecSNaN, w')
           /\ e = ValueError "cannot convert signaling NaN to float"))
  /\ (forall use_cache,
        transform_data_optimized (Some (TRMServiceOptimized_init use_cache))
          df trm_value w = (Raise e, w')
        <-> ((Raw.d_gender (Raw.dtypes df) = float64
              \/ Raw.d_illness (Raw.dtypes df) = float64)
             /\ e = str_accessor_error /\ w' = w)
            \/ (Raw.d_gender (Raw.dtypes df) = object
                /\ Raw.d_illness (Raw.dtypes df) = object
                /\ resolve_trm (Some (TRMServiceOptimized_init use_cache))
                     trm_value w = (Ok DecSNaN, w')
                /\ e = ValueError "cannot convert signaling NaN to float")).
Proof.
  assert (Hok : (exists cleaned, _clean_data df = Ok cleaned)
                <-> Raw.d_gender (Raw.dtypes df) = object
                    /\ Raw.d_illness (Raw.dtypes df) = object).
  { unfold _clean_data, str_accessor.
    destruct (Raw.d_gender (Raw.dtypes df)),
      (Raw.d_illness (Raw.dtypes df)); cbn [rbind]; split.
    all: try (intros [cleaned H]; discriminate H).
    all: try (intros [H1 H2]; discriminate).
    all: eauto. }
  split; [|intros use_cache].
  - rewrite transform_data_raise by apply resolve_trm_plain_total.
    rewrite _clean_data_raise, Hok. tauto.
  - rewrite transform_data_optimized_eq.
    rewrite transform_data_raise by apply resolve_trm_optimized_total.
    rewrite _clean_data_raise, Hok. tauto.
Qed.

(** ** The plain connection *)

Lemma Qeq_bool_sym (x y : Q) : Qeq_bool x y = Qeq_bool y x.
Proof.
  destruct (Qeq_bool x y) eqn:E1, (Qeq_bool y x) eqn:E2; try reflexivity.
  - apply Qeq_bool_iff in E1. symmetry in E1. apply Qeq_bool_iff in E1.
    congruence.
  - apply Qeq_bool_iff in E2. symmetry in E2. apply Qeq_bool_iff in E2.
    congruence.
Qed.

Lemma is_duplicate_of_sym (a b : Persona.Row) :
  is_duplicate_of a b = is_duplicate_of b a.
Proof.
  unfold is_duplicate_of, same_person.
  rewrite (String.eqb_sym (Persona.nombre b)),
    (Z.eqb_sym (Persona.edad_anos b)),
    (String.eqb_sym (Persona.genero_original b)),
    (Qeq_bool_sym (Persona.ingreso_usd b)).
  reflexivity.
Qed.

Lemma distinct_keys_snoc (table : list Persona.Row) (r : Persona.Row) :
  distinct_keys table -> in_table r table = false ->
  distinct_keys (table ++ [r]).
Proof.
  unfold distinct_keys, in_table.
  induction 1 as [|a l Ha Hl IH]; cbn [existsb app]; intros Hr.
  - constructor; constructor.
  - apply orb_false_iff in Hr. destruct Hr as [Hra Hrl].
    constructor; [|apply IH; assumption].
    apply Forall_app. split; [assumption|].
    constructor; [|constructor]. rewrite is_duplicate_of_sym. assumption.
Qed.

Ltac outside_db :=
  solve [apply same_outside_db_refl
        |apply same_outside_db_set_db
        |unfold same_outside_db; cbn; repeat split; reflexivity].

Lemma execute_insert_spec (record : Persona.Row) (w w' : World)
    (r : result unit) :
  execute_insert record w = (r, w') ->
  same_outside_db w w' /\ committed (db w') = committed (db w)
  /\ pending (db w')
     = (pending (db w) ++ match r with Ok _ => [record] | Raise _ => [] end)%list
  /\ (faults (db w) = [] -> faults (db w') = [] /\ r = Ok tt).
Proof.
  unfold execute_insert, bind, db_statement.
  destruct (faults (db w)) as [|[|] rest] eqn:E; intros H;
    injection H as <- <-; (split; [outside_db|]);
    cbn; rewrite ?E, ?app_nil_r;
    (split; [reflexivity|]); (split; [reflexivity|]);
    intros H; try discriminate H; auto.
Qed.

Lemma commit_spec (w w' : World) (r : result unit) :
  commit w = (r, w') ->
  same_outside_db w w'
  /\ match r with
     | Ok _ => committed (db w') = (committed (db w) ++ pending (db w))%list
               /\ pending (db w') = []
     | Raise _ => committed (db w') = committed (db w)
                  /\ pending (db w') = pending (db w)
     end.
Proof.
  unfold commit, bind, db_statement.
  destruct (faults (db w)) as [|[|] rest] eqn:E; intros H;
    injection H as <- <-; (split; [outside_db|]); cbn; auto.
Qed.

(** The loop of the plain insert: what it appends to the open transaction
    are records of the input, one per record it counts. *)
Lemma insert_each_spec (records_data : list Persona.Row) :
  forall (insertados duplicados : nat) (w w' : World)
         (r : result (nat * nat)),
    insert_each records_data insertados duplicados w = (r, w') ->
    same_outside_db w w' /\ committed (db w') = committed (db w)
    /\ exists added,
         pending (db w') = (pending (db w) ++ added)%list
         /\ incl added records_data
         /\ forall n d, r = Ok (n, d) ->
                        n = (insertados + List.length added)%nat.
Proof.
  induction records_data as [|record rest IH];
    intros insertados duplicados w w' r H.
  - cbn in H. unfold ret in H. injection H as <- <-.
    split; [apply same_outside_db_refl|]. split; [reflexivity|].
    exists []. rewrite app_nil_r. split; [reflexivity|].
    split; [apply incl_refl|].
    intros n d E. injection E as <- _. cbn. lia.
  - cbn [insert_each] in H. unfold bind at 1 in H.
    destruct (verificar_duplicado_spec record w)
      as (w1 & (Hc1 & Hp1 & Ho1) & _ & Hv).
    rewrite Hv in H. clear Hv.
    match type of H with
    | (if ?b then _ else _) _ = _ => destruct b
    end.
    + destruct (IH _ _ _ _ _ H) as (Ho & Hc & added & Hp & Hincl & Hn).
      split; [eapply same_outside_db_trans; eassumption|].
      split; [congruence|].
      exists added. split; [congruence|].
      split; [apply incl_tl; assumption|assumption].
    + unfold bind at 1 in H.
      destruct (execute_insert record w1) as [[[]|e] w2] eqn:E;
        destruct (execute_insert_spec _ _ _ _ E) as (Ho2 & Hc2 & Hp2 & _).
      * destruct (IH _ _ _ _ _ H) as (Ho & Hc & added & Hp & Hincl & Hn).
        split; [eauto using same_outside_db_trans|].
        split; [congruence|].
        exists (record :: added).
        split; [rewrite Hp, Hp2, Hp1, <- app_assoc; reflexivity|].
        split; [apply incl_cons; [left; reflexivity|apply incl_tl; assumption]|].
        intros n d En. rewrite (Hn n d En). cbn [List.length]. lia.
      * injection H as <- <-.
        split; [eauto using same_outside_db_trans|].
        split; [congruence|].
        exists []. rewrite app_nil_r in *.
        split; [congruence|]. split; [apply incl_nil_l|].
        intros n d En. discriminate En.
Qed.

Lemma insertar_plain_outcome (self : DatabaseConnection)
    (records_data : list Persona.Row) (w w' : World) (r : result nat) :
  insertar_personas_transformadas_plain self records_data w = (r, w') ->
  same_outside_db w w' /\ pending (db w') = []
  /\ match r with
     | Ok n =>
         exists added,
           committed (db w')
           = (committed (db w) ++ pending (db w) ++ added)%list
           /\ incl added records_data /\ n = List.length added
     | Raise _ => committed (db w') = committed (db w)
     end.
Proof.
  unfold insertar_personas_transformadas_plain, try_except. intros H.
  unfold bind at 1 in H.
  destruct (db_statement w) as [[[]|e0] w0] eqn:E0;
    destruct (db_statement_rows _ _ _ E0) as (Hc0 & Hp0 & Ho0).
  2:{ unfold bind, rollback, raise in H. injection H as <- <-. cbn.
      split; [eauto using same_outside_db_trans, same_outside_db_set_db|].
      split; [reflexivity|assumption]. }
  unfold bind at 1 in H.
  destruct (insert_each records_data 0 0 w0) as [[[n d]|e1] w1] eqn:E1;
    destruct (insert_each_spec _ _ _ _ _ _ E1)
      as (Ho1 & Hc1 & added & Hp1 & Hincl & Hn).
  2:{ unfold bind, rollback, raise in H. injection H as <- <-. cbn.
      split; [eauto using same_outside_db_trans, same_outside_db_set_db|].
      split; [reflexivity|congruence]. }
  unfold bind at 1 in H.
  destruct (commit w1) as [[[]|e2] w2] eqn:E2;
    destruct (commit_spec _ _ _ E2) as (Ho2 & Hc2 & Hp2).
  2:{ unfold bind, rollback, raise in H. injection H as <- <-. cbn.
      split; [eauto using same_outside_db_trans, same_outside_db_set_db|].
      split; [reflexivity|congruence]. }
  unfold ret in H. injection H as <- <-.
  split; [eauto using same_outside_db_trans|].
  split; [assumption|].
  exists added. split; [|split; [assumption|apply (Hn n d eq_refl)]].
  rewrite Hc2, Hc1, Hp1, Hc0, Hp0. reflexivity.
Qed.

(** The plain insert is all or nothing.  When it returns [n], the rows of
    the open transaction and [n] records of the input have been committed,
    in that order; when it raises, the transaction has been rolled back: the
    committed rows are those from before the call and nothing is pending.
    Nothing outside the database is touched either way. *)
Theorem plain_insert_all_or_nothing (self : DatabaseConnection)
    (records_data : list Persona.Row) (w w' : World) (r : result nat) :
  insertar_personas_transformadas_plain self records_data w = (r, w') ->
  same_outside_db w w' /\ pending (db w') = []
  /\ match r with
     | Ok n =>
         exists added,
           committed (db w')
           = (committed (db w) ++ pending (db w) ++ added)%list
           /\ incl added records_data /\ n = List.length added
     | Raise _ => committed (db w') = committed (db w)
     end.
Proof. apply insertar_plain_outcome. Qed.

Lemma execute_insert_healthy (record : Persona.Row) (w : World) :
  faults (db w) = [] ->
  execute_insert record w
  = (Ok tt,
     set_db (mkDB (committed (db w)) (pending (db w) ++ [record]) []) w).
Proof.
  intros H. unfold execute_insert, bind. rewrite db_statement_healthy by assumption.
  rewrite H. reflexivity.
Qed.

(** The loop of the plain insert over a working connection: every record is
    compared with the rows the connection sees, its own inserts included. *)
Lemma insert_each_healthy (records_data : list Persona.Row) :
  forall (insertados duplicados : nat) (w : World),
    faults (db w) = [] ->
    exists added d w',
      insert_each records_data insertados duplicados w
      = (Ok ((insertados + List.length added)%nat, d), w')
      /\ faults (db w') = [] /\ same_outside_db w w'
      /\ committed (db w') = committed (db w)
      /\ pending (db w') = (pending (db w) ++ added)%list
      /\ incl added records_data
      /\ (forall r, In r records_data ->
            in_table r (visible_rows (db w')) = true)
      /\ (distinct_keys (visible_rows (db w)) ->
          distinct_keys (visible_rows (db w'))).
Proof.
  induction records_data as [|record rest IH];
    intros insertados duplicados w H.
  - exists [], duplicados, w. cbn [insert_each List.length].
    rewrite Nat.add_0_r, app_nil_r.
    split; [reflexivity|]. split; [assumption|].
    split; [apply same_outside_db_refl|]. split; [reflexivity|].
    split; [reflexivity|]. split; [apply incl_refl|].
    split; [intros r []|auto].
  - cbn [insert_each]. unfold bind at 1.
    rewrite verificar_duplicado_healthy by assumption.
    destruct (in_table record (visible_rows (db w))) eqn:Ein.
    + destruct (IH insertados (S duplicados) w H)
        as (added & d & w' & Hrun & Hf & Ho & Hc & Hp & Hincl & Hall & Hd).
      exists added, d, w'. rewrite Hrun.
      split; [reflexivity|]. split; [assumption|]. split; [assumption|].
      split; [assumption|]. split; [assumption|].
      split; [apply incl_tl; assumption|]. split; [|assumption].
      intros r [<-|Hr]; [|auto].
      unfold visible_rows in *. rewrite Hc, Hp, app_assoc.
      apply in_table_app. assumption.
    + unfold bind at 1. rewrite execute_insert_healthy by assumption.
      set (w1 := set_db (mkDB (committed (db w)) (pending (db w) ++ [record])
                           []) w).
      destruct (IH (S insertados) duplicados w1 eq_refl)
        as (added & d & w' & Hrun & Hf & Ho & Hc & Hp & Hincl & Hall & Hd).
      exists (record :: added), d, w'. rewrite Hrun.
      cbn [List.length]. rewrite Nat.add_succ_r.
      split; [reflexivity|]. split; [assumption|].
      split; [eapply same_outside_db_trans; [|eassumption];
              apply same_outside_db_set_db|].
      split; [assumption|].
      split; [rewrite Hp; cbn; rewrite <- app_assoc; reflexivity|].
      split; [apply incl_cons; [left; reflexivity|apply incl_tl; assumption]|].
      split.
      * intros r [<-|Hr]; [|auto].
        unfold visible_rows. rewrite Hc, Hp. cbn [db set_db w1 committed pending].
        rewrite !app_assoc. apply in_table_app, in_table_added.
        left. reflexivity.
      * intros Hdist. apply Hd. unfold visible_rows. cbn.
        rewrite app_assoc. apply distinct_keys_snoc; assumption.
Qed.

Lemma insert_each_all_present (records_data : list Persona.Row) :
  forall (insertados duplicados : nat) (w : World),
    faults (db w) = [] ->
    (forall r, In r records_data ->
       in_table r (visible_rows (db w)) = true) ->
    exists d,
      insert_each records_data insertados duplicados w
      = (Ok (insertados, d), w).
Proof.
  induction records_data as [|record rest IH];
    intros insertados duplicados w H Hall.
  - exists duplicados. reflexivity.
  - cbn [insert_each]. unfold bind at 1.
    rewrite verificar_duplicado_healthy by assumption.
    rewrite (Hall record) by (left; reflexivity).
    apply IH; [assumption|]. intros r Hr. apply Hall. right. assumption.
Qed.

(** Over a working connection the plain insert compares every record with
    the rows the connection sees at that moment, its own earlier inserts
    among them.  So afterwards every record of the input has its key in the
    table, a table whose keys were distinct still has distinct keys (a
    record repeated in the input is inserted once), and a second insert of
    the same records adds nothing and reports 0. *)
Theorem plain_insert_keeps_keys_distinct (self : DatabaseConnection)
    (records_data : list Persona.Row) (w : World) :
  faults (db w) = [] ->
  exists added w',
    insertar_personas_transformadas_plain self records_data w
    = (Ok (List.length added), w')
    /\ committed (db w') = (visible_rows (db w) ++ added)%list
    /\ pending (db w') = []
    /\ incl added records_data
    /\ (forall r, In r records_data -> in_table r (committed (db w')) = true)
    /\ (distinct_keys (visible_rows (db w)) ->
        distinct_keys (committed (db w')))
    /\ exists w'',
         insertar_personas_transformadas_plain self records_data w'
         = (Ok 0%nat, w'')
         /\ committed (db w'') = committed (db w')
         /\ pending (db w'') = [].
Proof.
  intros H.
  destruct (insert_each_healthy records_data 0 0 w H)
    as (added & d & w1 & Hrun & Hf & Ho & Hc & Hp & Hincl & Hall & Hd).
  set (w' := set_db (mkDB (committed (db w1) ++ pending (db w1)) [] []) w1).
  assert (Hvis : committed (db w') = visible_rows (db w1)) by reflexivity.
  exists added, w'.
  split.
  { unfold insertar_personas_transformadas_plain, try_except.
    unfold bind at 1. rewrite db_statement_healthy by assumption.
    unfold bind at 1. rewrite Hrun.
    unfold bind at 1. rewrite commit_healthy by assumption. reflexivity. }
  split.
  { rewrite Hvis. unfold visible_rows. rewrite Hc, Hp, app_assoc.
    reflexivity. }
  split; [reflexivity|]. split; [assumption|].
  split; [intros r Hr; rewrite Hvis; auto|].
  split; [intros Hdist; rewrite Hvis; auto|].
  destruct (insert_each_all_present records_data 0 0 w' eq_refl) as (d2 & Hrun2).
  { intros r Hr. unfold visible_rows. cbn [db set_db w' committed pending].
    rewrite app_nil_r. apply Hall. assumption. }
  eexists.
  split.
  { unfold insertar_personas_transformadas_plain, try_except.
    unfold bind at 1. rewrite db_statement_healthy by reflexivity.
    unfold bind at 1. rewrite Hrun2.
    unfold bind at 1. rewrite commit_healthy by reflexivity. reflexivity. }
  split; [cbn; apply app_nil_r|reflexivity].
Qed.

(** ** The bulk insert *)

Lemma one_batch {A} (l : list A) (step : nat) :
  l <> [] -> (List.length l <= step)%nat ->
  List.map (fun i => slice l i (i + step)) (range_step (List.length l) step)
  = [l].
Proof.
  intros Hne Hlen. unfold range_step.
  assert (Hpos : (0 < List.length l)%nat).
  { destruct l; [congruence|cbn; lia]. }
  replace ((List.length l + step - 1) / step)%nat with 1%nat.
  - cbn [seq List.map]. unfold slice. rewrite Nat.mul_0_l, Nat.add_0_l, Nat.sub_0_r.
    cbn [skipn]. rewrite firstn_all2 by assumption. reflexivity.
  - apply Nat.div_unique with (r := (List.length l - 1)%nat); lia.
Qed.

(** Within one batch the bulk insert does not compare the records with each
    other: it checks each of them against the table and only then sends the
    batch.  So, over a working connection, a batch none of whose records is
    in the table is inserted whole, whether or not it repeats a record. *)
Theorem bulk_batch_is_not_compared (self : DatabaseConnectionOptimized)
    (records_data : list Persona.Row) (batch_size : nat) (w : World) :
  faults (db w) = [] ->
  records_data <> [] -> (List.length records_data <= batch_size)%nat ->
  (forall r, In r records_data ->
     in_table r (visible_rows (db w)) = false) ->
  exists w',
    insertar_personas_transformadas_bulk self records_data batch_size w
    = (Ok (List.length records_data), w')
    /\ committed (db w') = (visible_rows (db w) ++ records_data)%list
    /\ pending (db w') = [].
Proof.
  intros H Hne Hlen Hnew.
  unfold insertar_personas_transformadas_bulk, try_except,
    insertar_personas_transformadas_bulk_try.
  destruct records_data as [|r0 rs] eqn:Er; [congruence|]. rewrite <- Er in *.
  unfold bind at 1. rewrite db_statement_healthy by assumption.
  destruct batch_size as [|bs].
  { exfalso. rewrite Er in Hlen. cbn in Hlen. lia. }
  unfold bind at 1, ret at 1.
  rewrite one_batch by assumption.
  cbn [insert_batches]. unfold bind at 1. unfold bind at 1.
  destruct (prepare_batch_healthy records_data w H) as (d & ->).
  replace (filter (fun r => negb (in_table r (visible_rows (db w))))
             records_data) with records_data.
  2:{ symmetry. apply forallb_filter_id. apply forallb_forall.
      intros r Hr. rewrite Hnew by assumption. reflexivity. }
  replace (match records_data with
           | [] => ret 0%nat
           | _ :: _ => executemany records_data
           end) with (executemany records_data) by (rewrite Er; reflexivity).
  unfold bind at 1. rewrite executemany_healthy by assumption.
  unfold ret at 1. unfold bind at 1. rewrite commit_healthy by reflexivity.
  eexists. split; [reflexivity|].
  split; [cbn; unfold visible_rows; rewrite app_assoc; reflexivity|reflexivity].
Qed.

(** The edges of the bulk insert.  An empty list of records returns 0
    before the connection is used at all, whatever its state and whatever
    the batch size.  A batch size of 0 with records to insert makes
    [range] raise: the call raises, after a rollback, and no row has been
    added to the table. *)
Theorem bulk_insert_edge_inputs (self : DatabaseConnectionOptimized)
    (batch_size : nat) (record : Persona.Row) (rest : list Persona.Row)
    (w : World) :
  insertar_personas_transformadas_bulk self [] batch_size w = (Ok 0%nat, w)
  /\ exists e w',
       insertar_personas_transformadas_bulk self (record :: rest) 0 w
       = (Raise e, w')
       /\ (faults (db w) = [] ->
           e = ValueError "range() arg 3 must not be zero")
       /\ committed (db w') = committed (db w)
       /\ pending (db w') = [].
Proof.
  split; [reflexivity|].
  unfold insertar_personas_transformadas_bulk, try_except,
    insertar_personas_transformadas_bulk_try, bind, db_statement, raise,
    rollback.
  destruct (faults (db w)) as [|[|] fs] eqn:E; cbv beta iota;
    eexists; eexists; (split; [reflexivity|]);
    (split; [intros H; first [discriminate H|reflexivity]|]);
    split; reflexivity.
Qed.

(** ** The loader *)

Lemma same_outside_files_refl (w : World) : same_outside_files w w.
Proof. unfold same_outside_files. repeat split; reflexivity. Qed.

Lemma same_outside_files_trans (w1 w2 w3 : World) :
  same_outside_files w1 w2 -> same_outside_files w2 w3 ->
  same_outside_files w1 w3.
Proof. unfold same_outside_files. intuition congruence. Qed.

Lemma write_file_outside (s : sink) (path : string) (content : artifact) :
  preserves same_outside_files (write_file s path content).
Proof.
  intros w r w' H. unfold write_file in H.
  destruct (sink_fault w s); injection H as _ <-;
    [apply same_outside_files_refl|].
  unfold same_outside_files. cbn. repeat split; reflexivity.
Qed.

Lemma get_timestamp_for_filename_outside :
  preserves same_outside_files get_timestamp_for_filename.
Proof.
  intros w r w' H. injection H as _ <-. apply same_outside_files_refl.
Qed.

Lemma _prepare_dataframe_for_database_outside (df : list Canon.Row) :
  preserves same_outside_files (_prepare_dataframe_for_database df).
Proof.
  intros w r w' H.
  destruct (_prepare_dataframe_for_database_total df w) as (records & E & _).
  rewrite E in H. injection H as _ <-. apply same_outside_files_refl.
Qed.

Ltac outside_files :=
  repeat first
    [exact same_outside_files_trans
    |exact same_outside_files_refl
    |apply write_file_outside
    |apply get_timestamp_for_filename_outside
    |apply _prepare_dataframe_for_database_outside
    |apply preserves_ret
    |apply preserves_raise
    |apply preserves_bind
    |apply preserves_try_except
    |match goal with
     | |- forall _, preserves _ _ => intro
     | |- preserves _ (let '(_, _) := ?v in _) => destruct v
     | |- preserves _ (if ?b then _ else _) => destruct b
     end].

Lemma write_files_outside (df : list Canon.Row) :
  preserves same_outside_files (write_files df).
Proof.
  unfold write_files, attempt, save_to_json, save_to_parquet, save_to_csv,
    generate_sql_insert_script, create_data_summary.
  outside_files.
Qed.

(** The load over the plain connection, started with no open transaction:
    it returns a result, it adds to the committed rows the records it
    reports, and it leaves the clock, the rate service and the cache alone. *)
Lemma load_plain_outcome (df : list Canon.Row)
    (db_manager : option DatabaseConnection) (w : World) :
  pending (db w) = [] ->
  exists result w' added,
    load_otaku_data df db_manager None w = (Ok result, w')
    /\ committed (db w') = (committed (db w) ++ added)%list
    /\ pending (db w') = []
    /\ database_records result = List.length added
    /\ (db_manager = None -> added = [])
    /\ api_calls w' = api_calls w /\ api w' = api w /\ now w' = now w
    /\ cache_file w' = cache_file w.
Proof.
  intros Hp. rewrite load_otaku_data_eq.
  destruct (write_files_eq df w) as (w1 & Hfiles & _ & _).
  rewrite Hfiles.
  destruct (write_files_outside df _ _ _ Hfiles)
    as (Hdb & Hnow & _ & [Hapi _] & Hcalls & Hcache & _).
  destruct db_manager as [m|].
  - unfold load_to_database.
    destruct (_prepare_dataframe_for_database_total df w1)
      as (records & Hprep & _).
    unfold bind at 1. rewrite Hprep.
    cbn [insertar_personas_transformadas DatabaseConnection_DbManager].
    unfold bind.
    destruct (insertar_personas_transformadas_plain m records w1)
      as [[n|e] w2] eqn:E;
      destruct (insertar_plain_outcome _ _ _ _ _ E)
        as ((Hnow2 & [Hapi2 _] & Hcalls2 & Hcache2 & _) & Hp2 & Hr).
    + destruct Hr as (added & Hc & _ & ->).
      unfold ret. eexists. exists w2, added. split; [reflexivity|].
      split; [rewrite Hc, Hdb, Hp; reflexivity|].
      split; [assumption|]. split; [reflexivity|].
      split; [discriminate|]. repeat split; congruence.
    + eexists. exists w2, []. split; [reflexivity|].
      split; [rewrite Hr, Hdb, app_nil_r; reflexivity|].
      split; [assumption|]. split; [reflexivity|].
      split; [discriminate|]. repeat split; congruence.
  - eexists. exists w1, []. split; [reflexivity|].
    split; [rewrite Hdb, app_nil_r; reflexivity|].
    split; [rewrite Hdb; assumption|]. split; [reflexivity|].
    split; [reflexivity|]. repeat split; congruence.
Qed.

(** ** The pipeline of the API server *)

Lemma after_reset_same (db_connection : option DatabaseConnection)
    (w : World) :
  match db_connection with
  | Some _ => rollback
  | None => ret tt
  end w = (Ok tt, after_reset db_connection w).
Proof. destruct db_connection; reflexivity. Qed.

Lemma load_plain_requests (df : list Canon.Row)
    (db_manager : option DatabaseConnection) (w w' : World)
    (r : result LoadResult) :
  load_otaku_data df db_manager None w = (r, w') ->
  api w' = api w /\ api_calls w' = api_calls w /\ now w' = now w
  /\ cache_file w' = cache_file w.
Proof.
  rewrite load_otaku_data_eq.
  destruct (write_files_eq df w) as (w1 & Hfiles & _ & _).
  rewrite Hfiles.
  destruct (write_files_outside df _ _ _ Hfiles)
    as (Hdb & Hnow & _ & [Hapi _] & Hcalls & Hcache & _).
  destruct db_manager as [m|].
  - unfold load_to_database.
    destruct (_prepare_dataframe_for_database_total df w1)
      as (records & Hprep & _).
    unfold bind at 1. rewrite Hprep.
    cbn [insertar_personas_transformadas DatabaseConnection_DbManager].
    unfold bind.
    destruct (insertar_personas_transformadas_plain m records w1)
      as [[n|e] w2] eqn:E;
      destruct (insertar_plain_outcome _ _ _ _ _ E)
        as ((Hnow2 & [Hapi2 _] & Hcalls2 & Hcache2 & _) & _);
      intros H; injection H as _ <-; repeat split; congruence.
  - intros H; injection H as _ <-. repeat split; congruence.
Qed.

Lemma process_etl_pipeline_eq (db_connection : option DatabaseConnection)
    (input_file : result Raw.DataFrame) (insert_to_database : bool)
    (w : World) :
  process_etl_pipeline TRMService_init db_connection input_file
    insert_to_database w
  = pipeline_outcome db_connection input_file insert_to_database w.
Proof.
  unfold process_etl_pipeline, try_except, process_etl_pipeline_try,
    pipeline_outcome.
  unfold bind at 1. rewrite after_reset_same.
  set (w0 := after_reset db_connection w).
  assert (Hnow : now w0 = now w) by (destruct db_connection; reflexivity).
  assert (Hapi : api w0 = api w) by (destruct db_connection; reflexivity).
  assert (Hlater : api_later w0 = api_later w)
    by (destruct db_connection; reflexivity).
  unfold extract_otaku_data, transform_otaku_data, bind, lift, ret, raise.
  destruct input_file as [df|e]; [|reflexivity].
  destruct (Raw.rows df) as [|r0 rows] eqn:Erows; [reflexivity|].
  cbv beta iota.
  destruct (_validate_otaku_data df) as [[]|e]; [|reflexivity].
  rewrite Erows. cbv beta iota.
  rewrite transform_data_outcome. unfold transform_outcome.
  destruct (_clean_data df) as [cleaned|e]; [|reflexivity].
  cbn [resolve_trm obtener_trm_actual TRMService_RateService].
  rewrite TRMService_obtener_trm_actual_eq.
  cbn [now request_made fallback_trm_of TRMService_init].
  rewrite Hnow, Hapi.
  destruct (float (rate_of_outcome fallback_trm (api w))) as [trm_float|e];
    [|reflexivity].
  destruct cleaned as [|c cleaned]; [reflexivity|].
  cbn [List.map].
  match goal with
  | |- context [load_otaku_data ?d ?m None ?w1] =>
      destruct (load_otaku_data d m None w1) as [[load_result|e] w2] eqn:El;
      [|reflexivity];
      destruct (load_plain_requests _ _ _ _ _ El) as (Hapi2 & _)
  end.
  rewrite TRMService_obtener_trm_actual_eq.
  cbn [fallback_trm_of TRMService_init]. rewrite Hapi2.
  cbn [api request_made]. rewrite Hlater. reflexivity.
Qed.

Lemma load_never_raises {D} {DM : DbManager D} (df : list Canon.Row)
    (db_manager : option D) (cloud_service : option CloudStorageService)
    (w : World) :
  exists result w',
    load_otaku_data df db_manager cloud_service w = (Ok result, w').
Proof.
  rewrite load_otaku_data_eq.
  destruct (write_files_eq df w) as (w1 & -> & _).
  destruct db_manager as [m|]; [|eauto].
  destruct (load_to_database df m w1) as [[n|e] w2]; eauto.
Qed.

Lemma load_without_database (df : list Canon.Row) (w : World) :
  exists result w',
    load_otaku_data (D := DatabaseConnection) df None None w = (Ok result, w')
    /\ db w' = db w /\ database_records result = 0%nat.
Proof.
  rewrite load_otaku_data_eq.
  destruct (write_files_eq df w) as (w1 & -> & ((Hdb & _) & _) & _).
  eexists. exists w1. split; [reflexivity|]. split; [assumption|reflexivity].
Qed.

Lemma _clean_data_of_no_rows (df : Raw.DataFrame) (cleaned : list Work.Row) :
  Raw.rows df = [] -> _clean_data df = Ok cleaned -> cleaned = [].
Proof.
  intros Hrows H. apply _clean_data_survivors in H.
  destruct H as (_ & _ & ->). unfold survivors. rewrite Hrows. reflexivity.
Qed.

(** The pipeline of the API server always returns a report.  The report is
    a success exactly when the file was read, the validation of the
    extractor let the frame through, cleaning left at least one row and the
    rate that was fetched is not a signalling NaN; whether the files could be
    written and whether the database took the rows does not enter.  A
    successful run has asked the rate service twice, once for the
    transformation and once more for the [trm_used] of the report: every
    record carries the float of the rate of the first answer, and [trm_used]
    is the rate of the second answer, whatever the first was.  A failed run
    has written no file and committed no row, and has asked for the rate
    once at most. *)
Theorem pipeline_reports_and_requests
    (db_connection : option DatabaseConnection)
    (input_file : result Raw.DataFrame) (insert_to_database : bool)
    (w : World) :
  exists report w',
    process_etl_pipeline TRMService_init db_connection input_file
      insert_to_database w = (Ok report, w')
    /\ (pipeline_success report = true
        <-> exists df cleaned,
              input_file = Ok df /\ _validate_otaku_data df = Ok tt
              /\ _clean_data df = Ok cleaned /\ cleaned <> []
              /\ rate_of_outcome fallback_trm (api w) <> DecSNaN)
    /\ match report with
       | ReportSuccess data records_processed trm_used _ _ =>
           api_calls w' = S (S (api_calls w))
           /\ records_processed = List.length data
           /\ trm_used = rate_of_outcome fallback_trm (api_later w 0)
           /\ exists trm_float,
                float (rate_of_outcome fallback_trm (api w)) = Ok trm_float
                /\ Forall (fun r => Canon.trm_utilizada r
                                    = F64.cell trm_float) data
       | ReportFailure _ =>
           (api_calls w' <= S (api_calls w))%nat
           /\ output_dir w' = output_dir w
           /\ committed (db w') = committed (db w)
       end.
Proof.
  rewrite process_etl_pipeline_eq. unfold pipeline_outcome.
  set (w0 := after_reset db_connection w).
  assert (H0 : api_calls w0 = api_calls w /\ output_dir w0 = output_dir w
               /\ committed (db w0) = committed (db w))
    by (destruct db_connection; repeat split; reflexivity).
  destruct H0 as (Hcalls & Hdir & Hcom).
  destruct input_file as [df|e].
  2:{ eexists. eexists. split; [reflexivity|]. split.
      - split; [discriminate|]. intros (df & c & H & _). discriminate H.
      - rewrite Hcalls. auto. }
  destruct (Raw.rows df) as [|r0 rows] eqn:Erows.
  { eexists. eexists. split; [reflexivity|]. split.
    - split; [discriminate|]. intros (df' & c & H & _ & Hc & Hne & _).
      injection H as <-. exfalso. apply Hne.
      eapply _clean_data_of_no_rows; eassumption.
    - rewrite Hcalls. auto. }
  destruct (_validate_otaku_data df) as [[]|e] eqn:Evalid.
  2:{ eexists. eexists. split; [reflexivity|]. split.
      - split; [discriminate|]. intros (df' & c & H & Hv & _).
        injection H as <-. congruence.
      - rewrite Hcalls. auto. }
  destruct (_clean_data df) as [cleaned|e] eqn:Eclean.
  2:{ eexists. eexists. split; [reflexivity|]. split.
      - split; [discriminate|]. intros (df' & c & H & _ & Hc & _).
        injection H as <-. congruence.
      - rewrite Hcalls. auto. }
  destruct (float (rate_of_outcome fallback_trm (api w)))
    as [trm_float|e] eqn:Efloat.
  2:{ eexists. eexists. split; [reflexivity|]. split.
      - split; [discriminate|]. intros (df' & c & _ & _ & _ & _ & Hr).
        apply float_raises in Efloat. destruct Efloat as [E _].
        contradiction.
      - cbn [api_calls request_made output_dir db]. rewrite Hcalls. auto. }
  destruct cleaned as [|c cleaned].
  { eexists. eexists. split; [reflexivity|]. split.
    - split; [discriminate|]. intros (df' & c & H & _ & Hc & Hne & _).
      injection H as <-. congruence.
    - cbn [api_calls request_made output_dir db]. rewrite Hcalls. auto. }
  match goal with
  | |- context [load_otaku_data ?d ?m None ?w1] =>
      destruct (load_never_raises d m None w1) as (res & w2 & El);
      rewrite El;
      destruct (load_plain_requests _ _ _ _ _ El) as (_ & Hcalls2 & _)
  end.
  eexists. eexists. split; [reflexivity|]. split.
  - split; [|reflexivity]. intros _. exists df, (c :: cleaned).
    split; [reflexivity|]. split; [assumption|].
    split; [assumption|]. split; [discriminate|].
    intros E. rewrite E in Efloat. discriminate Efloat.
  - cbn [api_calls request_made]. rewrite Hcalls2.
    cbn [api_calls request_made]. rewrite Hcalls.
    split; [reflexivity|]. split; [reflexivity|]. split; [reflexivity|].
    exists trm_float. split; [reflexivity|].
    apply Forall_forall. intros r Hr. apply in_map_iff in Hr.
    destruct Hr as (x & <- & _). reflexivity.
Qed.

(** What the pipeline of the API server does to the table, for a file whose
    frame passes the validation of the extractor.  The rows it
    reports as inserted are exactly the rows it has added to the committed
    ones, and [database_inserted] says whether there is one; with
    [insert_to_database] off, without a connection, or when the run or the
    insert fails, it adds none.  With a connection, the transaction that was
    open before the run is discarded and none is left open. *)
Theorem pipeline_database_effect (db_connection : option DatabaseConnection)
    (input_file : result Raw.DataFrame) (insert_to_database : bool)
    (w w' : World) (report : PipelineReport) :
  accepted_by_extractor input_file ->
  process_etl_pipeline TRMService_init db_connection input_file
    insert_to_database w = (Ok report, w') ->
  exists added,
    committed (db w') = (committed (db w) ++ added)%list
    /\ (db_connection <> None -> pending (db w') = [])
    /\ (db_connection = None -> db w' = db w)
    /\ (insert_to_database = false -> added = [])
    /\ match report with
       | ReportSuccess _ _ _ database_inserted records_inserted =>
           records_inserted = List.length added
           /\ database_inserted = (0 <? List.length added)%nat
       | ReportFailure _ => added = []
       end.
Proof.
  intros _.
  rewrite process_etl_pipeline_eq. unfold pipeline_outcome.
  set (w0 := after_reset db_connection w).
  assert (H0 : committed (db w0) = committed (db w)
               /\ (db_connection <> None -> pending (db w0) = [])
               /\ (db_connection = None -> w0 = w)).
  { destruct db_connection; repeat split; try reflexivity; congruence. }
  destruct H0 as (Hcom & Hpen & Hnone).
  assert (Hfail : forall msg w1,
            db w1 = db w0 ->
            (Ok (ReportFailure msg), w1) = (Ok report, w') ->
            exists added,
              committed (db w') = (committed (db w) ++ added)%list
              /\ (db_connection <> None -> pending (db w') = [])
              /\ (db_connection = None -> db w' = db w)
              /\ (insert_to_database = false -> added = [])
              /\ match report with
                 | ReportSuccess _ _ _ database_inserted records_inserted =>
                     records_inserted = List.length added
                     /\ database_inserted = (0 <? List.length added)%nat
                 | ReportFailure _ => added = []
                 end).
  { intros msg w1 Hdb H. injection H as <- <-. exists [].
    rewrite app_nil_r, Hdb. split; [assumption|].
    split; [assumption|]. split; [intros E; rewrite (Hnone E); reflexivity|].
    auto. }
  destruct input_file as [df|e]; [|apply Hfail; reflexivity].
  destruct (Raw.rows df) as [|r0 rows]; [apply Hfail; reflexivity|].
  destruct (_validate_otaku_data df) as [[]|e];
    [|apply Hfail; reflexivity].
  destruct (_clean_data df) as [cleaned|e]; [|apply Hfail; reflexivity].
  destruct (float (rate_of_outcome fallback_trm (api w)))
    as [trm_float|e]; [|apply Hfail; reflexivity].
  destruct cleaned as [|c cleaned]; [apply Hfail; reflexivity|].
  clear Hfail.
  set (w1 := request_made w0).
  assert (Hdb1 : db w1 = db w0) by reflexivity.
  set (data := List.map _ (c :: cleaned)).
  destruct insert_to_database, db_connection as [conn|].
  - destruct (load_plain_outcome data (Some conn) w1)
      as (res & w2 & added & El & Hc & Hp & Hn & _);
      [rewrite Hdb1; apply Hpen; discriminate|].
    rewrite El. intros H. injection H as <- <-. exists added.
    cbn [db request_made]. rewrite Hc, Hdb1, Hcom, Hn.
    split; [reflexivity|]. split; [auto|].
    split; [discriminate|]. split; [discriminate|]. split; reflexivity.
  - destruct (load_without_database data w1) as (res & w2 & El & Hdb & Hn).
    rewrite El. intros H. injection H as <- <-. exists [].
    cbn [db request_made]. rewrite app_nil_r, Hdb, Hdb1, Hn, (Hnone eq_refl).
    split; [reflexivity|]. split; [congruence|].
    split; [reflexivity|]. split; [reflexivity|]. split; reflexivity.
  - destruct (load_without_database data w1) as (res & w2 & El & Hdb & Hn).
    rewrite El. intros H. injection H as <- <-. exists [].
    cbn [db request_made]. rewrite app_nil_r, Hdb, Hdb1.
    split; [assumption|]. split; [assumption|].
    split; [discriminate|]. split; [reflexivity|]. split; reflexivity.
  - destruct (load_without_database data w1) as (res & w2 & El & Hdb & Hn).
    rewrite El. intros H. injection H as <- <-. exists [].
    cbn [db request_made]. rewrite app_nil_r, Hdb, Hdb1, (Hnone eq_refl).
    split; [reflexivity|]. split; [congruence|].
    split; [reflexivity|]. split; [reflexivity|]. split; reflexivity.
Qed.

(** ** Loading an empty frame *)

(** A frame without records, which the optimised orchestrator hands on as
    it is, is loaded without an exception: the JSON, Parquet, CSV and SQL
    files are written when their I/O works, the summary is not, because
    [int] of the minimum of an empty age column raises, and that message is
    in the errors; the bulk insert returns 0 before it uses the connection,
    so the database is as it was. *)
Theorem load_of_empty_frame (db_manager : option DatabaseConnectionOptimized)
    (cloud_service : option CloudStorageService) (w : World) :
  exists result w',
    load_otaku_data [] db_manager cloud_service w = (Ok result, w')
    /\ summary_file result = None
    /\ In "Error creando resumen: cannot convert float NaN to integer"
          (errors result)
    /\ database_records result = 0%nat
    /\ db w' = db w
    /\ forall s, s <> SSummary -> sink_fault w s = None ->
         file_of s result = Some (sink_path s (now w))
         /\ In (sink_path s (now w)) (file_names w').
Proof.
  rewrite load_otaku_data_eq.
  destruct (write_files_eq [] w) as (w1 & -> & ((Hdb & _) & _) & Hin).
  assert (Hsum : In "Error creando resumen: cannot convert float NaN to integer"
                    (errors (files_result [] w))).
  { unfold files_result, writer_outcome. cbn [errors writer_fault forallb].
    apply in_or_app. right. left. reflexivity. }
  assert (Hfiles : forall s, s <> SSummary -> sink_fault w s = None ->
            file_of s (files_result [] w) = Some (sink_path s (now w))
            /\ In (sink_path s (now w)) (file_names w1)).
  { intros s Hs Hf. split.
    - unfold files_result, writer_outcome.
      destruct s; try congruence;
        cbn [file_of json_file parquet_file csv_file sql_script writer_fault];
        rewrite Hf; reflexivity.
    - apply Hin. destruct s; try congruence; exact Hf. }
  assert (Hrec : forall n t,
            incl (errors (files_result [] w))
                 (errors (with_database_records (files_result [] w) n
                            cloud_service t))).
  { intros n t. unfold with_database_records.
    pose proof (cloud_step_keeps_errors cloud_service
                  (json_file (files_result [] w))
                  (errors (files_result [] w)) t) as Hk.
    destruct (cloud_step _ _ _ _). exact Hk. }
  assert (Hn : forall n t,
            database_records
              (with_database_records (files_result [] w) n cloud_service t)
            = n).
  { intros n t. unfold with_database_records.
    destruct (cloud_step _ _ _ _). reflexivity. }
  assert (Hs : forall n t,
            summary_file
              (with_database_records (files_result [] w) n cloud_service t)
            = None).
  { intros n t. unfold with_database_records.
    destruct (cloud_step _ _ _ _). reflexivity. }
  destruct db_manager as [m|].
  - change (load_to_database [] m w1) with (@Ok nat 0%nat, w1).
    eexists. exists w1. split; [reflexivity|].
    split; [apply Hs|]. split; [apply Hrec, Hsum|].
    split; [apply Hn|]. split; [assumption|].
    intros s Hne Hf. rewrite file_of_with_database_records. auto.
  - eexists. exists w1. split; [reflexivity|].
    split; [apply Hs|]. split; [apply Hrec, Hsum|].
    split; [apply Hn|]. split; [assumption|].
    intros s Hne Hf. rewrite file_of_with_database_records. auto.
Qed.

(** ** The key of the duplicate check *)

Lemma in_table_same_key (a b : Persona.Row) (table : list Persona.Row) :
  key_of a = key_of b -> in_table a table = in_table b table.
Proof. intros H. rewrite !in_table_key, H. reflexivity. Qed.

Lemma prepare_record_fields (row : Canon.Row) (w : World) :
  exists record,
    prepare_record row w = (Ok record, w)
    /\ key_of record = canon_key row
    /\ Persona.genero_es record = str_of_text (Canon.genero_es row).
Proof.
  unfold prepare_record.
  destruct (ensure_mysql_datetime_format_total
              (Some (Canon.fecha_procesamiento row)) w) as [s1 H1].
  unfold bind at 1. rewrite H1.
  destruct (ensure_mysql_datetime_format_total (Some s1) w) as [s2 H2].
  unfold bind at 1. rewrite H2.
  destruct (ensure_mysql_datetime_format_total None w) as [s3 H3].
  unfold bind at 1.
  destruct (strptime_mysql_ok py s2); [unfold ret at 1|rewrite H3];
    unfold ret; eexists; (split; [reflexivity|]); split; reflexivity.
Qed.

(** Of the record the loader sends to the table, the duplicate check sees
    the name, the age cut to an integer, an empty [genero_original] (the
    loader looks for a column 'Gender' or 'gender', which a transformed
    frame does not have) and the income.  Two records that agree on these
    are one record to the plain connection: loaded together over a working
    connection, the first is inserted and the second is held back as its
    duplicate, whatever their genders are. *)
Theorem load_merges_records_with_equal_keys (db_manager : DatabaseConnection)
    (r1 r2 : Canon.Row) (w : World) :
  faults (db w) = [] ->
  canon_key r1 = canon_key r2 ->
  key_in_table (canon_key r1) (visible_rows (db w)) = false ->
  exists p w',
    load_to_database [r1; r2] db_manager w = (Ok 1%nat, w')
    /\ committed (db w') = (visible_rows (db w) ++ [p])%list
    /\ pending (db w') = []
    /\ Persona.nombre p = py_str (Canon.nombre r1)
    /\ Persona.genero_original p = ""
    /\ Persona.genero_es p = str_of_text (Canon.genero_es r1).
Proof.
  intros H Hkey Hnew.
  destruct (prepare_record_fields r1 w) as (p1 & Hp1 & Hk1 & Hgen).
  destruct (prepare_record_fields r2 w) as (p2 & Hp2 & Hk2 & _).
  exists p1.
  assert (Hprep : _prepare_dataframe_for_database [r1; r2] w
                  = (Ok [p1; p2], w)).
  { cbn [_prepare_dataframe_for_database]. unfold bind, ret.
    rewrite Hp1, Hp2. reflexivity. }
  assert (Hdup : in_table p2 (visible_rows (db w) ++ [p1]) = true).
  { rewrite (in_table_same_key p2 p1) by congruence.
    apply in_table_added. left. reflexivity. }
  unfold load_to_database, bind at 1. rewrite Hprep.
  cbn [insertar_personas_transformadas DatabaseConnection_DbManager].
  unfold insertar_personas_transformadas_plain, try_except, bind.
  rewrite db_statement_healthy by assumption. cbn [insert_each].
  unfold bind. rewrite verificar_duplicado_healthy by assumption.
  rewrite in_table_key, Hk1, Hnew.
  rewrite execute_insert_healthy by assumption.
  rewrite verificar_duplicado_healthy by reflexivity.
  unfold visible_rows at 1. cbn [db set_db committed pending].
  rewrite app_assoc. fold (visible_rows (db w)). rewrite Hdup.
  unfold ret at 1. rewrite commit_healthy by reflexivity.
  eexists. split; [reflexivity|].
  split; [cbn; unfold visible_rows; rewrite app_assoc; reflexivity|].
  split; [reflexivity|].
  split; [exact (f_equal (fun k => fst (fst (fst k))) Hk1)|].
  split; [exact (f_equal (fun k => snd (fst k)) Hk1)|assumption].
Qed.

(** ** Saving and reading the rate *)

(** What is saved is read back.  After [save_trm_to_cache] has written the
    file, [get_cached_trm] returns the saved rate as long as less than the
    cache duration has passed since the save, and nothing from then on; the
    save itself returns normally and changes the cache file only.  The
    timestamp and the number are taken to survive their way through the
    JSON text. *)
Theorem cache_round_trip (self : TRMCache) (rate : Q) (w : World) :
  cache_writable w = true ->
  fromisoformat py (isoformat py (now w)) = Some (now w) ->
  Decimal_of_json py (JNum rate) = Some (Dec rate) ->
  exists w1,
    save_trm_to_cache self rate w = (Ok tt, w1)
    /\ db w1 = db w /\ output_dir w1 = output_dir w
    /\ api_calls w1 = api_calls w /\ now w1 = now w
    /\ forall w2,
         cache_file w2 = cache_file w1 ->
         get_cached_trm self w2
         = (Ok (if (now w2 - now w <? cache_duration self)%Z
                then Some (Dec rate) else None), w2).
Proof.
  intros Hw Hiso Hdec. rewrite save_trm_to_cache_total. cbn [json_float].
  rewrite Hw.
  eexists. split; [reflexivity|].
  split; [reflexivity|]. split; [reflexivity|]. split; [reflexivity|].
  split; [reflexivity|].
  intros w2 Hfile. eapply get_cached_trm_entry; [exact Hfile|].
  eexists. eexists. eexists. split; [reflexivity|].
  split; [reflexivity|]. split; [exact Hiso|].
  split; [reflexivity|exact Hdec].
Qed.

Lemma expected_rate_shape (data : json) (rate : Decimal) :
  expected_rate data = Some rate ->
  exists m rest v,
    data = JArr (JObj m :: rest) /\ PyStr.get m "valor" = Some v
    /\ Decimal_of_json py v = Some rate.
Proof.
  unfold expected_rate.
  destruct data as [|b|q|f|s|[|[|b|q|f|s|l|m] rest]|m]; try discriminate.
  destruct (PyStr.get m "valor") as [v|] eqn:E; [|discriminate].
  intros H. exists m, rest, v. auto.
Qed.

Lemma optimized_fetch_and_store (data : json) (rate : Q) (w : World) :
  api w = Body (Some data) -> expected_rate data = Some (Dec rate) ->
  cache_writable w = true ->
  get_cached_trm get_trm_cache w = (Ok None, w) ->
  TRMServiceOptimized_obtener_trm_actual (TRMServiceOptimized_init true) w
  = (Ok (Dec rate),
     set_cache_file
       (Stored (JObj [("timestamp", JStr (isoformat py (now w)));
                      ("trm_value", JNum rate)]))
       (request_made w)).
Proof.
  intros Hapi Hrate Hw Hmiss.
  destruct (expected_rate_shape data (Dec rate) Hrate)
    as (m & rest & v & -> & Hv & Hd).
  unfold TRMServiceOptimized_obtener_trm_actual.
  cbn [use_cache cache TRMServiceOptimized_init]. unfold bind at 1.
  rewrite Hmiss. unfold TRMServiceOptimized_fetch. run_fetch.
  rewrite Hapi. cbn [json_truthy json_len json_first List.length Nat.ltb Nat.leb].
  cbv beta iota. rewrite Hv. unfold Decimal_str. rewrite Hd.
  cbn [use_cache cache TRMServiceOptimized_init].
  rewrite save_trm_to_cache_total.
  cbn [json_float cache_writable request_made].
  rewrite Hw. reflexivity.
Qed.

(** The caching rate service asks the endpoint once.  When there is no fresh
    cache entry and the endpoint answers with a rate, the service returns
    that rate, has made one request and has stored the rate; a later call
    made less than 24 hours after that returns the same rate from the cache
    and makes no request, whatever the endpoint would answer then. *)
Theorem cached_rate_saves_the_request (data : json) (rate : Q) (w : World) :
  api w = Body (Some data) -> expected_rate data = Some (Dec rate) ->
  cache_writable w = true ->
  get_cached_trm get_trm_cache w = (Ok None, w) ->
  fromisoformat py (isoformat py (now w)) = Some (now w) ->
  Decimal_of_json py (JNum rate) = Some (Dec rate) ->
  exists w1,
    TRMServiceOptimized_obtener_trm_actual (TRMServiceOptimized_init true) w
    = (Ok (Dec rate), w1)
    /\ api_calls w1 = S (api_calls w)
    /\ forall w2,
         cache_file w2 = cache_file w1 ->
         (now w2 - now w < 24 * 3600 * 1000000)%Z ->
         TRMServiceOptimized_obtener_trm_actual
           (TRMServiceOptimized_init true) w2
         = (Ok (Dec rate), w2).
Proof.
  intros Hapi Hrate Hw Hmiss Hiso Hdec.
  rewrite (optimized_fetch_and_store data rate w Hapi Hrate Hw Hmiss).
  eexists. split; [reflexivity|]. split; [reflexivity|].
  intros w2 Hfile Hfresh.
  unfold TRMServiceOptimized_obtener_trm_actual.
  cbn [use_cache cache TRMServiceOptimized_init]. unfold bind.
  rewrite (get_cached_trm_entry get_trm_cache w2 _ (now w) rate Hfile).
  2:{ eexists. eexists. eexists. split; [reflexivity|].
      split; [reflexivity|]. split; [exact Hiso|].
      split; [reflexivity|exact Hdec]. }
  apply Z.ltb_lt in Hfresh.
  change (cache_duration get_trm_cache) with (24 * 3600 * 1000000)%Z.
  rewrite Hfresh. reflexivity.
Qed.

(** ** Validation and summary *)

Lemma transform_data_self_eq {S} {RS : RateService S}
    (trm_service : option S) (df : Raw.DataFrame) (trm_value : option Decimal)
    (w : World) :
  transform_data_self trm_service df trm_value w
  = match _clean_data df with
    | Raise e => (Raise e, w)
    | Ok cleaned =>
        match resolve_trm trm_service trm_value w with
        | (Raise e, w') => (Raise e, w')
        | (Ok rate, w') =>
            match float rate with
            | Raise e => (Raise e, w')
            | Ok trm_float =>
                (Ok (List.map (canonical_record trm_float
                                 (strftime py MYSQL_DATETIME_FORMAT (now w')))
                              cleaned, rate), w')
            end
        end
    end.
Proof.
  unfold transform_data_self, bind at 1, lift at 1.
  destruct (_clean_data df) as [cleaned|e]; [|reflexivity].
  unfold bind at 1.
  destruct (resolve_trm trm_service trm_value w) as [[rate|e] w'];
    [|reflexivity].
  rewrite _transform_income_to_cop_rowwise, _transform_age_to_lustros_rowwise,
    _transform_illness_rowwise, _transform_gender_rowwise.
  unfold _transform_income_to_cop_vectorized, bind, lift, rbind.
  destruct (float rate) as [trm_float|e]; [|reflexivity].
  unfold _add_transformation_metadata, bind, get_processing_timestamp, ret,
    _transform_age_to_lustros_vectorized.
  rewrite !map_map. reflexivity.
Qed.

(** The report of [transform_otaku_data] is that of the frame
    [transform_data] returns. *)
Lemma transform_otaku_data_report_eq {S} {RS : RateService S}
    (trm_service : option S) (df : Raw.DataFrame) (trm_value : option Decimal)
    (w w' : World) (out : list Canon.Row) (v : ValidationResult)
    (s : option TransformationSummary) :
  transform_otaku_data_report trm_service df trm_value w
  = (Ok (out, (v, s)), w') ->
  exists cleaned rate trm_float,
    _clean_data df = Ok cleaned
    /\ resolve_trm trm_service trm_value w = (Ok rate, w')
    /\ float rate = Ok trm_float
    /\ out = List.map (canonical_record trm_float
                         (strftime py MYSQL_DATETIME_FORMAT (now w'))) cleaned
    /\ transform_data trm_service df trm_value w = (Ok out, w')
    /\ v = validate_transformed_data out
    /\ s = get_transformation_summary (Some rate) df out.
Proof.
  unfold transform_otaku_data_report, bind.
  rewrite transform_data_self_eq, transform_data_outcome.
  unfold transform_outcome.
  destruct (_clean_data df) as [cleaned|e]; [|discriminate].
  destruct (resolve_trm trm_service trm_value w) as [[rate|e] w1];
    [|discriminate].
  destruct (float rate) as [trm_float|e] eqn:Hf; [|discriminate].
  unfold ret. intros H. injection H as <- <- <- <-.
  exists cleaned, rate, trm_float. repeat split; try reflexivity.
  assumption.
Qed.

Lemma filter_nil_iff {A} (p : A -> bool) (l : list A) :
  filter p l = [] <-> forall x, In x l -> p x = false.
Proof.
  split; [apply filter_nil_forall|apply filter_none_left].
Qed.

Lemma is_valid_iff (df : list Canon.Row) :
  is_valid (validate_transformed_data df) = true
  <-> forall r, In r df -> cell_lt (Canon.ingreso_cop r) 0 = false.
Proof.
  unfold validate_transformed_data.
  destruct (filter (fun r => cell_lt (Canon.ingreso_cop r) 0) df) eqn:E;
    cbn [is_valid].
  - split; [intros _|reflexivity]. apply filter_nil_iff. assumption.
  - split; [discriminate|]. intros H. apply filter_nil_iff in H.
    congruence.
Qed.

Lemma is_valid_errors (df : list Canon.Row) :
  is_valid (validate_transformed_data df) = true
  <-> validation_errors (validate_transformed_data df) = [].
Proof.
  unfold validate_transformed_data.
  destruct (filter (fun r => cell_lt (Canon.ingreso_cop r) 0) df);
    cbn [is_valid validation_errors]; split; try reflexivity; discriminate.
Qed.

Lemma warnings_iff (df : list Canon.Row) :
  warnings (validate_transformed_data df) = []
  <-> forall r, In r df ->
                cell_lt (Canon.edad_lustros r) 0 = false
                /\ cell_gt (Canon.edad_lustros r) 24 = false.
Proof.
  unfold validate_transformed_data.
  set (p := fun r => cell_lt (Canon.edad_lustros r) 0
                     || cell_gt (Canon.edad_lustros r) 24).
  assert (Hw : forall errs : list string * bool,
            warnings
              (let '(errors, is_valid) := errs in
               mkValidation is_valid errors
                 match filter p df with
                 | [] => []
                 | _ :: _ =>
                     [(str_nat (Datatypes.length (filter p df))
                       ++ " registros con lustros fuera de rango")%string]
                 end
                 (mkStatistics (Datatypes.length df)
                    (series_mean py (List.map Canon.edad_lustros df))
                    (series_mean py (List.map Canon.ingreso_cop df))
                    (value_counts (List.map Canon.genero_es df))
                    (value_counts (List.map Canon.enfermedad_es df))))
            = match filter p df with
              | [] => []
              | _ :: _ =>
                  [(str_nat (Datatypes.length (filter p df))
                    ++ " registros con lustros fuera de rango")%string]
              end)
    by (intros [errors valid]; reflexivity).
  rewrite Hw. clear Hw.
  destruct (filter p df) eqn:E.
  - split; [intros _|reflexivity]. intros r Hr.
    apply (proj1 (filter_nil_iff _ _)) with (x := r) in E; [|assumption].
    unfold p in E. apply orb_false_iff in E. exact E.
  - split; [discriminate|]. intros H. exfalso.
    assert (Hin : In r (filter p df)) by (rewrite E; left; reflexivity).
    apply filter_In in Hin. destruct Hin as [Hr Hp]. unfold p in Hp.
    destruct (H r Hr) as [H1 H2]. rewrite H1, H2 in Hp. discriminate.
Qed.

(** The validation that [transform_otaku_data] runs is advisory: the frame
    it returns is the frame of [transform_data], valid or not.  The frame
    is valid exactly when no [ingreso_cop] is below zero, which is exactly
    when the validation has no error; it has no warning exactly when no
    [edad_lustros] is below 0 or above 24.  The comparisons are those of
    doubles: a NaN and a negative zero are not below zero. *)
Theorem validation_is_advisory {S} {RS : RateService S}
    (trm_service : option S) (df : Raw.DataFrame) (trm_value : option Decimal)
    (w w' : World) (out : list Canon.Row) (v : ValidationResult)
    (s : option TransformationSummary) :
  transform_otaku_data_report trm_service df trm_value w
  = (Ok (out, (v, s)), w') ->
  transform_data trm_service df trm_value w = (Ok out, w')
  /\ v = validate_transformed_data out
  /\ (is_valid v = true
      <-> forall r, In r out ->
            F64.ltb (F64.get (Canon.ingreso_cop r)) (F64.of_Z 0) = false)
  /\ (is_valid v = true <-> validation_errors v = [])
  /\ (warnings v = []
      <-> forall r, In r out ->
            F64.ltb (F64.get (Canon.edad_lustros r)) (F64.of_Z 0) = false
            /\ F64.ltb (F64.of_Z 24) (F64.get (Canon.edad_lustros r))
               = false)
  /\ total_records (statistics v) = List.length out
  /\ F64.ltb (S754_zero true) (F64.of_Z 0) = false
  /\ F64.ltb F64.nan (F64.of_Z 0) = false.
Proof.
  intros H.
  destruct (transform_otaku_data_report_eq _ _ _ _ _ _ _ _ H)
    as (cleaned & rate & trm_float & Hclean & Hrate & Hf & Hout & Hrun
        & -> & ->).
  split; [assumption|]. split; [reflexivity|].
  split; [apply is_valid_iff|].
  split; [apply is_valid_errors|]. split; [apply warnings_iff|].
  split; [|split; reflexivity].
  unfold validate_transformed_data.
  destruct (filter (fun r => cell_lt (Canon.ingreso_cop r) 0) out);
    reflexivity.
Qed.

Lemma filter_split_length {A} (p : A -> bool) (l : list A) :
  List.length l
  = (List.length (filter (fun a => negb (p a)) l)
     + List.length (filter p l))%nat.
Proof.
  induction l as [|a l IH]; [reflexivity|]. cbn [filter].
  destruct (p a); cbn [negb List.length]; lia.
Qed.

(** The summary accounts for every row of the input: the rows it counts as
    transformed are the rows that survived cleaning, the rows it counts as
    lost are those with a missing critical value, and the two add up to the
    rows of the input, so [records_lost] is never negative.  [trm_used] is
    the rate of the records unless that rate is zero: a rate of zero, which
    a rate service may return, is reported as no rate at all. *)
Theorem summary_accounts_for_rows {S} {RS : RateService S}
    (trm_service : option S) (df : Raw.DataFrame) (trm_value : option Decimal)
    (w w' : World) (out : list Canon.Row) (v : ValidationResult)
    (summary : option TransformationSummary) :
  transform_otaku_data_report trm_service df trm_value w
  = (Ok (out, (v, summary)), w') ->
  exists s,
    summary = Some s
    /\ original_records s = List.length (Raw.rows df)
    /\ transformed_records s = List.length (survivors df)
    /\ List.length out = List.length (survivors df)
    /\ records_lost s
       = Z.of_nat (List.length
                     (filter (fun raw =>
                                critical_null (clean_row (Raw.dtypes df) raw))
                             (Raw.rows df)))
    /\ (Z.of_nat (original_records s)
        = Z.of_nat (transformed_records s) + records_lost s)%Z
    /\ exists rate trm_float,
         resolve_trm trm_service trm_value w = (Ok rate, w')
         /\ float rate = Ok trm_float
         /\ Forall (fun r => Canon.trm_utilizada r = F64.cell trm_float) out
         /\ trm_used s = if truthy rate then Some trm_float else None.
Proof.
  intros H.
  destruct (transform_otaku_data_report_eq _ _ _ _ _ _ _ _ H)
    as (cleaned & rate & trm_float & Hclean & Hrate & Hf & Hout & Hrun
        & -> & ->).
  destruct (_clean_data_survivors df cleaned Hclean) as (_ & _ & Hc).
  assert (Hlen : List.length out = List.length (survivors df)).
  { rewrite Hout, Hc, !length_map. reflexivity. }
  pose proof (filter_split_length
                (fun raw => critical_null (clean_row (Raw.dtypes df) raw))
                (Raw.rows df)) as Hsplit.
  change (filter _ (Raw.rows df)) with (survivors df) in Hsplit at 1.
  assert (Hs : float_if_truthy (Some rate)
               = Ok (if truthy rate then Some trm_float else None)).
  { unfold float_if_truthy. rewrite Hf. destruct (truthy rate); reflexivity. }
  unfold get_transformation_summary. rewrite Hs.
  eexists. split; [reflexivity|].
  cbn [original_records transformed_records records_lost trm_used].
  split; [reflexivity|]. split; [assumption|]. split; [assumption|].
  split; [lia|]. split; [lia|].
  exists rate, trm_float. split; [assumption|]. split; [assumption|]. split.
  - apply Forall_forall. intros r Hr. rewrite Hout in Hr.
    apply in_map_iff in Hr. destruct Hr as (c & <- & _). reflexivity.
  - reflexivity.
Qed.

(** ** Validation by the rate service *)

Lemma validar_trm_iff (valor : json) (rate : Decimal) :
  Decimal_of_json py valor = Some rate ->
  validar_trm valor = true
  <-> exists q : Q, rate = Dec q /\ 3000 <= q <= 6000.
Proof.
  intros Hd. unfold validar_trm, Decimal_str. rewrite Hd. cbn [rbind].
  destruct rate as [q| | |[]]; cbn [Decimal_le rbind].
  - destruct (Qle_bool 3000 q) eqn:E1.
    + cbn [Decimal_le]. rewrite Qle_bool_iff in E1. split.
      * intros E2. apply Qle_bool_iff in E2. eauto.
      * intros (q' & E & _ & H). injection E as <-.
        apply Qle_bool_iff. assumption.
    + split; [discriminate|]. intros (q' & E & H & _). injection E as <-.
      apply Qle_bool_iff in H. congruence.
  - split; [discriminate|]. intros (q & E & _). discriminate E.
  - split; [discriminate|]. intros (q & E & _). discriminate E.
  - split; [discriminate|]. intros (q & E & _). discriminate E.
  - split; [discriminate|]. intros (q & E & _). discriminate E.
Qed.

(** A rate that the endpoint delivers is used without a check.  Whatever
    the [valor] of the answer is read as, zero, negative numbers, NaN and
    the infinities included, its float is the rate of every record, and
    [ingreso_cop] is computed with it; [validar_trm], which accepts exactly
    the numbers from 3000 to 6000, has no part in the transformation. *)
Theorem fetched_rate_is_not_validated (df : Raw.DataFrame)
    (m : PyStr.dict json) (rest : list json) (valor : json) (rate : Decimal)
    (w w' : World) (out : list Canon.Row) :
  api w = Body (Some (JArr (JObj m :: rest))) ->
  PyStr.get m "valor" = Some valor ->
  Decimal_of_json py valor = Some rate ->
  transform_data (Some TRMService_init) df None w = (Ok out, w') ->
  (exists trm_float,
     float rate = Ok trm_float
     /\ Forall (fun r =>
          Canon.trm_utilizada r = F64.cell trm_float
          /\ exists income,
               Canon.ingreso_usd r = Some income
               /\ Canon.ingreso_cop r
                  = F64.cell (F64.round2 (F64.mul (F64.of_Q income)
                                                  trm_float))) out)
  /\ (validar_trm valor = true
      <-> exists q : Q, rate = Dec q /\ 3000 <= q <= 6000)
  /\ api_calls w' = S (api_calls w).
Proof.
  intros Hapi Hv Hd H.
  destruct (transformed_frame (Some TRMService_init) df None w w' out
              (or_introl H))
    as (cleaned & rate' & trm_float & Hclean & Hrate & Hf & ->).
  cbn [resolve_trm obtener_trm_actual TRMService_RateService] in Hrate.
  rewrite TRMService_obtener_trm_actual_eq, Hapi in Hrate.
  cbn [rate_of_outcome json_truthy fallback_trm_of TRMService_init] in Hrate.
  rewrite Hv, Hd in Hrate. injection Hrate as <- <-.
  split; [|split].
  - exists trm_float. split; [assumption|].
    apply Forall_forall. intros r Hr. apply in_map_iff in Hr.
    destruct Hr as (c & <- & Hc).
    destruct (_clean_data_complete _ _ _ Hclean Hc)
      as (a & i & g & l & Ha & Hi & _).
    split; [reflexivity|]. exists i.
    unfold canonical_record. cbn [Canon.ingreso_usd Canon.ingreso_cop].
    rewrite Hi. split; reflexivity.
  - apply validar_trm_iff. assumption.
  - reflexivity.
Qed.

(** ** A rate that is no number *)

Lemma F64_mul_nan (x : F64.t) : F64.mul x F64.nan = F64.nan.
Proof. destruct x; reflexivity. Qed.

Lemma F64_round2_nan : F64.round2 F64.nan = F64.nan.
Proof. reflexivity. Qed.

Lemma prepare_record_amounts (row : Canon.Row) (w : World) :
  exists record,
    prepare_record row w = (Ok record, w)
    /\ Persona.ingreso_cop record = f64_or_zero (Canon.ingreso_cop row)
    /\ Persona.trm_utilizada record = f64_or_zero (Canon.trm_utilizada row).
Proof.
  unfold prepare_record.
  destruct (ensure_mysql_datetime_format_total
              (Some (Canon.fecha_procesamiento row)) w) as [s1 H1].
  unfold bind at 1. rewrite H1.
  destruct (ensure_mysql_datetime_format_total (Some s1) w) as [s2 H2].
  unfold bind at 1. rewrite H2.
  destruct (ensure_mysql_datetime_format_total None w) as [s3 H3].
  unfold bind at 1.
  destruct (strptime_mysql_ok py s2); [unfold ret at 1|rewrite H3];
    unfold ret; eexists; (split; [reflexivity|]); split; reflexivity.
Qed.

(** A rate that [Decimal] reads as NaN, passed or fetched, is truthy and has
    a float, so it is used: the transformation succeeds, every record comes
    out with [ingreso_cop] and [trm_utilizada] missing, the validation finds
    the frame valid, NaN not being below zero, and the loader sends 0.0 for
    both fields to the table. *)
Theorem nan_rate_blanks_the_amounts {S} {RS : RateService S}
    (trm_service : option S) (df : Raw.DataFrame) (trm_value : option Decimal)
    (w w' : World) (out : list Canon.Row) :
  resolve_trm trm_service trm_value w = (Ok DecNaN, w') ->
  (transform_data trm_service df trm_value w = (Ok out, w')
   /\ transform_data_optimized trm_service df trm_value w = (Ok out, w')
   <-> exists cleaned,
         _clean_data df = Ok cleaned
         /\ out = List.map (canonical_record F64.nan
                              (strftime py MYSQL_DATETIME_FORMAT (now w')))
                           cleaned)
  /\ (transform_data trm_service df trm_value w = (Ok out, w') ->
      Forall (fun r => Canon.ingreso_cop r = None
                       /\ Canon.trm_utilizada r = None) out
      /\ is_valid (validate_transformed_data out) = true
      /\ validation_errors (validate_transformed_data out) = []
      /\ forall r w1,
           In r out ->
           exists record,
             prepare_record r w1 = (Ok record, w1)
             /\ Persona.ingreso_cop record = S754_zero false
             /\ Persona.trm_utilizada record = S754_zero false).
Proof.
  intros Hres.
  assert (Hrun : transform_data trm_service df trm_value w = (Ok out, w')
                 <-> exists cleaned,
                       _clean_data df = Ok cleaned
                       /\ out = List.map
                                  (canonical_record F64.nan
                                     (strftime py MYSQL_DATETIME_FORMAT
                                        (now w'))) cleaned).
  { rewrite transform_data_outcome. unfold transform_outcome. rewrite Hres.
    cbn [float]. destruct (_clean_data df) as [cleaned|e]; split.
    - intros H. injection H as <-. eauto.
    - intros (c & E & ->). injection E as <-. reflexivity.
    - discriminate.
    - intros (c & E & _). discriminate E. }
  split.
  { rewrite transform_data_optimized_eq. rewrite <- Hrun. tauto. }
  intros H. apply Hrun in H. destruct H as (cleaned & _ & ->).
  assert (Hall : Forall (fun r => Canon.ingreso_cop r = None
                                  /\ Canon.trm_utilizada r = None)
                   (List.map (canonical_record F64.nan
                                (strftime py MYSQL_DATETIME_FORMAT (now w')))
                             cleaned)).
  { apply Forall_forall. intros r Hr. apply in_map_iff in Hr.
    destruct Hr as (c & <- & _). unfold canonical_record.
    cbn [Canon.ingreso_cop Canon.trm_utilizada].
    rewrite F64_mul_nan, F64_round2_nan. split; reflexivity. }
  rewrite Forall_forall in Hall.
  assert (Hvalid : is_valid
                     (validate_transformed_data
                        (List.map (canonical_record F64.nan
                                     (strftime py MYSQL_DATETIME_FORMAT
                                        (now w'))) cleaned)) = true).
  { apply is_valid_iff. intros r Hr. destruct (Hall r Hr) as [-> _].
    reflexivity. }
  split; [apply Forall_forall; exact Hall|].
  split; [exact Hvalid|]. split; [apply is_valid_errors; exact Hvalid|].
  intros r w1 Hr. destruct (Hall r Hr) as [Hc Ht].
  destruct (prepare_record_amounts r w1) as (record & E & H1 & H2).
  exists record. rewrite H1, H2, Hc, Ht. auto.
Qed.

(** ** Column names and formats of the extractor *)

Lemma lower_char_space (c : ascii) :
  PyStr.is_space (PyStr.lower_char c) = PyStr.is_space c.
Proof. destruct c as [[] [] [] [] [] [] [] []]; reflexivity. Qed.

Lemma lstrip_lower (s : string) :
  PyStr.lstrip (PyStr.lower s) = PyStr.lower (PyStr.lstrip s).
Proof.
  induction s as [|c r IH]; [reflexivity|].
  cbn [PyStr.lower PyStr.lstrip]. rewrite lower_char_space.
  destruct (PyStr.is_space c); [exact IH|reflexivity].
Qed.

Lemma rstrip_lower (s : string) :
  PyStr.rstrip (PyStr.lower s) = PyStr.lower (PyStr.rstrip s).
Proof.
  induction s as [|c r IH]; [reflexivity|].
  cbn [PyStr.lower PyStr.rstrip]. rewrite IH.
  destruct (PyStr.rstrip r) as [|a r']; cbn [PyStr.lower].
  - rewrite lower_char_space. destruct (PyStr.is_space c); reflexivity.
  - reflexivity.
Qed.

Lemma strip_lower (s : string) :
  PyStr.strip (PyStr.lower s) = PyStr.lower (PyStr.strip s).
Proof. unfold PyStr.strip. rewrite lstrip_lower. apply rstrip_lower. Qed.

Lemma clean_char_fixed (c : ascii) :
  is_clean_char c = true ->
  PyStr.is_space c = false /\ PyStr.lower_char c = c
  /\ Ascii.eqb c " " = false /\ is_word_char c = true.
Proof.
  destruct c as [[] [] [] [] [] [] [] []]; intros H;
    try discriminate H; repeat split.
Qed.

Lemma cleaned_char (c : ascii) :
  let c' := if Ascii.eqb (PyStr.lower_char c) " " then "_"%char
            else PyStr.lower_char c in
  is_word_char c' = true -> is_clean_char c' = true.
Proof.
  destruct c as [[] [] [] [] [] [] [] []]; intros c' H;
    try discriminate H; reflexivity.
Qed.

Lemma rstrip_fixed (s : string) :
  string_forall (fun c => negb (PyStr.is_space c)) s = true ->
  PyStr.rstrip s = s.
Proof.
  induction s as [|c r IH]; [reflexivity|].
  cbn [string_forall PyStr.rstrip]. intros H.
  apply andb_prop in H. destruct H as [Hc Hr]. rewrite (IH Hr).
  destruct r; [|reflexivity].
  destruct (PyStr.is_space c); [discriminate Hc|reflexivity].
Qed.

Lemma string_forall_impl (p q : ascii -> bool) (s : string) :
  (forall c, p c = true -> q c = true) ->
  string_forall p s = true -> string_forall q s = true.
Proof.
  intros Hpq. induction s as [|c r IH]; [reflexivity|].
  cbn [string_forall]. intros H. apply andb_prop in H. destruct H as [Hc Hr].
  rewrite (Hpq c Hc), (IH Hr). reflexivity.
Qed.

Lemma strip_fixed (s : string) :
  string_forall is_clean_char s = true -> PyStr.strip s = s.
Proof.
  intros H. unfold PyStr.strip.
  assert (Hl : PyStr.lstrip s = s).
  { destruct s as [|c r]; [reflexivity|]. cbn [string_forall] in H.
    apply andb_prop in H. destruct H as [Hc _].
    apply clean_char_fixed in Hc. destruct Hc as (Hs & _).
    cbn [PyStr.lstrip]. rewrite Hs. reflexivity. }
  rewrite Hl. apply rstrip_fixed.
  revert H. apply string_forall_impl. intros c Hc.
  apply clean_char_fixed in Hc. destruct Hc as (-> & _). reflexivity.
Qed.

Lemma lower_fixed (s : string) :
  string_forall is_clean_char s = true -> PyStr.lower s = s.
Proof.
  induction s as [|c r IH]; [reflexivity|].
  cbn [string_forall PyStr.lower]. intros H.
  apply andb_prop in H. destruct H as [Hc Hr]. rewrite (IH Hr).
  apply clean_char_fixed in Hc. destruct Hc as (_ & -> & _). reflexivity.
Qed.

Lemma spaces_and_filter_fixed (s : string) :
  string_forall is_clean_char s = true ->
  string_filter is_word_char (spaces_to_underscores s) = s.
Proof.
  unfold spaces_to_underscores.
  induction s as [|c r IH]; [reflexivity|].
  cbn [string_forall string_map string_filter]. intros H.
  apply andb_prop in H. destruct H as [Hc Hr].
  apply clean_char_fixed in Hc. destruct Hc as (_ & _ & -> & ->).
  rewrite (IH Hr). reflexivity.
Qed.

Lemma clean_column_name_fixed (s : string) :
  string_forall is_clean_char s = true -> clean_column_name s = s.
Proof.
  intros H. unfold clean_column_name.
  rewrite (strip_fixed _ H), (lower_fixed _ H).
  apply spaces_and_filter_fixed, H.
Qed.

Lemma clean_column_name_chars (h : string) :
  string_forall is_clean_char (clean_column_name h) = true.
Proof.
  unfold clean_column_name, spaces_to_underscores.
  generalize (PyStr.strip h) as s.
  induction s as [|c r IH]; [reflexivity|].
  cbn [PyStr.lower string_map string_filter].
  pose proof (cleaned_char c) as Hc. cbv zeta in Hc.
  destruct (is_word_char _) eqn:E; [|exact IH].
  cbn [string_forall]. rewrite (Hc eq_refl), IH. reflexivity.
Qed.

Lemma clean_column_name_of_variant (h r : string) :
  string_forall is_clean_char r = true ->
  PyStr.strip (PyStr.lower h) = r -> clean_column_name h = r.
Proof.
  intros Hr E. unfold clean_column_name.
  rewrite <- strip_lower, E. apply spaces_and_filter_fixed, Hr.
Qed.

Lemma clean_column_names_fixed (cols : list string) :
  List.map (fun col => PyStr.strip (PyStr.lower col))
           (clean_column_names cols)
  = clean_column_names cols.
Proof.
  unfold clean_column_names. rewrite map_map. apply map_ext. intros h.
  rewrite (lower_fixed _ (clean_column_name_chars h)).
  apply strip_fixed, clean_column_name_chars.
Qed.

Lemma mem_In (k : string) (l : list string) :
  PyStr.mem k l = true <-> In k l.
Proof.
  unfold PyStr.mem. rewrite existsb_exists. split.
  - intros (x & Hx & E). apply String.eqb_eq in E. subst x. exact Hx.
  - intros H. exists k. split; [exact H|apply String.eqb_refl].
Qed.

Lemma validate_required_columns_spec (cols required : list string) :
  validate_required_columns cols required = true
  <-> forall r, In r required ->
        In (PyStr.strip (PyStr.lower r))
           (List.map (fun col => PyStr.strip (PyStr.lower col)) cols).
Proof.
  unfold validate_required_columns.
  set (df_columns := List.map _ cols).
  induction required as [|r rest IH]; cbn [filter].
  - split; [intros _ r []|reflexivity].
  - destruct (PyStr.mem _ df_columns) eqn:E; cbn [negb].
    + rewrite IH. apply mem_In in E. split.
      * intros H r' [<-|Hr']; auto.
      * intros H r' Hr'. apply H. right. exact Hr'.
    + split; [discriminate|]. intros H.
      assert (Hin : In (PyStr.strip (PyStr.lower r)) df_columns)
        by (apply H; left; reflexivity).
      apply mem_In in Hin. congruence.
Qed.

Lemma required_columns_clean (r : string) :
  In r required_columns -> string_forall is_clean_char r = true.
Proof.
  intros H. repeat (destruct H as [<-|H]; [reflexivity|]). destruct H.
Qed.

(** [clean_column_names] brings every header to a word over [a-z0-9_], and
    a header that is such a word already is left alone, so cleaning twice is
    cleaning once.  A header that differs from such a word only in case and
    in surrounding whitespace is cleaned to that word. *)
Theorem clean_column_names_normal_form (cols : list string) :
  Forall (fun col => string_forall is_clean_char col = true)
         (clean_column_names cols)
  /\ clean_column_names (clean_column_names cols) = clean_column_names cols
  /\ (forall h r,
        In h cols -> string_forall is_clean_char r = true ->
        PyStr.strip (PyStr.lower h) = r -> In r (clean_column_names cols)).
Proof.
  split; [|split].
  - apply Forall_forall. intros c Hc. apply in_map_iff in Hc.
    destruct Hc as (h & <- & _). apply clean_column_name_chars.
  - unfold clean_column_names. rewrite map_map. apply map_ext. intros h.
    apply clean_column_name_fixed, clean_column_name_chars.
  - intros h r Hh Hr E. apply in_map_iff. exists h.
    split; [apply clean_column_name_of_variant; assumption|exact Hh].
Qed.

(** [validate_required_columns] compares names without regard to case and
    surrounding whitespace.  On the cleaned headers, where the extractor
    uses it, it accepts exactly when each of name, age, gender, income and
    illness is literally a column, so the later [df['age']] finds it; and
    headers that pass the check uncleaned pass it cleaned. *)
Theorem required_columns_after_cleaning (cols : list string) :
  (validate_required_columns (clean_column_names cols) required_columns = true
   <-> forall r, In r required_columns -> In r (clean_column_names cols))
  /\ (validate_required_columns cols required_columns = true ->
      validate_required_columns (clean_column_names cols) required_columns
      = true).
Proof.
  assert (Hreq : forall r, In r required_columns ->
                   PyStr.strip (PyStr.lower r) = r).
  { intros r Hr. apply required_columns_clean in Hr.
    rewrite (lower_fixed _ Hr). apply strip_fixed, Hr. }
  assert (H1 : validate_required_columns (clean_column_names cols)
                 required_columns = true
               <-> forall r, In r required_columns ->
                     In r (clean_column_names cols)).
  { rewrite validate_required_columns_spec, clean_column_names_fixed.
    split; intros H r Hr; specialize (H r Hr).
    - rewrite (Hreq r Hr) in H. exact H.
    - rewrite (Hreq r Hr). exact H. }
  split; [exact H1|].
  rewrite H1, validate_required_columns_spec. intros H r Hr.
  specialize (H r Hr). rewrite (Hreq r Hr) in H.
  apply in_map_iff in H. destruct H as (h & E & Hh).
  apply in_map_iff. exists h. split; [|exact Hh].
  apply clean_column_name_of_variant;
    [apply required_columns_clean, Hr|exact E].
Qed.

(** [extract_data] returns a frame only for the suffixes .csv, .xlsx, .xls
    and .json, whatever their case: the frame the matching reader returned,
    and never an empty one.  The suffix .txt, although listed among the
    supported formats, always ends in a ValueError, as every unlisted suffix
    does, whatever the readers would return. *)
Theorem extract_data_formats (suffix : string)
    (read : file_reader -> result Table) :
  (forall df,
     extract_data suffix read = Ok df ->
     table_empty df = false
     /\ (PyStr.lower suffix = ".csv" /\ read CsvReader = Ok df
         \/ (PyStr.lower suffix = ".xlsx" \/ PyStr.lower suffix = ".xls")
            /\ read ExcelReader = Ok df
         \/ PyStr.lower suffix = ".json" /\ read JsonReader = Ok df))
  /\ (PyStr.lower suffix = ".txt" ->
      extract_data suffix read
      = Raise (ValueError "Extractor no implementado para: .txt"))
  /\ (~ In (PyStr.lower suffix) [".csv"; ".xlsx"; ".xls"; ".json"] ->
      exists msg, extract_data suffix read = Raise (ValueError msg)).
Proof.
  unfold extract_data. set (extension := PyStr.lower suffix).
  split; [|split].
  - intros df.
    destruct (PyStr.mem extension supported_formats); cbn [negb];
      [|discriminate].
    destruct (String.eqb extension ".csv") eqn:Ecsv.
    { apply String.eqb_eq in Ecsv.
      destruct (read CsvReader) as [t|e]; cbn [rbind]; [|discriminate].
      destruct (table_empty t) eqn:Et; [discriminate|].
      intros H; injection H as <-. auto. }
    destruct (PyStr.mem extension [".xlsx"; ".xls"]) eqn:Exl.
    { apply mem_In in Exl.
      destruct (read ExcelReader) as [t|e]; cbn [rbind]; [|discriminate].
      destruct (table_empty t) eqn:Et; [discriminate|].
      intros H; injection H as <-. split; [exact Et|]. right. left.
      split; [|reflexivity].
      destruct Exl as [<-|[<-|[]]]; auto. }
    destruct (String.eqb extension ".json") eqn:Ejson.
    { apply String.eqb_eq in Ejson.
      destruct (read JsonReader) as [t|e]; cbn [rbind]; [|discriminate].
      destruct (table_empty t) eqn:Et; [discriminate|].
      intros H; injection H as <-. auto. }
    cbn [rbind]. discriminate.
  - intros ->. reflexivity.
  - intros Hn.
    destruct (PyStr.mem extension supported_formats); cbn [negb];
      [|eexists; reflexivity].
    destruct (String.eqb extension ".csv") eqn:Ecsv.
    { apply String.eqb_eq in Ecsv. exfalso. apply Hn. left. auto. }
    destruct (PyStr.mem extension [".xlsx"; ".xls"]) eqn:Exl.
    { apply mem_In in Exl. exfalso. apply Hn.
      destruct Exl as [E|[E|[]]]; cbn; auto. }
    destruct (String.eqb extension ".json") eqn:Ejson.
    { apply String.eqb_eq in Ejson. exfalso. apply Hn. cbn. auto. }
    eexists. reflexivity.
Qed.

(** ** A frame that the extractor has validated *)

Lemma compare_with_number_ok (dt : dtype) (col : list cell) :
  compare_with_number dt col = Ok tt
  <-> (dt = object -> forall s, ~ In (Str s) col).
Proof.
  unfold compare_with_number. destruct dt.
  - destruct (existsb _ col) eqn:E.
    + split; [discriminate|]. intros H. exfalso.
      apply existsb_exists in E. destruct E as ([| | s | q] & Hin & Hc);
        try discriminate Hc.
      exact (H eq_refl s Hin).
    + split; [|reflexivity]. intros _ _ s Hin.
      assert (existsb (fun c => match c with Str _ => true | _ => false end)
                col = true)
        by (apply existsb_exists; exists (Str s); auto).
      congruence.
  - split; [discriminate|reflexivity].
Qed.

(** A frame passes [_validate_otaku_data] exactly when its gender column is
    a text column and neither the age nor the income column holds text.
    For such a frame the transformation, with the rate service of the
    repository, raises only when the illness column is not a text column,
    or when it is one and the rate that was passed or fetched is a
    signalling NaN; a text in the age or income of a row, which the
    transformer would coerce to a missing value and drop, never gets that
    far. *)
Theorem validated_frame_transform (df : Raw.DataFrame) :
  (_validate_otaku_data df = Ok tt
   <-> Raw.d_gender (Raw.dtypes df) = object
       /\ (Raw.d_age (Raw.dtypes df) = object ->
           forall r s, In r (Raw.rows df) -> Raw.age r <> Str s)
       /\ (Raw.d_income (Raw.dtypes df) = object ->
           forall r s, In r (Raw.rows df) -> Raw.income r <> Str s))
  /\ (_validate_otaku_data df = Ok tt ->
      forall trm_value w e w',
        transform_data (Some TRMService_init) df trm_value w = (Raise e, w')
        <-> (Raw.d_illness (Raw.dtypes df) = float64
             /\ e = str_accessor_error /\ w' = w)
            \/ (Raw.d_illness (Raw.dtypes df) = object
                /\ resolve_trm (Some TRMService_init) trm_value w
                   = (Ok DecSNaN, w')
                /\ e = ValueError "cannot convert signaling NaN to float")).
Proof.
  assert (Hcol : forall (f : Raw.Row -> cell),
            (forall s, ~ In (Str s) (List.map f (Raw.rows df)))
            <-> (forall r s, In r (Raw.rows df) -> f r <> Str s)).
  { intros f. split.
    - intros H r s Hr E. apply (H s). rewrite <- E. apply in_map, Hr.
    - intros H s Hin. apply in_map_iff in Hin.
      destruct Hin as (r & E & Hr). exact (H r s Hr E). }
  assert (H1 : _validate_otaku_data df = Ok tt
               <-> Raw.d_gender (Raw.dtypes df) = object
                   /\ (Raw.d_age (Raw.dtypes df) = object ->
                       forall r s, In r (Raw.rows df) -> Raw.age r <> Str s)
                   /\ (Raw.d_income (Raw.dtypes df) = object ->
                       forall r s, In r (Raw.rows df) ->
                                   Raw.income r <> Str s)).
  { unfold _validate_otaku_data.
    pose proof (compare_with_number_ok (Raw.d_age (Raw.dtypes df))
                  (List.map Raw.age (Raw.rows df))) as Ha.
    pose proof (compare_with_number_ok (Raw.d_income (Raw.dtypes df))
                  (List.map Raw.income (Raw.rows df))) as Hi.
    rewrite (Hcol Raw.age) in Ha. rewrite (Hcol Raw.income) in Hi.
    destruct (compare_with_number (Raw.d_age _) _) as [[]|ea]; cbn [rbind].
    2:{ split; [discriminate|]. intros (_ & H & _).
        apply Ha in H. discriminate H. }
    unfold str_accessor.
    destruct (Raw.d_gender (Raw.dtypes df)); cbn [rbind].
    2:{ split; [discriminate|]. intros (H & _). discriminate H. }
    destruct (compare_with_number (Raw.d_income _) _) as [[]|ei]; cbn [rbind].
    2:{ split; [discriminate|]. intros (_ & _ & H).
        apply Hi in H. discriminate H. }
    split; [|reflexivity]. intros _. split; [reflexivity|].
    split; [apply Ha|apply Hi]; reflexivity. }
  split; [exact H1|].
  intros Hv trm_value w e w'. apply H1 in Hv. destruct Hv as (Hg & _).
  rewrite transform_data_raise by apply resolve_trm_plain_total.
  rewrite _clean_data_raise.
  unfold _clean_data, str_accessor. rewrite Hg. cbn [rbind].
  destruct (Raw.d_illness (Raw.dtypes df)); cbn [rbind]; split.
  - intros [([[H|H] _] & _)|(_ & H & ->)]; [discriminate H|discriminate H|].
    right. auto.
  - intros [(H & _)|(_ & H & ->)]; [discriminate H|]. right. eauto.
  - intros [([_ ->] & ->)|([c H] & _)]; [auto|discriminate H].
  - intros [(_ & -> & ->)|(H & _)]; [|discriminate H]. left. auto.
Qed.

(** ** Importing a file into the table *)

Lemma survivors_length (df : Raw.DataFrame) :
  (List.length (survivors df) <= List.length (Raw.rows df))%nat.
Proof. unfold survivors. apply filter_length_le. Qed.

(** The import endpoint always answers, whatever the file holds and
    whatever rate is fetched, and writes no file.  A finished
    import has committed the rows of the open transaction and then the rows
    it counts as inserted, has asked for the rate once, and reports as
    processed the rows of the file, of which the records returned are those
    that survived cleaning.  An error answer has committed nothing; it has
    the status 500 only when a file and a connection were there, and the
    statuses 400 and 503 leave everything as it was. *)
Theorem import_to_database_outcome
    (db_connection : option DatabaseConnection)
    (upload : option (string * result Raw.DataFrame)) (w : World) :
  exists response w',
    import_to_database TRMService_init db_connection upload w
    = (Ok response, w')
    /\ output_dir w' = output_dir w
    /\ match response with
       | ImportDone records_processed records_inserted data filename =>
           exists df added,
             upload = Some (filename, Ok df)
             /\ records_processed = List.length (Raw.rows df)
             /\ List.length data = List.length (survivors df)
             /\ (0 < List.length data <= records_processed)%nat
             /\ committed (db w')
                = (committed (db w) ++ pending (db w) ++ added)%list
             /\ pending (db w') = []
             /\ records_inserted = List.length added
             /\ api_calls w' = S (api_calls w)
       | ImportError status _ =>
           committed (db w') = committed (db w)
           /\ (status = 400 \/ status = 503 \/ status = 500)%nat
           /\ (status = 500%nat -> db_connection <> None /\ upload <> None)
           /\ (status <> 500%nat -> w' = w)
       end.
Proof.
  unfold import_to_database.
  destruct upload as [[filename input_file]|].
  2:{ eexists. eexists. split; [reflexivity|]. split; [reflexivity|].
      split; [reflexivity|]. split; [auto|]. split; [discriminate|auto]. }
  destruct (String.eqb filename "").
  { eexists. eexists. split; [reflexivity|]. split; [reflexivity|].
    split; [reflexivity|]. split; [auto|]. split; [discriminate|auto]. }
  destruct db_connection as [conn|].
  2:{ eexists. eexists. split; [reflexivity|]. split; [reflexivity|].
      split; [reflexivity|]. split; [auto|]. split; [discriminate|auto]. }
  assert (Hfail : forall msg w1,
            output_dir w1 = output_dir w ->
            committed (db w1) = committed (db w) ->
            output_dir w1 = output_dir w
            /\ match ImportError 500 msg with
               | ImportDone records_processed records_inserted data filename0 =>
                   exists df added,
                     Some (filename, input_file) = Some (filename0, Ok df)
                     /\ records_processed = List.length (Raw.rows df)
                     /\ List.length data = List.length (survivors df)
                     /\ (0 < List.length data <= records_processed)%nat
                     /\ committed (db w1)
                        = (committed (db w) ++ pending (db w) ++ added)%list
                     /\ pending (db w1) = []
                     /\ records_inserted = List.length added
                     /\ api_calls w1 = S (api_calls w)
               | ImportError status _ =>
                   committed (db w1) = committed (db w)
                   /\ (status = 400 \/ status = 503 \/ status = 500)%nat
                   /\ (status = 500%nat ->
                       Some conn <> None
                       /\ Some (filename, input_file) <> None)
                   /\ (status <> 500%nat -> w1 = w)
               end).
  { intros msg w1 Hd Hc. split; [exact Hd|]. split; [exact Hc|].
    split; [auto|]. split; [split; discriminate|].
    intros H. exfalso. apply H. reflexivity. }
  unfold try_except, import_to_database_try, extract_otaku_data,
    transform_otaku_data, bind, lift, ret, raise.
  destruct input_file as [df|e].
  2:{ eexists. eexists. split; [reflexivity|]. apply (Hfail EmptyString); reflexivity. }
  destruct (Raw.rows df) as [|r0 rows] eqn:Erows.
  { eexists. eexists. split; [reflexivity|]. apply (Hfail EmptyString); reflexivity. }
  cbv beta iota.
  destruct (_validate_otaku_data df) as [[]|e].
  2:{ eexists. eexists. split; [reflexivity|]. apply (Hfail EmptyString); reflexivity. }
  rewrite Erows. cbv beta iota.
  rewrite transform_data_outcome. unfold transform_outcome.
  destruct (_clean_data df) as [cleaned|e] eqn:Eclean.
  2:{ eexists. eexists. split; [reflexivity|]. apply (Hfail EmptyString); reflexivity. }
  cbn [resolve_trm obtener_trm_actual TRMService_RateService].
  rewrite TRMService_obtener_trm_actual_eq.
  set (w1 := request_made w).
  destruct (float _) as [trm_float|e].
  2:{ eexists. eexists. split; [reflexivity|]. apply (Hfail EmptyString); reflexivity. }
  destruct cleaned as [|c cleaned].
  { eexists. eexists. split; [reflexivity|]. apply (Hfail EmptyString); reflexivity. }
  cbn [List.map]. cbv beta iota.
  set (data := canonical_record _ _ c :: List.map _ cleaned).
  assert (Hdata : List.length data = List.length (survivors df)).
  { apply _clean_data_survivors in Eclean. destruct Eclean as (_ & _ & E).
    apply (f_equal (@List.length _)) in E. rewrite length_map in E.
    unfold data. cbn [List.length] in *. rewrite length_map. exact E. }
  unfold load_to_database.
  destruct (_prepare_dataframe_for_database_total data w1)
    as (records & Hprep & _).
  unfold bind at 1. rewrite Hprep.
  cbn [insertar_personas_transformadas DatabaseConnection_DbManager].
  unfold bind, ret.
  destruct (insertar_personas_transformadas_plain conn records w1)
    as [[n|e] w2] eqn:E;
    destruct (insertar_plain_outcome _ _ _ _ _ E)
      as ((_ & _ & Hcalls & _ & _ & Hdir & _) & Hp & Hr).
  - destruct Hr as (added & Hc & _ & ->).
    eexists. eexists. split; [reflexivity|]. split; [exact Hdir|].
    exists df, added. split; [reflexivity|]. rewrite Erows.
    split; [reflexivity|]. split; [exact Hdata|].
    split.
    { split; [unfold data; cbn; lia|].
      rewrite Hdata. pose proof (survivors_length df) as Hl.
      rewrite Erows in Hl. exact Hl. }
    split; [exact Hc|]. split; [exact Hp|]. split; [reflexivity|].
    exact Hcalls.
  - eexists. eexists. split; [reflexivity|]. apply (Hfail EmptyString); assumption.
Qed.

(** ** The end of a run of the optimised orchestrator *)

Lemma load_result_files {D} {DM : DbManager D} (df : list Canon.Row)
    (db_manager : option D) (cloud_service : option CloudStorageService)
    (w w' : World) (load_result : LoadResult) (s : sink) :
  load_otaku_data df db_manager cloud_service w = (Ok load_result, w') ->
  file_of s load_result = fst (writer_outcome df w s).
Proof.
  rewrite load_otaku_data_eq.
  destruct (write_files_eq df w) as (w1 & -> & _).
  assert (Hf : file_of s (files_result df w) = fst (writer_outcome df w s))
    by (destruct s; reflexivity).
  destruct db_manager as [m|].
  - destruct (load_to_database df m w1) as [[n|e] w2];
      intros H; injection H as <- _.
    + rewrite file_of_with_database_records. exact Hf.
    + rewrite file_of_with_database_error. exact Hf.
  - intros H; injection H as <- _.
    rewrite file_of_with_database_records. exact Hf.
Qed.

Lemma written_iff_no_fault (df : list Canon.Row) (w : World) (s : sink) :
  s <> SSummary ->
  (fst (writer_outcome df w s) = None <-> sink_fault w s <> None).
Proof.
  intros Hs. unfold writer_outcome.
  assert (E : writer_fault df w s = sink_fault w s)
    by (destruct s; try reflexivity; congruence).
  rewrite E. destruct (sink_fault w s); cbn [fst]; split; congruence.
Qed.

(** A run that is registered in the table of executions ends with 'success'
    True only if both the JSON and the Parquet file were written.  When one
    of the two writers failed, the load has still returned its result, but
    [_finalize_execution] answers 'success' False with the text of a
    TypeError and does not close the registered run, whatever was written
    and inserted otherwise.  A run that is not registered always ends with
    'success' True.  A successful end reports the rows the load inserted,
    and closes a registered run as COMPLETADO exactly when the load had no
    error. *)
Theorem registered_run_needs_json_and_parquet {D} {DM : DbManager D}
    (df : list Canon.Row) (db_manager : option D)
    (cloud_service : option CloudStorageService) (w w' : World)
    (load_result : LoadResult)
    (db_connection : option DatabaseConnectionOptimized)
    (ejecucion_id : option Z) (start_time end_time : Z)
    (extracted_data : Raw.DataFrame)
    (transformation_result
       : ValidationResult * option TransformationSummary) :
  load_otaku_data df db_manager cloud_service w = (Ok load_result, w') ->
  let out :=
    _finalize_execution db_connection ejecucion_id start_time end_time
      extracted_data df transformation_result load_result in
  ((exists r, fst out = ExecutionSuccess r)
   <-> run_is_registered db_connection ejecucion_id = false
       \/ sink_fault w SJson = None /\ sink_fault w SParquet = None)
  /\ (forall msg,
        fst out = ExecutionFailure msg ->
        snd out = None
        /\ msg = "expected str, bytes or os.PathLike object, not NoneType")
  /\ (forall r,
        fst out = ExecutionSuccess r ->
        Execution.records_loaded_db r = database_records load_result
        /\ Execution.errors r = errors load_result
        /\ (run_is_registered db_connection ejecucion_id = false ->
            snd out = None)
        /\ (run_is_registered db_connection ejecucion_id = true ->
            exists call,
              snd out = Some call
              /\ (Finalizar.status call = "COMPLETADO"
                  <-> errors load_result = [])
              /\ (Finalizar.error_message call = None
                  <-> errors load_result = []))).
Proof.
  intros Hload out.
  pose proof (load_result_files df db_manager cloud_service w w' load_result
                SJson Hload) as Hj.
  pose proof (load_result_files df db_manager cloud_service w w' load_result
                SParquet Hload) as Hp.
  cbn [file_of] in Hj, Hp.
  pose proof (written_iff_no_fault df w SJson ltac:(discriminate)) as Wj.
  pose proof (written_iff_no_fault df w SParquet ltac:(discriminate)) as Wp.
  rewrite <- Hj in Wj. rewrite <- Hp in Wp. clear Hj Hp Hload.
  subst out.
  unfold _finalize_execution, _finalize_execution_try, run_is_registered.
  destruct db_connection as [conn|], ejecucion_id as [id|];
    try (cbn; split; [split; eauto|];
         split; [discriminate|]; intros r H; injection H as <-;
         repeat split; try reflexivity; discriminate).
  destruct (id =? 0)%Z;
    try (cbn; split; [split; eauto|];
         split; [discriminate|]; intros r H; injection H as <-;
         repeat split; try reflexivity; discriminate).
  cbn [negb Execution.errors Execution.trm_used].
  destruct (json_file load_result) as [j|]; cbn [os_path_basename rbind].
  2:{ cbn. split.
      - split; [intros (r & H); discriminate H|].
        intros [H|[H _]]; [discriminate H|].
        exfalso. apply Wj; [reflexivity|exact H].
      - split; [intros msg H; injection H as <-; auto|discriminate]. }
  destruct (parquet_file load_result) as [p|]; cbn [os_path_basename rbind].
  2:{ cbn. split.
      - split; [intros (r & H); discriminate H|].
        intros [H|[_ H]]; [discriminate H|].
        exfalso. apply Wp; [reflexivity|exact H].
      - split; [intros msg H; injection H as <-; auto|discriminate]. }
  cbn [fst snd]. split.
  - split; [|eauto]. intros _. right. split.
    + destruct (sink_fault w SJson) eqn:E; [|reflexivity].
      assert (H : Some j = None) by (apply Wj; discriminate).
      discriminate H.
    + destruct (sink_fault w SParquet) eqn:E; [|reflexivity].
      assert (H : Some p = None) by (apply Wp; discriminate).
      discriminate H.
  - split; [discriminate|]. intros r H. injection H as <-.
    cbn [Execution.records_loaded_db Execution.errors].
    split; [reflexivity|]. split; [reflexivity|].
    split; [discriminate|]. intros _. eexists. split; [reflexivity|].
    cbn [Finalizar.status Finalizar.error_message].
    destruct (errors load_result); split; split;
      first [reflexivity | discriminate].
Qed.

(** ** The bulk insert as one transaction *)

Lemma executemany_spec (batch_data : list Persona.Row) (w w' : World)
    (r : result nat) :
  executemany batch_data w = (r, w') ->
  same_outside_db w w' /\ committed (db w') = committed (db w)
  /\ pending (db w')
     = (pending (db w)
        ++ match r with Ok _ => batch_data | Raise _ => [] end)%list
  /\ forall n, r = Ok n -> n = List.length batch_data.
Proof.
  unfold executemany, bind, db_statement.
  destruct (faults (db w)) as [|[|] rest] eqn:E; intros H;
    injection H as <- <-; (split; [outside_db|]); cbn;
    rewrite ?app_nil_r; repeat split; try reflexivity;
    intros n Hn; first [injection Hn as <-; reflexivity|discriminate Hn].
Qed.

Lemma insert_batches_spec (batches : list (list Persona.Row)) :
  forall (insertados duplicados : nat) (w w' : World)
         (r : result (nat * nat)),
    insert_batches batches insertados duplicados w = (r, w') ->
    same_outside_db w w' /\ committed (db w') = committed (db w)
    /\ exists added,
         pending (db w') = (pending (db w) ++ added)%list
         /\ incl added (concat batches)
         /\ forall n d, r = Ok (n, d) ->
                        n = (insertados + List.length added)%nat.
Proof.
  induction batches as [|batch rest IH];
    intros insertados duplicados w w' r H.
  - cbn in H. unfold ret in H. injection H as <- <-.
    split; [apply same_outside_db_refl|]. split; [reflexivity|].
    exists []. rewrite app_nil_r. split; [reflexivity|].
    split; [apply incl_refl|].
    intros n d E. injection E as <- _. cbn. lia.
  - cbn [insert_batches concat] in H. unfold bind at 1 in H.
    destruct (prepare_batch_spec batch w)
      as (data & dup & w1 & Hrun & (Hc1 & Hp1 & Ho1) & _ & Hincl & _).
    rewrite Hrun in H. unfold bind at 1 in H.
    destruct data as [|x data].
    + unfold ret at 1 in H.
      destruct (IH _ _ _ _ _ H) as (Ho & Hc & added & Hp & Hin & Hn).
      split; [eapply same_outside_db_trans; eassumption|].
      split; [congruence|].
      exists added. split; [congruence|].
      split; [apply incl_appr; assumption|].
      intros n d E. rewrite (Hn n d E). lia.
    + destruct (executemany (x :: data) w1) as [[k|e] w2] eqn:E;
        destruct (executemany_spec _ _ _ _ E) as (Ho2 & Hc2 & Hp2 & Hk).
      * destruct (IH _ _ _ _ _ H) as (Ho & Hc & added & Hp & Hin & Hn).
        split; [eauto using same_outside_db_trans|].
        split; [congruence|].
        exists ((x :: data) ++ added)%list.
        split; [rewrite Hp, Hp2, Hp1, <- app_assoc; reflexivity|].
        split; [apply incl_app; [apply incl_appl; assumption
                                |apply incl_appr; assumption]|].
        intros n d En. rewrite (Hn n d En), (Hk k eq_refl), length_app. lia.
      * injection H as <- <-.
        split; [eauto using same_outside_db_trans|].
        split; [congruence|].
        exists []. rewrite app_nil_r in *.
        split; [congruence|]. split; [apply incl_nil_l|].
        intros n d En. discriminate En.
Qed.

Lemma incl_batches {A} (l : list A) (step : nat) :
  incl (concat (List.map (fun i => slice l i (i + step))
                         (range_step (List.length l) step))) l.
Proof.
  intros x Hx. apply in_concat in Hx. destruct Hx as (batch & Hb & Hx).
  apply in_map_iff in Hb. destruct Hb as (i & <- & _).
  eapply In_slice. exact Hx.
Qed.

(** The bulk insert is one transaction, however many batches it sends.  For
    an empty list it returns 0 and does nothing at all.  Otherwise, when it
    returns [n], the rows of the open transaction and [n] records of the
    input have been committed together at the end; when it raises, at
    whichever batch, it has rolled back: the committed rows are those from
    before the call.  Either way nothing is left pending and nothing outside
    the database is touched. *)
Theorem bulk_insert_all_or_nothing (self : DatabaseConnectionOptimized)
    (records_data : list Persona.Row) (batch_size : nat) (w w' : World)
    (r : result nat) :
  insertar_personas_transformadas_bulk self records_data batch_size w
  = (r, w') ->
  same_outside_db w w'
  /\ (records_data = [] -> r = Ok 0%nat /\ w' = w)
  /\ (records_data <> [] ->
      pending (db w') = []
      /\ match r with
         | Ok n =>
             exists added,
               committed (db w')
               = (committed (db w) ++ pending (db w) ++ added)%list
               /\ incl added records_data /\ n = List.length added
         | Raise _ => committed (db w') = committed (db w)
         end).
Proof.
  unfold insertar_personas_transformadas_bulk, try_except,
    insertar_personas_transformadas_bulk_try.
  destruct records_data as [|r0 rs].
  { unfold ret. intros H. injection H as <- <-.
    split; [apply same_outside_db_refl|]. split; [auto|].
    intros H. exfalso. apply H. reflexivity. }
  set (records_data := r0 :: rs). intros H.
  assert (Goal :
    same_outside_db w w' /\ pending (db w') = []
    /\ match r with
       | Ok n =>
           exists added,
             committed (db w')
             = (committed (db w) ++ pending (db w) ++ added)%list
             /\ incl added records_data /\ n = List.length added
       | Raise _ => committed (db w') = committed (db w)
       end).
  2:{ destruct Goal as (Ho & Hp & Hr). split; [exact Ho|].
      split; [discriminate|]. intros _. split; assumption. }
  unfold bind at 1 in H.
  destruct (db_statement w) as [[[]|e0] w0] eqn:E0;
    destruct (db_statement_rows _ _ _ E0) as (Hc0 & Hp0 & Ho0).
  2:{ unfold bind, rollback, raise in H. injection H as <- <-. cbn.
      split; [eauto using same_outside_db_trans, same_outside_db_set_db|].
      split; [reflexivity|assumption]. }
  unfold bind at 1 in H.
  destruct batch_size as [|bs].
  { unfold bind, rollback, raise in H. injection H as <- <-. cbn.
    split; [eauto using same_outside_db_trans, same_outside_db_set_db|].
    split; [reflexivity|assumption]. }
  unfold ret at 1 in H. unfold bind at 1 in H.
  match type of H with
  | context [insert_batches ?b 0 0 w0] =>
      destruct (insert_batches b 0 0 w0) as [[[n d]|e1] w1] eqn:E1;
      destruct (insert_batches_spec _ _ _ _ _ _ E1)
        as (Ho1 & Hc1 & added & Hp1 & Hincl & Hn)
  end.
  2:{ unfold bind, rollback, raise in H. injection H as <- <-. cbn.
      split; [eauto using same_outside_db_trans, same_outside_db_set_db|].
      split; [reflexivity|congruence]. }
  unfold bind at 1 in H.
  destruct (commit w1) as [[[]|e2] w2] eqn:E2;
    destruct (commit_spec _ _ _ E2) as (Ho2 & Hc2 & Hp2).
  2:{ unfold bind, rollback, raise in H. injection H as <- <-. cbn.
      split; [eauto using same_outside_db_trans, same_outside_db_set_db|].
      split; [reflexivity|congruence]. }
  unfold ret in H. injection H as <- <-.
  split; [eauto using same_outside_db_trans|].
  split; [assumption|].
  exists added. split; [|split; [|apply (Hn n d eq_refl)]].
  - rewrite Hc2, Hc1, Hp1, Hc0, Hp0. reflexivity.
  - eapply incl_tran; [exact Hincl|apply incl_batches].
Qed.

(** ** The caching service when it has to fetch *)

(** When the caching rate service has to fetch (the cache is off or holds
    no fresh entry), it returns the rate the plain service returns and makes
    the same single request.  Its only other effect is the cache entry, and
    that is written only when the answer is a list whose first element is
    an object: a request that fails, a body that is not JSON and an empty
    answer leave the cache file as it was, so the fallback they give is not
    kept.  An object without [valor], however, gets the fallback 4200
    stored as if it were the rate of the day.  What is stored is the float
    of the rate, so a rate that has none, the signalling NaN, is returned
    but not stored. *)
Theorem caching_service_fetches_like_plain (use_cache : bool) (w : World) :
  (use_cache = true -> get_cached_trm get_trm_cache w = (Ok None, w)) ->
  let rate := rate_of_outcome fallback_trm (api w) in
  let plain_w := request_made w in
  let entry := fun number =>
    Stored (JObj [("timestamp", JStr (isoformat py (now w)));
                  ("trm_value", number)]) in
  TRMService_obtener_trm_actual TRMService_init w = (Ok rate, plain_w)
  /\ exists w',
       TRMServiceOptimized_obtener_trm_actual
         (TRMServiceOptimized_init use_cache) w = (Ok rate, w')
       /\ (w' = plain_w
           \/ use_cache = true /\ cache_writable w = true
              /\ (exists m rest, api w = Body (Some (JArr (JObj m :: rest))))
              /\ exists number,
                   json_float rate = Ok number
                   /\ w' = set_cache_file (entry number) plain_w)
       /\ (forall m rest,
             api w = Body (Some (JArr (JObj m :: rest))) ->
             PyStr.get m "valor" = None ->
             use_cache = true -> cache_writable w = true ->
             rate = Dec fallback_trm
             /\ w' = set_cache_file (entry (JNum fallback_trm)) plain_w).
Proof.
  rename use_cache into uc. intros Hmiss rate plain_w entry.
  split; [apply TRMService_obtener_trm_actual_eq|].
  assert (Hfetch :
    exists w',
      try_except
        (TRMServiceOptimized_fetch (TRMServiceOptimized_init uc))
        (trm_handlers fallback_trm) w = (Ok rate, w')
      /\ (w' = plain_w
          \/ uc = true /\ cache_writable w = true
             /\ (exists m rest, api w = Body (Some (JArr (JObj m :: rest))))
             /\ exists number,
                  json_float rate = Ok number
                  /\ w' = set_cache_file (entry number) plain_w)
      /\ (forall m rest,
            api w = Body (Some (JArr (JObj m :: rest))) ->
            PyStr.get m "valor" = None ->
            uc = true -> cache_writable w = true ->
            rate = Dec fallback_trm
            /\ w' = set_cache_file (entry (JNum fallback_trm)) plain_w)).
  { subst rate plain_w entry.
    unfold TRMServiceOptimized_fetch. run_fetch.
    destruct (api w) as [| |code|[data|]] eqn:Eapi;
      try (handled; eexists; split; [reflexivity|];
           split; [left; reflexivity|discriminate]).
    destruct data as [|b|q|f|s|l|m]; handled;
      try (eexists; split; [reflexivity|];
           split; [left; reflexivity|discriminate]).
    - destruct b; handled; eexists; (split; [reflexivity|]);
        (split; [left; reflexivity|discriminate]).
    - destruct (Qeq_bool q 0); handled; eexists; (split; [reflexivity|]);
        (split; [left; reflexivity|discriminate]).
    - destruct s; handled; eexists; (split; [reflexivity|]);
        (split; [left; reflexivity|discriminate]).
    - destruct l as [|x l]; handled;
        [eexists; split; [reflexivity|];
         split; [left; reflexivity|discriminate]|].
      destruct x as [|b|q|f|s|l0|m]; handled;
        try (eexists; split; [reflexivity|];
             split; [left; reflexivity|discriminate]).
      destruct (PyStr.get m "valor") as [j|] eqn:Ev; handled.
      + destruct (Decimal_of_json py j) as [d|]; handled.
        2:{ eexists. split; [reflexivity|]. split; [left; reflexivity|].
            intros m' rest' H Hv. injection H as <- _. congruence. }
        destruct uc; cbn [use_cache cache TRMServiceOptimized_init].
        * rewrite save_trm_to_cache_total. cbn [cache_writable request_made].
          destruct (json_float d) as [number|e] eqn:Ej.
          2:{ eexists. split; [reflexivity|]. split; [left; reflexivity|].
              intros m' rest' H Hv. injection H as <- _. congruence. }
          destruct (cache_writable w) eqn:Ew.
          -- eexists. split; [reflexivity|]. split.
             ++ right. split; [reflexivity|]. split; [reflexivity|].
                split; [eauto|]. exists number. split; reflexivity.
             ++ intros m' rest' H Hv. injection H as <- _. congruence.
          -- eexists. split; [reflexivity|]. split; [left; reflexivity|].
             intros m' rest' H Hv. injection H as <- _. congruence.
        * eexists. split; [reflexivity|]. split; [left; reflexivity|].
          intros m' rest' H Hv. injection H as <- _. congruence.
      + destruct uc; cbn [use_cache cache TRMServiceOptimized_init].
        * rewrite save_trm_to_cache_total.
          cbn [json_float cache_writable request_made].
          destruct (cache_writable w) eqn:Ew.
          -- eexists. split; [reflexivity|]. split.
             ++ right. split; [reflexivity|]. split; [reflexivity|].
                split; [eauto|]. eexists. split; reflexivity.
             ++ intros m' rest' H Hv _ _. split; reflexivity.
          -- eexists. split; [reflexivity|]. split; [left; reflexivity|].
             intros m' rest' H Hv _ Hw. discriminate Hw.
        * eexists. split; [reflexivity|]. split; [left; reflexivity|].
          intros m' rest' H Hv Hu. discriminate Hu.
    - destruct m; handled; eexists; (split; [reflexivity|]);
        (split; [left; reflexivity|discriminate]). }
  unfold TRMServiceOptimized_obtener_trm_actual.
  destruct uc; cbn [use_cache cache TRMServiceOptimized_init] in *.
  - unfold bind. rewrite (Hmiss eq_refl). exact Hfetch.
  - exact Hfetch.
Qed.

End Pipeline.

(** * The properties on concrete inputs *)

(** The scenario of the specification: Ana, 25, Female, 1000, No at a rate of
    4000 gives 5 lustros, 4,000,000 COP, 'Femenino' and 'No'. *)
Example ana_scenario :
  exists r,
    fst (transform_data SimplePy.lib (RS := TRMService_RateService SimplePy.lib)
           (Some TRMService_init) ana_df (Some (Dec 4000)) world0) = Ok [r]
    /\ Canon.edad_lustros r = Some (F64.of_Z 5)
    /\ Canon.ingreso_cop r = Some (F64.of_Z 4000000)
    /\ Canon.genero_es r = Some "Femenino"
    /\ Canon.enfermedad_es r = Some "No".
Proof. eexists. split; [vm_compute; reflexivity|]. repeat split. Qed.


Lemma C2_counterexample : ~ transform_raises_when_emptied SimplePy.lib.
Proof.
  intros H.
  destruct (H nameless_df None world0) as (e & w' & E);
    [vm_compute; reflexivity|].
  vm_compute in E. discriminate E.
Qed.

Lemma C2_witness :
  exists error w',
    process_etl_pipeline SimplePy.lib TRMService_init None (Ok nameless_df)
                         true world0
    = (Ok (ReportFailure error), w')
    /\ error = "Error en la transformación de datos"%string.
Proof.
  destruct (proj2 (proj2 (proj2 (C2_empty_frame_is_returned SimplePy.lib
                                   nameless_df world0) eq_refl))
              ltac:(discriminate) None true) as (error & w' & E & H).
  exists error, w'. split; [exact E|].
  apply H; [reflexivity|discriminate].
Defined.

Lemma C3_witness :
  exists out w',
    transform_data SimplePy.lib (RS := TRMService_RateService SimplePy.lib)
      (Some TRMService_init) unmapped_df None world0 = (Ok out, w')
    /\ Forall2 (fun raw r =>
         ~ In (normalized SimplePy.lib (Raw.illness raw)) illness_vocabulary ->
         Canon.enfermedad_es r = Some "No"
         /\ Canon.enfermedad_es r <> Some "Sí"
         /\ Canon.enfermedad_es r
            <> Some (py_str SimplePy.lib (Raw.illness raw)))
       (survivors SimplePy.lib unmapped_df) out.
Proof.
  eexists. eexists.
  refine ((fun E => conj E
             (C3_illness_falls_back_to_no SimplePy.lib (Some TRMService_init)
                unmapped_df None world0 _ _ (or_introl E))) _).
  cbv. reflexivity.
Defined.

Lemma C4_witness : Work.genero_es other_row_localised = Some "Other".
Proof.
  apply (proj1 (C4_gender_identity_fallback SimplePy.lib) [other_row]
               other_row_localised "Other").
  - left. vm_compute. left. reflexivity.
  - reflexivity.
  - vm_compute. intros [H|[H|[H|[H|H]]]]; try discriminate H. exact H.
Defined.

Lemma C9_witness :
  exists out w',
    transform_data SimplePy.lib (RS := TRMService_RateService SimplePy.lib)
      (Some TRMService_init) cents_df (Some (Dec 0)) world0 = (Ok out, w')
    /\ List.map Canon.ingreso_cop out
       = [Some (F64.of_Z 12180); Some (F64.of_Z 4200000);
          Some (F64.of_Q (1901 # 100))]
    /\ w' = world0
    /\ resolve_trm (RS := TRMService_RateService SimplePy.lib)
              (Some TRMService_init) (Some (Dec 0)) world0
       = (Ok (Dec fallback_trm), world0)
    /\ Forall (fun r =>
         Canon.trm_utilizada r = Some (F64.of_Z 4200)
         /\ forall income,
              Canon.ingreso_usd r = Some income ->
              Canon.ingreso_cop r
              = F64.cell (F64.round2 (F64.mul (F64.of_Q income)
                                              (F64.of_Z 4200))))
       out.
Proof.
  eexists. eexists.
  match goal with
  | |- ?run /\ _ => assert (E : run) by (vm_compute; reflexivity)
  end.
  split; [exact E|]. split; [vm_compute; reflexivity|].
  exact (C9_zero_rate_is_replaced SimplePy.lib (Some TRMService_init)
           cents_df (Some (Dec 0)) world0 _ _
           (or_introl (ex_intro _ 0 (conj eq_refl (Qeq_refl 0))))
           (or_introl E)).
Defined.

Lemma C7_counterexample : ~ malformed_response_gives_fallback SimplePy.lib.
Proof.
  intros H.
  destruct (H world_nan_rate _ eq_refl) as [w' E].
  - intros q. vm_compute. discriminate.
  - vm_compute in E. discriminate E.
Qed.

Lemma C7_witness :
  ((exists w',
      obtener_trm_actual (RateService := TRMService_RateService SimplePy.lib)
        TRMService_init world0 = (Ok (Dec 4200), w'))
   /\ (forall use_cache,
         (use_cache = true ->
          get_cached_trm SimplePy.lib get_trm_cache world0
          = (Ok None, world0)) ->
         exists w',
           obtener_trm_actual
             (RateService := TRMServiceOptimized_RateService SimplePy.lib)
             (TRMServiceOptimized_init use_cache) world0
           = (Ok (Dec 4200), w')))
  /\ (exists w',
        obtener_trm_actual (RateService := TRMService_RateService SimplePy.lib)
          TRMService_init world_nan_rate = (Ok DecNaN, w')).
Proof.
  split.
  - exact (proj1 (proj2 (proj2 (C7_rate_fetch_failure_gives_fallback
                                  SimplePy.lib world0)))
                 (network_error SimplePy.lib)).
  - exact (proj1 (proj2 (proj2 (proj2 (C7_rate_fetch_failure_gives_fallback
                                         SimplePy.lib world_nan_rate)))
                    _ DecNaN eq_refl eq_refl)).
Defined.


Lemma C10_witness :
  exists w',
    verificar_duplicado "Ana" 25 "" 1000 world_failing_check = (Ok false, w')
    /\ same_rows world_failing_check w'.
Proof.
  exact (proj1 (C10_failing_check_admits ana_persona world_failing_check []
                  eq_refl)).
Defined.

Lemma C6_witness :
  exists result w2,
    load_otaku_data SimplePy.lib [ana_canon] (Some conn) None world_faulty
    = (Ok result, w2)
    /\ committed (db w2) = committed (db world_faulty)
    /\ pending (db w2) = []
    /\ parquet_file result = None
    /\ json_file result
       = Some "data/output/transformed_data_20231114_221320.json"
    /\ errors result
       = ["Error guardando Parquet: pyarrow is not installed";
          "Error cargando a base de datos: MySQL server error"].
Proof.
  destruct (C6_partial_failures_are_collected SimplePy.lib [ana_canon]
              world_faulty) as (files & w1 & Hfiles & _ & _ & _ & Hraise).
  vm_compute in Hfiles. injection Hfiles as <- <-.
  edestruct (Hraise conn None) as (result & Hload & Hc & Hp & _);
    [vm_compute; reflexivity|].
  vm_compute in Hload. injection Hload as <-.
  eexists. eexists. split; [vm_compute; reflexivity|].
  split; [assumption|]. split; [assumption|]. repeat split.
Defined.

Lemma C5_counterexample : ~ second_load_is_fresh SimplePy.lib.
Proof.
  intros H.
  let x := eval vm_compute in
    (load_otaku_data SimplePy.lib [ana_canon] (Some conn) None world0) in
  match x with
  | (Ok ?r1, ?w1) =>
      let y := eval vm_compute in
        (second_load SimplePy.lib [ana_canon] conn w1 1700000000400000) in
      match y with
      | (Ok ?r2, ?w2) =>
          assert (Hx : database_records r2 = 0%nat
                       /\ forall s p1 p2,
                            file_of s r1 = Some p1 -> file_of s r2 = Some p2 ->
                            p1 <> p2)
            by (apply (H [ana_canon] conn world0 w1 w2 r1 r2
                         1700000000400000%Z);
                [reflexivity|vm_compute; reflexivity
                |vm_compute; discriminate|vm_compute; reflexivity])
      end
  end.
  destruct Hx as [_ Hx].
  exact (Hx SJson _ _ eq_refl eq_refl eq_refl).
Qed.

Lemma C5_witness :
  exists r1 w1 r2 w2,
    load_otaku_data SimplePy.lib [ana_canon] (Some conn) None world0
    = (Ok r1, w1)
    /\ second_load SimplePy.lib [ana_canon] conn w1 1700000001000000
       = (Ok r2, w2)
    /\ database_records r2 = 0%nat
    /\ visible_rows (db w2) = visible_rows (db w1)
    /\ json_file r1 <> json_file r2.
Proof.
  let x := eval vm_compute in
    (load_otaku_data SimplePy.lib [ana_canon] (Some conn) None world0) in
  match x with
  | (Ok ?r1, ?w1) =>
      let y := eval vm_compute in
        (second_load SimplePy.lib [ana_canon] conn w1 1700000001000000) in
      match y with
      | (Ok ?r2, ?w2) =>
          exists r1, w1, r2, w2;
          assert (E1 : load_otaku_data SimplePy.lib [ana_canon] (Some conn)
                         None world0 = (Ok r1, w1))
            by (vm_compute; reflexivity);
          assert (E2 : second_load SimplePy.lib [ana_canon] conn w1
                         1700000001000000 = (Ok r2, w2))
            by (vm_compute; reflexivity);
          destruct (C5_second_load_inserts_nothing SimplePy.lib [ana_canon]
                      conn world0 w1 w2 r1 r2 1700000001000000%Z eq_refl E1 E2)
            as (Hn & Hv & Hnames)
      end
  end.
  split; [assumption|]. split; [assumption|]. split; [assumption|].
  split; [assumption|].
  destruct (Hnames SJson _ _ eq_refl eq_refl) as (_ & _ & Hne).
  intros E. apply Hne; [vm_compute; discriminate|].
  exact (f_equal (fun o : option string =>
                    match o with Some q => q | None => EmptyString end) E).
Defined.

(** * The further properties on concrete inputs *)

Lemma missing_text_survives_cleaning_witness :
  exists ana luz w',
    transform_data SimplePy.lib (RS := TRMService_RateService SimplePy.lib)
      (Some TRMService_init) gaps_df (Some (Dec 4000)) world0 = (Ok [ana; luz], w')
    /\ Canon.genero_original luz = Some "nan"
    /\ Canon.genero_es luz = Some "nan"
    /\ Canon.enfermedad_es luz = Some "No".
Proof.
  eexists. eexists. eexists.
  assert (E : transform_data SimplePy.lib
                (RS := TRMService_RateService SimplePy.lib)
                (Some TRMService_init) gaps_df (Some (Dec 4000)) world0
              = (Ok [_; _], _)) by (vm_compute; reflexivity).
  split; [exact E|].
  destruct (missing_text_survives_cleaning SimplePy.lib
              (Some TRMService_init) gaps_df (Some (Dec 4000)) world0 _ _ E eq_refl)
    as [_ HF].
  vm_compute in HF.
  inversion HF as [|a b l l' _ HF2]; subst.
  inversion HF2 as [|a b l l' (_ & Hg & Hi) _]; subst.
  destruct (Hg eq_refl) as [Hg1 Hg2]. destruct (Hi eq_refl) as [_ Hi2].
  auto.
Defined.

Lemma plain_insert_all_or_nothing_witness :
  exists e w',
    insertar_personas_transformadas_plain plain_conn [ana_persona]
      world_third_fails = (Raise e, w')
    /\ committed (db w') = [] /\ pending (db w') = [].
Proof.
  eexists. eexists.
  assert (E : insertar_personas_transformadas_plain plain_conn [ana_persona]
                world_third_fails = (Raise _, _)) by (vm_compute; reflexivity).
  split; [exact E|].
  destruct (plain_insert_all_or_nothing plain_conn [ana_persona]
              world_third_fails _ _ E) as (_ & Hp & Hc).
  split; [exact Hc|exact Hp].
Defined.

Lemma plain_insert_keeps_keys_distinct_witness :
  exists added w',
    insertar_personas_transformadas_plain plain_conn
      [ana_persona; luz_persona; luz_persona] world_with_ana
    = (Ok (List.length added), w')
    /\ committed (db w') = (ana_persona :: added)%list
    /\ distinct_keys (committed (db w')).
Proof.
  destruct (plain_insert_keeps_keys_distinct plain_conn
              [ana_persona; luz_persona; luz_persona] world_with_ana eq_refl)
    as (added & w' & Hrun & Hc & _ & _ & _ & Hd & _).
  exists added, w'. split; [exact Hrun|]. split; [exact Hc|].
  apply Hd. repeat constructor.
Defined.

Lemma bulk_batch_is_not_compared_witness :
  exists w',
    insertar_personas_transformadas_bulk conn [luz_persona; luz_persona] 1000
      world_with_ana = (Ok 2%nat, w')
    /\ committed (db w') = [ana_persona; luz_persona; luz_persona].
Proof.
  destruct (bulk_batch_is_not_compared conn [luz_persona; luz_persona] 1000
              world_with_ana eq_refl) as (w' & Hrun & Hc & _).
  - discriminate.
  - cbn [List.length]. lia.
  - intros r [<-|[<-|[]]]; vm_compute; reflexivity.
  - exists w'. split; [exact Hrun|exact Hc].
Defined.

Lemma pipeline_database_effect_witness :
  exists report w' added,
    process_etl_pipeline SimplePy.lib TRMService_init (Some plain_conn)
      (Ok ana_df) true world0 = (Ok report, w')
    /\ committed (db w') = added
    /\ List.length added = 1%nat.
Proof.
  eexists. eexists.
  assert (E : process_etl_pipeline SimplePy.lib TRMService_init
                (Some plain_conn) (Ok ana_df) true world0
              = (Ok (ReportSuccess _ _ _ _ _), _))
    by (vm_compute; reflexivity).
  destruct (pipeline_database_effect SimplePy.lib (Some plain_conn)
              (Ok ana_df) true world0 _ _ eq_refl E)
    as (added & Hc & _ & _ & _ & Hn & _).
  exists added. split; [exact E|]. split; [exact Hc|].
  symmetry. exact Hn.
Defined.

Lemma pipeline_reports_and_requests_witness :
  exists data n b k w',
    process_etl_pipeline SimplePy.lib TRMService_init None (Ok gaps_df)
      false world_rate_moves
    = (Ok (ReportSuccess data n (Dec (401235 # 100)) b k), w')
    /\ api_calls w' = 2%nat
    /\ Forall (fun r => Canon.trm_utilizada r
                        = Some (F64.of_Q (395025 # 100))) data.
Proof.
  destruct (pipeline_reports_and_requests SimplePy.lib None (Ok gaps_df)
              false world_rate_moves)
    as (report & w' & E & Hs & Hr).
  assert (S : pipeline_success report = true).
  { apply Hs. exists gaps_df. eexists. split; [reflexivity|].
    split; [reflexivity|]. split; [vm_compute; reflexivity|].
    split; discriminate. }
  destruct report as [data n trm b k|msg]; [|discriminate S].
  destruct Hr as (Hc & _ & Htrm & trm_float & Hf & Hall).
  vm_compute in Htrm. vm_compute in Hf. injection Hf as <-. subst trm.
  exists data, n, b, k, w'. split; [exact E|]. split; [exact Hc|exact Hall].
Defined.

Lemma load_merges_records_with_equal_keys_witness :
  exists p w',
    load_to_database SimplePy.lib [ana_canon; ana_again] plain_conn world0
    = (Ok 1%nat, w')
    /\ committed (db w') = [p]
    /\ Persona.genero_es p = "Femenino".
Proof.
  destruct (load_merges_records_with_equal_keys SimplePy.lib plain_conn
              ana_canon ana_again world0 eq_refl eq_refl eq_refl)
    as (p & w' & Hrun & Hc & _ & _ & _ & Hg).
  exists p, w'. split; [exact Hrun|]. split; [exact Hc|exact Hg].
Defined.

Lemma cache_round_trip_witness :
  exists w1,
    save_trm_to_cache SimplePy.lib get_trm_cache (401235 # 100) world0
    = (Ok tt, w1)
    /\ get_cached_trm SimplePy.lib get_trm_cache w1
       = (Ok (Some (Dec (401235 # 100))), w1).
Proof.
  destruct (cache_round_trip SimplePy.lib get_trm_cache (401235 # 100) world0
              eq_refl)
    as (w1 & Hsave & _ & _ & _ & Hnow & Hread);
    [vm_compute; reflexivity|reflexivity|].
  exists w1. split; [exact Hsave|].
  rewrite (Hread w1 eq_refl), Hnow, Z.sub_diag. reflexivity.
Defined.

Lemma cached_rate_saves_the_request_witness :
  exists w1,
    TRMServiceOptimized_obtener_trm_actual SimplePy.lib
      (TRMServiceOptimized_init true) world_online
    = (Ok (Dec (395025 # 100)), w1)
    /\ api_calls w1 = 1%nat
    /\ TRMServiceOptimized_obtener_trm_actual SimplePy.lib
         (TRMServiceOptimized_init true) w1 = (Ok (Dec (395025 # 100)), w1).
Proof.
  destruct (cached_rate_saves_the_request SimplePy.lib
              (JArr [JObj [("valor", JStr "3950.25")]]) (395025 # 100)
              world_online eq_refl)
    as (w1 & Hrun & Hcalls & Hagain);
    [vm_compute; reflexivity|reflexivity|reflexivity|vm_compute; reflexivity
    |reflexivity|].
  exists w1. split; [exact Hrun|]. split; [exact Hcalls|].
  apply Hagain; [reflexivity|].
  assert (Hnow : now w1 = now world_online).
  { vm_compute in Hrun. injection Hrun as <-. reflexivity. }
  rewrite Hnow, Z.sub_diag. reflexivity.
Defined.

Lemma validation_is_advisory_witness :
  exists ana luz v s w',
    transform_otaku_data_report SimplePy.lib
      (RS := TRMService_RateService SimplePy.lib) (Some TRMService_init)
      debt_df (Some (Dec 4000)) world0 = (Ok ([ana; luz], (v, s)), w')
    /\ is_valid v = false
    /\ validation_errors v = ["1 registros con ingresos COP negativos"]
    /\ transform_data SimplePy.lib
         (RS := TRMService_RateService SimplePy.lib) (Some TRMService_init)
         debt_df (Some (Dec 4000)) world0 = (Ok [ana; luz], w').
Proof.
  eexists. eexists. eexists. eexists. eexists.
  assert (E : transform_otaku_data_report SimplePy.lib
                (RS := TRMService_RateService SimplePy.lib)
                (Some TRMService_init) debt_df (Some (Dec 4000)) world0
              = (Ok ([_; _], (_, _)), _)) by (vm_compute; reflexivity).
  split; [exact E|].
  destruct (validation_is_advisory SimplePy.lib (Some TRMService_init)
              debt_df (Some (Dec 4000)) world0 _ _ _ _ E) as (Hrun & _).
  split; [reflexivity|]. split; [reflexivity|exact Hrun].
Defined.

Lemma summary_accounts_for_rows_witness :
  exists out v s w',
    transform_otaku_data_report SimplePy.lib
      (RS := TRMService_RateService SimplePy.lib) (Some TRMService_init)
      gaps_df None world_zero_rate = (Ok (out, (v, Some s)), w')
    /\ original_records s = 3%nat /\ transformed_records s = 2%nat
    /\ records_lost s = 1%Z
    /\ Forall (fun r => Canon.trm_utilizada r = Some (F64.of_Z 0)) out
    /\ trm_used s = None.
Proof.
  eexists. eexists. eexists. eexists.
  assert (E : transform_otaku_data_report SimplePy.lib
                (RS := TRMService_RateService SimplePy.lib)
                (Some TRMService_init) gaps_df None world_zero_rate
              = (Ok (_, (_, Some _)), _)) by (vm_compute; reflexivity).
  split; [exact E|].
  destruct (summary_accounts_for_rows SimplePy.lib (Some TRMService_init)
              gaps_df None world_zero_rate _ _ _ _ E)
    as (s & Hs & _ & _ & _ & _ & _ & rate & trm_float & Hrate & Hf & Hall
        & Hused).
  injection Hs as <-.
  vm_compute in Hrate. injection Hrate as <-.
  vm_compute in Hf. injection Hf as <-.
  split; [reflexivity|]. split; [reflexivity|]. split; [reflexivity|].
  split; [exact Hall|exact Hused].
Defined.

Lemma fetched_rate_is_not_validated_witness :
  exists out w',
    transform_data SimplePy.lib (RS := TRMService_RateService SimplePy.lib)
      (Some TRMService_init) ana_df None world_odd_rate = (Ok out, w')
    /\ Forall (fun r => Canon.trm_utilizada r = Some (F64.of_Z 1)) out
    /\ validar_trm SimplePy.lib (JStr "1") = false.
Proof.
  eexists. eexists.
  assert (E : transform_data SimplePy.lib
                (RS := TRMService_RateService SimplePy.lib)
                (Some TRMService_init) ana_df None world_odd_rate
              = (Ok _, _)) by (vm_compute; reflexivity).
  split; [exact E|].
  destruct (fetched_rate_is_not_validated SimplePy.lib ana_df
              [("valor", JStr "1")] [] (JStr "1") (Dec 1) world_odd_rate _ _
              eq_refl eq_refl eq_refl E)
    as ((trm_float & Hf & Hall) & _ & _).
  vm_compute in Hf. injection Hf as <-.
  split; [|reflexivity].
  eapply Forall_impl; [|exact Hall]. intros r [Hr _]. exact Hr.
Defined.

Lemma import_to_database_outcome_witness :
  exists response w',
    import_to_database SimplePy.lib TRMService_init (Some plain_conn)
      (Some ("otakus.csv", Ok gaps_df)) world0 = (Ok response, w')
    /\ output_dir w' = output_dir world0.
Proof.
  destruct (import_to_database_outcome SimplePy.lib (Some plain_conn)
              (Some ("otakus.csv", Ok gaps_df)) world0)
    as (response & w' & E & Hd & _).
  exists response, w'. split; [exact E|exact Hd].
Defined.

Lemma registered_run_needs_json_and_parquet_witness :
  exists load_result w',
    load_otaku_data SimplePy.lib [ana_canon] (Some conn) None
      world_without_parquet = (Ok load_result, w')
    /\ database_records load_result = 1%nat
    /\ fst (_finalize_execution SimplePy.lib (Some conn) (Some 7%Z)
              1700000000000000 1700000001000000 ana_df [ana_canon]
              (validate_transformed_data SimplePy.lib [ana_canon],
               get_transformation_summary (Some (Dec 4000)) ana_df
                 [ana_canon])
              load_result)
       = ExecutionFailure
           "expected str, bytes or os.PathLike object, not NoneType".
Proof.
  eexists. eexists.
  assert (E : load_otaku_data SimplePy.lib [ana_canon] (Some conn) None
                world_without_parquet
              = (Ok (mkLoadResult _ _ _ _ _ _ _ _), _))
    by (vm_compute; reflexivity).
  split; [exact E|]. split; [reflexivity|].
  destruct (registered_run_needs_json_and_parquet SimplePy.lib [ana_canon]
              (Some conn) None world_without_parquet _ _ (Some conn)
              (Some 7%Z) 1700000000000000 1700000001000000 ana_df
              (validate_transformed_data SimplePy.lib [ana_canon],
               get_transformation_summary (Some (Dec 4000)) ana_df
                 [ana_canon]) E)
    as (_ & Hfail & _).
  destruct (Hfail _ eq_refl) as (_ & Hmsg). reflexivity.
Defined.

Lemma bulk_insert_all_or_nothing_witness :
  exists w',
    insertar_personas_transformadas_bulk conn [ana_persona; luz_persona] 1
      world_third_fails = (Raise (DatabaseError "MySQL server error"), w')
    /\ committed (db w') = [] /\ pending (db w') = [].
Proof.
  eexists.
  assert (E : insertar_personas_transformadas_bulk conn
                [ana_persona; luz_persona] 1 world_third_fails
              = (Raise (DatabaseError "MySQL server error"), _))
    by (vm_compute; reflexivity).
  split; [exact E|].
  destruct (bulk_insert_all_or_nothing conn [ana_persona; luz_persona] 1
              world_third_fails _ _ E) as (_ & _ & H).
  destruct (H ltac:(discriminate)) as (Hp & Hc).
  split; [exact Hc|exact Hp].
Defined.

Lemma caching_service_fetches_like_plain_witness :
  exists w',
    TRMServiceOptimized_obtener_trm_actual SimplePy.lib
      (TRMServiceOptimized_init true) world_without_valor
    = (Ok (Dec 4200), w')
    /\ cache_file w'
       = Stored (JObj [("timestamp", JStr "2023-11-14T22:13:20");
                       ("trm_value", JNum 4200)]).
Proof.
  destruct (caching_service_fetches_like_plain SimplePy.lib true
              world_without_valor (fun _ => eq_refl))
    as (_ & w' & E & _ & H).
  exists w'. split; [exact E|].
  destruct (H _ _ eq_refl eq_refl eq_refl eq_refl) as (_ & ->).
  reflexivity.
Defined.

Lemma nan_rate_blanks_the_amounts_witness :
  exists ana w',
    transform_data SimplePy.lib (RS := TRMService_RateService SimplePy.lib)
      (Some TRMService_init) ana_df None world_nan_rate = (Ok [ana], w')
    /\ Canon.ingreso_usd ana = Some 1000
    /\ Canon.ingreso_cop ana = None
    /\ Canon.trm_utilizada ana = None
    /\ is_valid (validate_transformed_data SimplePy.lib [ana]) = true.
Proof.
  eexists. eexists.
  assert (E : transform_data SimplePy.lib
                (RS := TRMService_RateService SimplePy.lib)
                (Some TRMService_init) ana_df None world_nan_rate
              = (Ok [_], _)) by (vm_compute; reflexivity).
  split; [exact E|]. split; [reflexivity|].
  assert (R : resolve_trm (RS := TRMService_RateService SimplePy.lib)
                (Some TRMService_init) None world_nan_rate
              = (Ok DecNaN, _)) by (vm_compute; reflexivity).
  destruct (proj2 (nan_rate_blanks_the_amounts SimplePy.lib
                     (Some TRMService_init) ana_df None world_nan_rate _ _ R)
              E)
    as (Hall & Hvalid & _).
  inversion Hall as [|a l [Hc Ht] _]; subst.
  split; [exact Hc|]. split; [exact Ht|exact Hvalid].
Defined.
